(** * Finance tracker: a shallow embedding of [finance_tracker.py]

    The development follows the Python source class by class:
    [Transaction] (constructor, [to_dict], [from_dict]) and
    [FinanceTracker] (loading and saving, the two mutators and the
    reporting queries).

    Modelling conventions.
    - Python numbers ([int], [float], and [bool] where it is used as a
      number) are exact rationals ([Qc]); the rounding of binary
      floating point is not in these numbers.  A statement that compares
      sums taken in different orders is stated for amounts that binary
      floating point adds without rounding ([whole_amounts]), and
      [float_category_total] shows on binary64 numbers what rounding
      does otherwise.
    - Python [str] is [string].
    - A value read from the JSON file is dynamically typed: it is a
      [json] value, and the operations the source applies to it raise
      the exception Python raises when the value has the wrong shape.
    - A Python [dict] is an association list in insertion order.
    - Exceptions are values of [exn]; code that may raise returns a
      [result].
    - [datetime.now()] is an argument [now] of every operation that reads
      the clock; one operation sees one instant.  The clock of a run
      shows a time of the years 1970 to 9999.  Where the source does
      arithmetic on the clock (the cutoff of a period) the model keeps
      the range limits of [datetime] and [timedelta]: an [OverflowError]
      outside them, and for a reading that is no clock of a run.
    - Texts are ASCII: [strptime] and [str.lower] are modelled on ASCII
      characters, and what is stated about a text that does not parse
      is stated about ASCII texts. *)

From Stdlib Require Import List String Ascii Bool ZArith QArith Qcanon Qcabs.
From Stdlib Require Import Lia Permutation Sorted PrimFloat.
Import ListNotations.

Local Open Scope string_scope.
Local Open Scope list_scope.

Set Warnings "-inexact-float".

(** ** Exceptions and results *)

Inductive exn : Type :=
| JSONDecodeError
| KeyError
| TypeError
| AttributeError
| ValueError
| ZeroDivisionError
| OverflowError.

Inductive result (A : Type) : Type :=
| Ok (a : A)
| Raise (e : exn).

Arguments Ok {A} a.
Arguments Raise {A} e.

Definition bind {A B : Type} (m : result A) (k : A -> result B) : result B :=
  match m with
  | Ok a => k a
  | Raise e => Raise e
  end.

Notation "x <- m ;; k" := (bind m (fun x => k))
  (at level 61, m at next level, right associativity).

(** [[f(x) for x in l]]: the elements are evaluated from left to right and
    the first exception ends the comprehension. *)
Fixpoint comprehension {A B : Type} (f : A -> result B) (l : list A)
  : result (list B) :=
  match l with
  | [] => Ok []
  | x :: l' => y <- f x ;; ys <- comprehension f l' ;; Ok (y :: ys)
  end.

(** ** Numbers *)

Abbreviation num := Qc (only parsing).

Definition Z2num (z : Z) : num := Q2Qc (inject_Z z).

Definition num_ltb (a b : num) : bool := negb (Qle_bool b a).

(** [a / b] *)
Definition py_div (a b : num) : result num :=
  if Qeq_bool b 0 then Raise ZeroDivisionError else Ok (a / b)%Qc.

(** [sum(xs)]: starts from [0] and adds from left to right. *)
Definition sum (xs : list num) : num :=
  fold_left Qcplus xs (Z2num 0).

(** ** Strings *)

Definition is_upper (c : ascii) : bool :=
  let n := N_of_ascii c in (65 <=? n)%N && (n <=? 90)%N.

Definition lower_ascii (c : ascii) : ascii :=
  if is_upper c then ascii_of_N (N_of_ascii c + 32) else c.

(** [str.lower] *)
Fixpoint lower (s : string) : string :=
  match s with
  | EmptyString => EmptyString
  | String c s' => String (lower_ascii c) (lower s')
  end.

Definition lowercase (s : string) : Prop := lower s = s.

(** ** Dictionaries

    A [dict] keeps its items in insertion order; assigning to a key that
    is present keeps the key's position. *)

Section Dict.
Context {V : Type}.

Definition dict : Type := list (string * V).

Fixpoint dict_get (k : string) (d : dict) : option V :=
  match d with
  | [] => None
  | (k', v) :: d' => if String.eqb k k' then Some v else dict_get k d'
  end.

(** [d.get(k, default)] *)
Definition dict_get_default (k : string) (default : V) (d : dict) : V :=
  match dict_get k d with
  | Some v => v
  | None => default
  end.

(** [d[k] = v] *)
Fixpoint dict_set (k : string) (v : V) (d : dict) : dict :=
  match d with
  | [] => [(k, v)]
  | (k', v') :: d' =>
      if String.eqb k k' then (k, v) :: d' else (k', v') :: dict_set k v d'
  end.

Definition keys (d : dict) : list string := map fst d.

(** The keys of a [dict] are pairwise different. *)
Definition dict_wf (d : dict) : Prop := NoDup (keys d).
End Dict.

Arguments dict V : clear implicits.

(** ** JSON values

    The value [json.load] returns.  The pairs of a [JObj] are the items
    of a Python [dict], in insertion order. *)

#[local] Set Warnings "-register-all".

Inductive json : Type :=
| JNull
| JBool (b : bool)
| JNum (q : num)
| JStr (s : string)
| JArr (l : list json)
| JObj (kvs : list (string * json)).

(** Truth value of a Python object, as [or] tests it. *)
Definition truthy (j : json) : bool :=
  match j with
  | JNull => false
  | JBool b => b
  | JNum q => negb (Qeq_bool q 0)
  | JStr s => negb (String.eqb s "")
  | JArr l => match l with [] => false | _ => true end
  | JObj kvs => match kvs with [] => false | _ => true end
  end.

(** The value as a number, where Python's arithmetic accepts it
    ([bool] is a subtype of [int]). *)
Definition as_num (j : json) : option num :=
  match j with
  | JNum q => Some q
  | JBool b => Some (if b then Z2num 1 else Z2num 0)
  | _ => None
  end.

(** [abs(j)] *)
Definition py_abs (j : json) : result num :=
  match as_num j with
  | Some q => Ok (Qcabs q)
  | None => Raise TypeError
  end.

(** [j.lower()] *)
Definition py_lower (j : json) : result string :=
  match j with
  | JStr s => Ok (lower s)
  | _ => Raise AttributeError
  end.

(** [j[k]] for a string key [k] *)
Definition subscript (j : json) (k : string) : result json :=
  match j with
  | JObj kvs =>
      match dict_get k kvs with
      | Some v => Ok v
      | None => Raise KeyError
      end
  | _ => Raise TypeError
  end.

(** [j.get(k, default)] *)
Definition py_get (j : json) (k : string) (default : json) : result json :=
  match j with
  | JObj kvs => Ok (dict_get_default k default kvs)
  | _ => Raise AttributeError
  end.

Fixpoint chars (s : string) : list json :=
  match s with
  | EmptyString => []
  | String c s' => JStr (String c EmptyString) :: chars s'
  end.

(** [iter(j)]: the elements a [for] clause runs over. *)
Definition py_iter (j : json) : result (list json) :=
  match j with
  | JArr l => Ok l
  | JObj kvs => Ok (map (fun kv => JStr (fst kv)) kvs)
  | JStr s => Ok (chars s)
  | _ => Raise TypeError
  end.

(** ** Calendar dates and instants

    The functions of this section follow CPython's [datetime]:
    [_is_leap], [_days_before_year], [_days_in_month],
    [_days_before_month], [_ymd2ord] and [_ord2ymd]. *)

Local Open Scope Z_scope.

Definition is_leap (year : Z) : bool :=
  (year mod 4 =? 0) && (negb (year mod 100 =? 0) || (year mod 400 =? 0)).

Definition days_before_year (year : Z) : Z :=
  let y := year - 1 in y * 365 + y / 4 - y / 100 + y / 400.

Definition DAYS_IN_MONTH (month : Z) : Z :=
  match month with
  | 1 => 31 | 2 => 28 | 3 => 31 | 4 => 30 | 5 => 31 | 6 => 30
  | 7 => 31 | 8 => 31 | 9 => 30 | 10 => 31 | 11 => 30 | 12 => 31
  | _ => -1
  end.

Definition DAYS_BEFORE_MONTH (month : Z) : Z :=
  match month with
  | 1 => 0 | 2 => 31 | 3 => 59 | 4 => 90 | 5 => 120 | 6 => 151
  | 7 => 181 | 8 => 212 | 9 => 243 | 10 => 273 | 11 => 304 | 12 => 334
  | _ => -1
  end.

Definition days_in_month (year month : Z) : Z :=
  if (month =? 2) && is_leap year then 29 else DAYS_IN_MONTH month.

Definition days_before_month (year month : Z) : Z :=
  DAYS_BEFORE_MONTH month + (if (2 <? month) && is_leap year then 1 else 0).

Definition ymd2ord (year month day : Z) : Z :=
  days_before_year year + days_before_month year month + day.

Definition ord2ymd (n : Z) : Z * Z * Z :=
  let n := n - 1 in
  let n400 := n / 146097 in
  let n := n mod 146097 in
  let year := n400 * 400 + 1 in
  let n100 := n / 36524 in
  let n := n mod 36524 in
  let n4 := n / 1461 in
  let n := n mod 1461 in
  let n1 := n / 365 in
  let n := n mod 365 in
  let year := year + n100 * 100 + n4 * 4 + n1 in
  if (n1 =? 4) || (n100 =? 4) then (year - 1, 12, 31)
  else
    let leapyear := (n1 =? 3) && (negb (n4 =? 24) || (n100 =? 3)) in
    let month := Z.shiftr (n + 50) 5 in
    let preceding :=
      DAYS_BEFORE_MONTH month + (if (2 <? month) && leapyear then 1 else 0) in
    if n <? preceding then
      let month := month - 1 in
      let preceding :=
        preceding
        - (DAYS_IN_MONTH month + (if (month =? 2) && leapyear then 1 else 0)) in
      (year, month, n - preceding + 1)
    else (year, month, n - preceding + 1).

(** A [datetime]: the ordinal of its day (day 1 is 0001-01-01) and the
    microseconds elapsed since that day's midnight. *)
Record datetime : Type := mkDatetime {
  ordinal : Z;
  micro : Z
}.

(** [a >= b] *)
Definition datetime_geb (a b : datetime) : bool :=
  (ordinal b <? ordinal a)
  || ((ordinal a =? ordinal b) && (micro b <=? micro a)).

(** The day [days] days before [t], at the same time of day. *)
Definition minus_days (t : datetime) (days : Z) : datetime :=
  {| ordinal := ordinal t - days; micro := micro t |}.

(** [datetime.now()]: the reading of the clock, a time of the years 1970
    (day 719163 is 1970-01-01) to 9999 (day 3652059 is 9999-12-31).  A
    reading outside these years, or whose time of day is no time of day,
    is no clock of a run: the model raises for it, and nothing is stated
    about the reports at such a reading. *)
Definition datetime_now (clock : datetime) : result datetime :=
  if (719163 <=? ordinal clock) && (ordinal clock <=? 3652059)
     && (0 <=? micro clock) && (micro clock <? 86400000000)
  then Ok clock
  else Raise OverflowError.

(** [timedelta(days=days)]: at most 999999999 days, either way. *)
Definition timedelta (days : Z) : result Z :=
  if (-999999999 <=? days) && (days <=? 999999999)
  then Ok days
  else Raise OverflowError.

(** [t - delta]: the result is a day of the years 1 to 9999. *)
Definition datetime_sub (t : datetime) (delta : Z) : result datetime :=
  let r := minus_days t delta in
  if (1 <=? ordinal r) && (ordinal r <=? 3652059)
  then Ok r
  else Raise OverflowError.

(** [t.timestamp()], the local zone taken as UTC: seconds since
    1970-01-01, which is day 719163. *)
Definition timestamp (t : datetime) : num :=
  (Z2num ((ordinal t - 719163) * 86400)
   + Z2num (micro t) / Z2num 1000000)%Qc.

Definition digit (n : Z) : ascii := ascii_of_N (48 + Z.to_N (n mod 10)).

Definition pad2 (n : Z) : string :=
  String (digit (n / 10)) (String (digit n) EmptyString).

Definition pad4 (n : Z) : string :=
  String (digit (n / 1000)) (String (digit (n / 100)) (pad2 n)).

(** [t.strftime("%Y-%m-%d")] *)
Definition strftime (t : datetime) : string :=
  let '(y, m, d) := ord2ymd (ordinal t) in
  (pad4 y ++ "-" ++ pad2 m ++ "-" ++ pad2 d)%string.

Definition digit_val (c : ascii) : option Z :=
  let n := N_of_ascii c in
  if ((48 <=? n) && (n <=? 57))%N then Some (Z.of_N n - 48) else None.

(** The directive [%Y]: four digits. *)
Definition parse_Y (s : string) : option (Z * string) :=
  match s with
  | String a (String b (String c (String d rest))) =>
      match digit_val a, digit_val b, digit_val c, digit_val d with
      | Some a, Some b, Some c, Some d =>
          Some (1000 * a + 100 * b + 10 * c + d, rest)
      | _, _, _, _ => None
      end
  | _ => None
  end.

(** The directive [%m], up to the hyphen that follows it:
    [1[0-2]|0[1-9]|[1-9]]. *)
Definition parse_m (s : string) : option (Z * string) :=
  match s with
  | String a (String "-" rest) =>
      match digit_val a with
      | Some a => if 1 <=? a then Some (a, rest) else None
      | None => None
      end
  | String a (String b (String "-" rest)) =>
      match digit_val a, digit_val b with
      | Some a, Some b =>
          let m := 10 * a + b in
          if (1 <=? m) && (m <=? 12) then Some (m, rest) else None
      | _, _ => None
      end
  | _ => None
  end.

(** The directive [%d] at the end of the text:
    [3[01]|[12]\d|0[1-9]|[1-9]| [1-9]]. *)
Definition parse_d (s : string) : option Z :=
  match s with
  | String a EmptyString =>
      match digit_val a with
      | Some a => if 1 <=? a then Some a else None
      | None => None
      end
  | String " " (String b EmptyString) =>
      match digit_val b with
      | Some b => if 1 <=? b then Some b else None
      | None => None
      end
  | String a (String b EmptyString) =>
      match digit_val a, digit_val b with
      | Some a, Some b =>
          let d := 10 * a + b in
          if (1 <=? d) && (d <=? 31) then Some d else None
      | _, _ => None
      end
  | _ => None
  end.

(** [datetime.strptime(s, "%Y-%m-%d")] on an ASCII string: [None] stands
    for the [ValueError] of a text that does not match the format or
    names no day of the calendar. *)
Definition strptime_str (s : string) : option datetime :=
  match parse_Y s with
  | Some (y, String "-" s1) =>
      match parse_m s1 with
      | Some (m, s2) =>
          match parse_d s2 with
          | Some d =>
              if (1 <=? y) && (d <=? days_in_month y m)
              then Some {| ordinal := ymd2ord y m d; micro := 0 |}
              else None
          | None => None
          end
      | None => None
      end
  | _ => None
  end.

(** [datetime.strptime(j, "%Y-%m-%d")] *)
Definition strptime (j : json) : result datetime :=
  match j with
  | JStr s =>
      match strptime_str s with
      | Some t => Ok t
      | None => Raise ValueError
      end
  | _ => Raise TypeError
  end.






Local Close Scope Z_scope.

(** ** class Transaction *)

Record Transaction : Type := mkTransaction {
  id : json;
  amount : num;
  category : string;
  description : json;
  type : string;
  date : json
}.

(** [Transaction.__init__]; [now] is the value of [datetime.now()].  The
    arguments are dynamically typed, as [from_dict] passes what it finds
    in the file. *)
Definition Transaction_init (now : datetime)
    (amount category description transaction_type date : json)
  : result Transaction :=
  a <- py_abs amount ;;
  c <- py_lower category ;;
  ty <- py_lower transaction_type ;;
  Ok {| id := JNum (timestamp now);
        amount := a;
        category := c;
        description := description;
        type := ty;
        date := if truthy date then date else JStr (strftime now) |}.

Definition to_dict (t : Transaction) : json :=
  JObj [ ("id", id t);
         ("amount", JNum (amount t));
         ("category", JStr (category t));
         ("description", description t);
         ("type", JStr (type t));
         ("date", date t) ].

Definition set_id (t : Transaction) (i : json) : Transaction :=
  {| id := i;
     amount := amount t;
     category := category t;
     description := description t;
     type := type t;
     date := date t |}.

(** [Transaction.from_dict]: the five constructor arguments are read
    first, then the constructor runs, then ['id'] is read. *)
Definition from_dict (now : datetime) (data : json) : result Transaction :=
  a <- subscript data "amount" ;;
  c <- subscript data "category" ;;
  d <- subscript data "description" ;;
  ty <- subscript data "type" ;;
  dt <- subscript data "date" ;;
  transaction <- Transaction_init now a c d ty dt ;;
  i <- subscript data "id" ;;
  Ok (set_id transaction i).

(** ** class FinanceTracker *)

Record FinanceTracker : Type := mkFinanceTracker {
  data_file : string;
  transactions : list Transaction;
  budgets : json
}.

(** What is at a path: nothing, a text [json.load] rejects, or a JSON
    document. *)
Inductive file_content : Type :=
| Unparseable
| Document (data : json).

Definition filesystem : Type := string -> option file_content.

(** Lines written to the standard output. *)
Inductive printed : Type :=
| WarningCouldNotLoad
| Added (transaction_type : string) (amount : num) (category : string)
| BudgetSet (category : string) (amount : num).

(** The body of the [try] block of [load_data], once [json.load] has
    returned [data]. *)
Definition load_body (now : datetime) (data : json)
  : result (list Transaction * json) :=
  ts <- py_get data "transactions" (JArr []) ;;
  items <- py_iter ts ;;
  txs <- comprehension (from_dict now) items ;;
  b <- py_get data "budgets" (JObj []) ;;
  Ok (txs, b).

(** [load_data]: the tracker after the call and what was printed.
    [JSONDecodeError] and [KeyError] are caught; they are raised before
    the first assignment completes, so the tracker is unchanged then. *)
Definition load_data (now : datetime) (fs : filesystem) (self : FinanceTracker)
  : result (FinanceTracker * list printed) :=
  match fs (data_file self) with
  | None => Ok (self, [])
  | Some Unparseable => Ok (self, [WarningCouldNotLoad])
  | Some (Document data) =>
      match load_body now data with
      | Ok (txs, b) =>
          Ok ({| data_file := data_file self;
                 transactions := txs;
                 budgets := b |}, [])
      | Raise JSONDecodeError | Raise KeyError =>
          Ok (self, [WarningCouldNotLoad])
      | Raise e => Raise e
      end
  end.

Definition empty_tracker (path : string) : FinanceTracker :=
  {| data_file := path; transactions := []; budgets := JObj [] |}.

(** [FinanceTracker.__init__] *)
Definition FinanceTracker_init (now : datetime) (fs : filesystem)
    (path : string) : result (FinanceTracker * list printed) :=
  load_data now fs (empty_tracker path).

(** [save_data]: the file is rewritten with the whole store. *)
Definition save_data (fs : filesystem) (self : FinanceTracker) : filesystem :=
  fun p =>
    if String.eqb p (data_file self)
    then Some (Document
                 (JObj [ ("transactions", JArr (map to_dict (transactions self)));
                         ("budgets", budgets self) ]))
    else fs p.

Definition add_transaction (now : datetime) (fs : filesystem)
    (self : FinanceTracker) (amount : num)
    (category description transaction_type : string)
  : result (FinanceTracker * filesystem * list printed) :=
  transaction <- Transaction_init now (JNum amount) (JStr category)
                   (JStr description) (JStr transaction_type) JNull ;;
  let self' := {| data_file := data_file self;
                  transactions := transactions self ++ [transaction];
                  budgets := budgets self |} in
  Ok (self', save_data fs self', [Added transaction_type amount category]).

(** [d[k] = v] on a dynamically typed [d] *)
Definition py_setitem (d : json) (k : string) (v : json) : result json :=
  match d with
  | JObj kvs => Ok (JObj (dict_set k v kvs))
  | _ => Raise TypeError
  end.

Definition set_budget (fs : filesystem) (self : FinanceTracker)
    (category : string) (amount : num)
  : result (FinanceTracker * filesystem * list printed) :=
  b <- py_setitem (budgets self) (lower category) (JNum amount) ;;
  let self' := {| data_file := data_file self;
                  transactions := transactions self;
                  budgets := b |} in
  Ok (self', save_data fs self', [BudgetSet category amount]).

(** [[x for x in l if p(x)]] with a condition that may raise. *)
Fixpoint filter_comprehension {A : Type} (p : A -> result bool) (l : list A)
  : result (list A) :=
  match l with
  | [] => Ok []
  | x :: l' =>
      b <- p x ;;
      r <- filter_comprehension p l' ;;
      Ok (if b then x :: r else r)
  end.

Definition get_transactions_by_period (now : datetime) (days : Z)
    (self : FinanceTracker) : result (list Transaction) :=
  t <- datetime_now now ;;
  delta <- timedelta days ;;
  cutoff_date <- datetime_sub t delta ;;
  filter_comprehension
    (fun t => d <- strptime (date t) ;; Ok (datetime_geb d cutoff_date))
    (transactions self).

(** [sorted(items, key=lambda x: x[1], reverse=True)]: a stable sort by
    descending value; items of equal value keep their order. *)
Fixpoint insert_desc (x : string * num) (l : list (string * num))
  : list (string * num) :=
  match l with
  | [] => [x]
  | y :: l' =>
      if num_ltb (snd x) (snd y) then y :: insert_desc x l' else x :: y :: l'
  end.

Definition sorted_desc (l : list (string * num)) : list (string * num) :=
  fold_right insert_desc [] l.

(** [dict(items)] *)
Definition py_dict {V : Type} (items : list (string * V)) : dict V :=
  fold_left (fun d kv => dict_set (fst kv) (snd kv) d) items [].

(** The loop of [get_spending_by_category]. *)
Definition accumulate_spending (spending : dict num) (transaction : Transaction)
  : dict num :=
  if String.eqb (type transaction) "expense"
  then dict_set (category transaction)
         (dict_get_default (category transaction) (Z2num 0) spending
          + amount transaction)%Qc
         spending
  else spending.

Definition spending_of (transactions : list Transaction) : dict num :=
  py_dict (sorted_desc (fold_left accumulate_spending transactions [])).

Definition get_spending_by_category (now : datetime) (days : Z)
    (self : FinanceTracker) : result (dict num) :=
  transactions <- get_transactions_by_period now days self ;;
  Ok (spending_of transactions).

Record income_vs_expenses : Type := mkIncomeVsExpenses {
  income : num;
  expenses : num;
  net : num
}.

Definition is_income (t : Transaction) : bool := String.eqb (type t) "income".
Definition is_expense (t : Transaction) : bool := String.eqb (type t) "expense".

Definition summary_of (transactions : list Transaction) : income_vs_expenses :=
  let total_income := sum (map amount (filter is_income transactions)) in
  let total_expenses := sum (map amount (filter is_expense transactions)) in
  {| income := total_income;
     expenses := total_expenses;
     net := (total_income - total_expenses)%Qc |}.

Definition get_income_vs_expenses (now : datetime) (days : Z)
    (self : FinanceTracker) : result income_vs_expenses :=
  transactions <- get_transactions_by_period now days self ;;
  Ok (summary_of transactions).

Record budget_entry : Type := mkBudgetEntry {
  budget : num;
  spent : num;
  remaining : num;
  percentage : num
}.

(** [d.items()] *)
Definition py_items (d : json) : result (list (string * json)) :=
  match d with
  | JObj kvs => Ok kvs
  | _ => Raise AttributeError
  end.

(** One turn of the loop of [check_budgets]; the subtraction raises
    [TypeError] on a budget that is no number. *)
Definition budget_step (spending : dict num)
    (budget_status : result (dict budget_entry)) (item : string * json)
  : result (dict budget_entry) :=
  st <- budget_status ;;
  let '(category, budget_amount) := item in
  let spent := dict_get_default category (Z2num 0) spending in
  match as_num budget_amount with
  | None => Raise TypeError
  | Some b =>
      let remaining := (b - spent)%Qc in
      percentage <- (if num_ltb (Z2num 0) b
                     then q <- py_div spent b ;; Ok (q * Z2num 100)%Qc
                     else Ok (Z2num 0)) ;;
      Ok (dict_set category
            {| budget := b;
               spent := spent;
               remaining := remaining;
               percentage := percentage |} st)
  end.

(** [check_budgets]: spending is always taken over the default window of
    30 days. *)
Definition check_budgets (now : datetime) (self : FinanceTracker)
  : result (dict budget_entry) :=
  spending <- get_spending_by_category now 30 self ;;
  items <- py_items (budgets self) ;;
  fold_left (budget_step spending) items (Ok []).

(** The texts appended to [insights['recommendations']], by rule. *)
Inductive recommendation : Type :=
| SpendingMoreThanYouEarn
| Spending80PercentOfIncome
| Exceeded90Percent (category : string)
| AtPercentOfBudget (percentage : num) (category : string).

Record insights : Type := mkInsights {
  period_days : Z;
  total_transactions : nat;
  average_expense : num;
  largest_expense : num;
  smallest_expense : num;
  most_expensive_category : string;
  recommendations : list recommendation
}.

Inductive insights_report : Type :=
| Message          (* "No transactions found for the specified period." *)
| Report (r : insights).

(** [statistics.mean] of a non-empty list *)
Definition mean (xs : list num) : num :=
  (sum xs / Z2num (Z.of_nat (List.length xs)))%Qc.

(** [max(xs)] and [min(xs)] of a non-empty list [x :: xs]: the first of
    the largest (smallest) elements. *)
Definition py_max (x : num) (xs : list num) : num :=
  fold_left (fun best y => if num_ltb best y then y else best) xs x.

Definition py_min (x : num) (xs : list num) : num :=
  fold_left (fun best y => if num_ltb y best then y else best) xs x.

(** [max(d, key=d.get)] of a non-empty [dict]: the first key of largest
    value. *)
Definition max_key (kv : string * num) (d : dict num) : string :=
  fst (fold_left (fun best y => if num_ltb (snd best) (snd y) then y else best)
         d kv).

(** One turn of the budget loop of [get_financial_insights]. *)
Definition budget_warning (recs : list recommendation)
    (item : string * budget_entry) : list recommendation :=
  let '(category, status) := item in
  if num_ltb (Z2num 90) (percentage status)
  then recs ++ [Exceeded90Percent category]
  else if num_ltb (Z2num 75) (percentage status)
  then recs ++ [AtPercentOfBudget (percentage status) category]
  else recs.

Definition get_financial_insights (now : datetime) (days : Z)
    (self : FinanceTracker) : result insights_report :=
  transactions <- get_transactions_by_period now days self ;;
  match transactions with
  | [] => Ok Message
  | _ :: _ =>
      let expenses_ := map amount (filter is_expense transactions) in
      let average := match expenses_ with [] => Z2num 0 | _ => mean expenses_ end in
      let largest :=
        match expenses_ with [] => Z2num 0 | x :: xs => py_max x xs end in
      let smallest :=
        match expenses_ with [] => Z2num 0 | x :: xs => py_min x xs end in
      spending_by_category <- get_spending_by_category now days self ;;
      let most_expensive :=
        match spending_by_category with
        | [] => ""
        | kv :: d => max_key kv d
        end in
      income_vs_expenses <- get_income_vs_expenses now days self ;;
      let recs := [] in
      let recs :=
        if num_ltb (net income_vs_expenses) (Z2num 0)
        then recs ++ [SpendingMoreThanYouEarn] else recs in
      let recs :=
        if num_ltb (income income_vs_expenses * Q2Qc (8 # 10))%Qc
             (expenses income_vs_expenses)
        then recs ++ [Spending80PercentOfIncome] else recs in
      budget_status <- check_budgets now self ;;
      let recs := fold_left budget_warning budget_status recs in
      Ok (Report {| period_days := days;
                    total_transactions := List.length transactions;
                    average_expense := average;
                    largest_expense := largest;
                    smallest_expense := smallest;
                    most_expensive_category := most_expensive;
                    recommendations := recs |})
  end.

(** * Specification vocabulary *)

(** What holds of every [Transaction] object: the constructor stored an
    absolute value, lowered the category and the type, and left no empty
    date. *)
Record Transaction_wf (t : Transaction) : Prop := {
  wf_amount : (0 <= amount t)%Qc;
  wf_category : lowercase (category t);
  wf_type : lowercase (type t);
  wf_date : truthy (date t) = true
}.

(** The [Transaction] objects of a run: made by the constructor or by
    [from_dict]. *)
Definition created (t : Transaction) : Prop :=
  (exists now a c d ty dt, Transaction_init now a c d ty dt = Ok t)
  \/ (exists now data, from_dict now data = Ok t).

(** Inversion of a [bind] that returned. *)
Ltac bind_inv H :=
  match type of H with
  | bind ?m _ = Ok _ =>
      let a := fresh "a" in
      let Ha := fresh "Ha" in
      destruct m as [a | ?] eqn:Ha; [cbn [bind] in H | discriminate H]
  end.

(** * Sample data *)

(** Parsing the printed date of day [n] gives the day back. *)
Definition round_trips (n : Z) : bool :=
  match strptime_str (strftime {| ordinal := n; micro := 0 |}) with
  | Some t => Z.eqb (ordinal t) n
  | None => false
  end.


(** Noon of 2024-03-01. *)
Definition sample_now : datetime := {| ordinal := 738946; micro := 43200000000 |}.

Definition no_files : filesystem := fun _ => None.

Definition sample_expense (now : datetime) (x : Z) (c : string) : Transaction :=
  {| id := JNum (timestamp now);
     amount := Qcabs (Z2num x);
     category := lower c;
     description := JStr "sample";
     type := lower "expense";
     date := JStr (strftime now) |}.

(** * Vocabulary for the persisted file *)

Definition required_fields : list string :=
  ["id"; "amount"; "category"; "description"; "type"; "date"].

(** A transaction record that lacks one of the six fields. *)
Definition missing_field (r : json) : Prop :=
  exists kvs k, r = JObj kvs /\ In k required_fields /\ dict_get k kvs = None.

(** Malformed content, as the specification names it: a text that is no
    JSON, or a document with a transaction record that lacks a field. *)
Definition malformed (c : file_content) : Prop :=
  c = Unparseable
  \/ exists kvs rs r,
      c = Document (JObj kvs) /\ dict_get "transactions" kvs = Some (JArr rs) /\
      In r rs /\ missing_field r.

(** The load recovers: an empty store and the warning. *)
Definition load_recovers (now : datetime) (fs : filesystem) (path : string)
  : Prop :=
  FinanceTracker_init now fs path = Ok (empty_tracker path, [WarningCouldNotLoad]).

(** The type the constructor expects of a field. *)
Definition field_typed (k : string) (v : json) : Prop :=
  if String.eqb k "amount" then as_num v <> None
  else if String.eqb k "category" || String.eqb k "type"
       then exists s, v = JStr s
       else True.

(** The fields that are present have the expected types. *)
Definition fields_typed (kvs : dict json) : Prop :=
  forall k v, dict_get k kvs = Some v -> field_typed k v.

(** A complete, well typed record. *)
Definition deserializable (r : json) : Prop :=
  exists kvs,
    r = JObj kvs /\ fields_typed kvs /\
    forall k, In k required_fields -> dict_get k kvs <> None.

(** A record that lacks a field and has no field of an unexpected type. *)
Definition lacks_field (r : json) : Prop :=
  exists kvs, r = JObj kvs /\ fields_typed kvs /\ missing_field r.

(** Every key of the budgets mapping is lowercase. *)
Definition budget_keys_lowercase (b : json) : Prop :=
  exists kvs, b = JObj kvs /\ Forall lowercase (keys kvs).

(** The budgets of the document at a path, if there is one, have
    lowercase keys. *)
Definition file_budgets_lowercase (c : option file_content) : Prop :=
  match c with
  | Some (Document (JObj kvs)) =>
      budget_keys_lowercase (dict_get_default "budgets" (JObj []) kvs)
  | _ => True
  end.

(** The stores of a run on the file at [path]: a tracker is built from a
    file whose budget keys are lowercase (or from no file), and then
    transactions are added, budgets are set, the store is saved and
    trackers are built anew from the file the run wrote. *)
Inductive reachable (path : string) : filesystem -> FinanceTracker -> Prop :=
| reach_load now fs ft out :
    file_budgets_lowercase (fs path) ->
    FinanceTracker_init now fs path = Ok (ft, out) ->
    reachable path fs ft
| reach_add now fs ft x c d ty ft' fs' out :
    reachable path fs ft ->
    add_transaction now fs ft x c d ty = Ok (ft', fs', out) ->
    reachable path fs' ft'
| reach_set fs ft c x ft' fs' out :
    reachable path fs ft ->
    set_budget fs ft c x = Ok (ft', fs', out) ->
    reachable path fs' ft'
| reach_save fs ft :
    reachable path fs ft ->
    reachable path (save_data fs ft) ft
| reach_restart now fs ft ft' out :
    reachable path fs ft ->
    FinanceTracker_init now fs path = Ok (ft', out) ->
    reachable path fs ft'.

(** A document whose only record has no id and a text for an amount. *)
Definition ill_typed_document : file_content :=
  Document
    (JObj [ ("transactions",
             JArr [ JObj [ ("amount", JStr "abc");
                           ("category", JStr "food");
                           ("description", JStr "lunch");
                           ("type", JStr "expense");
                           ("date", JStr "2024-03-01") ] ]);
            ("budgets", JObj []) ]).

(** A document whose only record lacks the amount. *)
Definition no_amount_document : file_content :=
  Document
    (JObj [ ("transactions",
             JArr [ JObj [ ("id", JNum (Z2num 1));
                           ("category", JStr "food");
                           ("description", JStr "lunch");
                           ("type", JStr "expense");
                           ("date", JStr "2024-03-01") ] ]);
            ("budgets", JObj [("food", JNum (Z2num 100))]) ]).

(** A document with a budget key that is not lowercase. *)
Definition capital_key_document : file_content :=
  Document
    (JObj [ ("transactions", JArr []);
            ("budgets", JObj [("Food", JNum (Z2num 100))]) ]).

Definition one_file (c : file_content) : filesystem :=
  fun p => if String.eqb p "finance_data.json" then Some c else None.

(** * Vocabulary for the reports *)

(** [a <= b] on the time line. *)
Definition datetime_le (a b : datetime) : Prop :=
  (ordinal a < ordinal b)%Z
  \/ (ordinal a = ordinal b /\ (micro a <= micro b)%Z).

(** The date of the transaction parses to [d]. *)
Definition dated (t : Transaction) (d : datetime) : Prop :=
  strptime (date t) = Ok d.

(** The text has ASCII characters only. *)
Definition ascii_text (s : string) : Prop :=
  Forall (fun c => (N_of_ascii c < 128)%N) (list_ascii_of_string s).

(** The date of the transaction is an ASCII text that names no day. *)
Definition date_fails_to_parse (t : Transaction) : Prop :=
  exists s, date t = JStr s /\ ascii_text s /\ strptime_str s = None.

(** The reading is a clock of a run: a time of the years 1970 to 9999. *)
Definition clock_of_a_run (now : datetime) : Prop :=
  (719163 <= ordinal now <= 3652059)%Z
  /\ (0 <= micro now < 86400000000)%Z.

(** [now - timedelta(days=days)] is within the limits of [timedelta]
    and of [datetime]. *)
Definition cutoff_in_range (now : datetime) (days : Z) : Prop :=
  (-999999999 <= days <= 999999999)%Z
  /\ (1 <= ordinal now - days <= 3652059)%Z.

(** The date of the transaction parses and is not before [now - days]. *)
Definition dated_in_period (now : datetime) (days : Z) (t : Transaction)
  : bool :=
  match strptime (date t) with
  | Ok d => datetime_geb d (minus_days now days)
  | Raise _ => false
  end.

Definition dated_transaction (s : string) (x : Z) (c ty : string)
  : Transaction :=
  {| id := JNull;
     amount := Qcabs (Z2num x);
     category := c;
     description := JStr "sample";
     type := ty;
     date := JStr s |}.

Definition tracker_of (l : list Transaction) (b : json) : FinanceTracker :=
  {| data_file := "finance_data.json"; transactions := l; budgets := b |}.

(** The total of the amounts of the transactions that satisfy [f]. *)
Fixpoint total (f : Transaction -> bool) (p : list Transaction) : num :=
  match p with
  | [] => 0%Qc
  | t :: p' => if f t then (amount t + total f p')%Qc else total f p'
  end.

(** An expense of category [c]. *)
Definition is_expense_of (c : string) (t : Transaction) : bool :=
  is_expense t && String.eqb (category t) c.

(** The mapping lists its totals from the largest to the smallest. *)
Definition descending (d : dict num) : Prop :=
  StronglySorted (fun a b => (snd b <= snd a)%Qc) d.

(** Two mappings with the same keys and the same value at every key
    (equality of Python [dict]s). *)
Definition same_mapping {V : Type} (d1 d2 : dict V) : Prop :=
  forall k, dict_get k d1 = dict_get k d2.

(** Amounts that binary floating point adds exactly, in any order: whole
    numbers whose sum is below [2^53]. *)
Definition whole_amounts (l : list Transaction) : Prop :=
  Forall (fun t => exists z : Z, (0 <= z)%Z /\ amount t = Z2num z) l
  /\ (total (fun _ => true) l < Z2num 9007199254740992)%Qc.

(** The additions of line 104 for one category on binary64 amounts, in
    the order of the store: [spending.get(cat, 0) + amount], from 0. *)
Definition float_category_total (amounts : list float) : float :=
  fold_left PrimFloat.add amounts 0%float.

(** A store with two food expenses and a rent in the last 30 days, an
    income, and an expense of the year before. *)
Definition sample_transactions : list Transaction :=
  [ dated_transaction "2024-02-10" 40 "food" "expense";
    dated_transaction "2024-02-20" 1000 "salary" "income";
    dated_transaction "2024-02-25" 900 "rent" "expense";
    dated_transaction "2024-03-01" 70 "food" "expense";
    dated_transaction "2023-01-01" 5 "food" "expense" ].

Definition sample_period : list Transaction :=
  [ dated_transaction "2024-02-10" 40 "food" "expense";
    dated_transaction "2024-02-20" 1000 "salary" "income";
    dated_transaction "2024-02-25" 900 "rent" "expense";
    dated_transaction "2024-03-01" 70 "food" "expense" ].

(** A budgets mapping of the annotated type [Dict[str, float]]. *)
Definition typed_budgets (b : dict num) : json :=
  JObj (map (fun kv => (fst kv, JNum (snd kv))) b).

(** The entry of a category with budget [bud], given the spending. *)
Definition budget_entry_of (spending : dict num) (kv : string * num)
  : budget_entry :=
  let s := dict_get_default (fst kv) (Z2num 0) spending in
  {| budget := snd kv;
     spent := s;
     remaining := (snd kv - s)%Qc;
     percentage :=
       if num_ltb (Z2num 0) (snd kv) then (s / snd kv * Z2num 100)%Qc
       else Z2num 0 |}.




(** The scenario of the specification: a budget of 100 for food and two
    food expenses of 40 and 70. *)
Definition food_scenario : FinanceTracker :=
  tracker_of [ dated_transaction "2024-02-10" 40 "food" "expense";
               dated_transaction "2024-03-01" 70 "food" "expense" ]
    (typed_budgets [("food", Z2num 100); ("rent", Z2num 0)]).

(** * Further vocabulary *)

(** A tracker with two transactions and a budget, writing to
    [finance_data.json]. *)
Definition sample_tracker : FinanceTracker :=
  {| data_file := "finance_data.json";
     transactions := [ sample_expense sample_now 40 "food";
                       sample_expense sample_now 900 "rent" ];
     budgets := typed_budgets [("food", Z2num 100)] |}.

(** A document whose budgets are a list. *)
Definition list_budgets_document : file_content :=
  Document (JObj [ ("transactions", JArr []); ("budgets", JArr []) ]).

(** A document with one complete record, written by hand: a negative
    amount, capitals in the category and in the type, and no date. *)
Definition hand_written_document : file_content :=
  Document
    (JObj [ ("transactions",
             JArr [ JObj [ ("id", JStr "first");
                           ("amount", JNum (Z2num (-12)));
                           ("category", JStr "Food");
                           ("description", JNull);
                           ("type", JStr "EXPENSE");
                           ("date", JStr "") ] ]) ]).

(** A budgets mapping with a text where an amount is expected. *)
Definition text_amount_budgets : json :=
  JObj [("rent", JNum (Z2num 900)); ("food", JStr "a lot")].

(** A document with a complete record whose date is written day first. *)
Definition day_first_document : file_content :=
  Document
    (JObj [ ("transactions",
             JArr [ JObj [ ("id", JNum (Z2num 1));
                           ("amount", JNum (Z2num 12));
                           ("category", JStr "food");
                           ("description", JStr "sample");
                           ("type", JStr "expense");
                           ("date", JStr "10/02/2024") ] ]);
            ("budgets", JObj []) ]).

(** The values of a mapping. *)
Definition values {V : Type} (d : dict V) : list V := map snd d.

(** A transaction that counts in the reports. *)
Definition income_or_expense (t : Transaction) : bool :=
  is_income t || is_expense t.

(** A store with a transfer among the transactions of the period. *)
Definition transactions_with_transfer : list Transaction :=
  [ dated_transaction "2024-02-10" 40 "food" "expense";
    dated_transaction "2024-02-12" 500 "savings" "transfer";
    dated_transaction "2024-02-20" 1000 "salary" "income" ].

(** The store of [food_scenario] with a budget of 0 for rent, which was
    paid, and a budget under a key with a capital. *)
Definition rent_scenario : FinanceTracker :=
  tracker_of [ sample_expense sample_now 40 "food";
               sample_expense sample_now 900 "Rent" ]
    (typed_budgets [("food", Z2num 50); ("rent", Z2num 0);
                    ("Food", Z2num 10)]).

(** The amounts of the store and one more amount [x] add without
    rounding: whole numbers, below [2^53] together. *)
Definition whole_amounts_with (l : list Transaction) (x : num) : Prop :=
  whole_amounts l
  /\ (exists z : Z, x = Z2num z)
  /\ (total (fun _ => true) l + Qcabs x < Z2num 9007199254740992)%Qc.

(** The end of [ord2ymd]: the month and the day of the [n]-th day of a
    year, counted from 0. *)
Definition month_day (n : Z) (leapyear : bool) : Z * Z :=
  let month := Z.shiftr (n + 50) 5 in
  let preceding :=
    (DAYS_BEFORE_MONTH month + (if (2 <? month)%Z && leapyear then 1 else 0))%Z in
  if (n <? preceding)%Z then
    let month := (month - 1)%Z in
    let preceding :=
      (preceding
       - (DAYS_IN_MONTH month + (if (month =? 2)%Z && leapyear then 1 else 0)))%Z in
    (month, (n - preceding + 1)%Z)
  else (month, (n - preceding + 1)%Z).

(** The month and the day that [month_day] gives name the [n]-th day. *)
Definition month_day_ok (leapyear : bool) (n : nat) : bool :=
  let '(m, d) := month_day (Z.of_nat n) leapyear in
  ((1 <=? m) && (m <=? 12) && (1 <=? d)
   && (d <=? DAYS_IN_MONTH m + (if (m =? 2) && leapyear then 1 else 0))
   && (DAYS_BEFORE_MONTH m + (if (2 <? m) && leapyear then 1 else 0) + d
       =? Z.of_nat n + 1))%Z.

(** The instants of Python's [datetime]: the years 1 to 9999. *)
Definition in_datetime_range (t : datetime) : Prop :=
  (1 <= ordinal t <= 3652059)%Z.

(** Case analysis on a positive number that a hypothesis bounds. *)
Ltac enumerate_positive :=
  repeat match goal with
         | p : positive |- _ => destruct p; try lia
         end.

(** The fields that [from_dict] hands to the constructor. *)
Definition constructor_fields : list string :=
  ["amount"; "category"; "description"; "type"; "date"].

(** A record with every field, an amount that is no number and no id. *)
Definition text_amount_record : json :=
  JObj [ ("amount", JStr "abc"); ("category", JStr "food");
         ("description", JStr "lunch"); ("type", JStr "expense");
         ("date", JStr "2024-03-01") ].

(** * Properties *)

(** ** Calendar: sample evaluations *)

Example strptime_ex1 :
  strptime_str "2024-03-01" = Some {| ordinal := 738946; micro := 0 |}.
Proof. reflexivity. Qed.

Example strptime_ex2 : strptime_str "2024-02-30" = None.
Proof. reflexivity. Qed.

Example strptime_ex3 : strptime_str "2024-2-9" = strptime_str "2024-02-09".
Proof. reflexivity. Qed.

Example strptime_ex4 : strptime_str "01/03/2024" = None.
Proof. reflexivity. Qed.

(** Every day from 2020-01-01 to 2030-01-01. *)
Example strptime_strftime_2020s :
  forallb round_trips (map (fun k => (737425 + Z.of_nat k)%Z) (seq 0 3654))
  = true.
Proof. vm_compute. reflexivity. Qed.

Example strptime_ex5 :
  strptime_str "2024-01- 5" = Some {| ordinal := 738890; micro := 0 |}
  /\ strptime_str "1900-02-29" = None
  /\ strptime_str "0000-01-01" = None
  /\ strptime_str "2024-01-01 " = None.
Proof. repeat split. Qed.

Example strftime_ex1 :
  strftime {| ordinal := 738946; micro := 5 |} = "2024-03-01"%string.
Proof. reflexivity. Qed.

(** ** Numbers *)

Lemma num_eq (a b : num) : (this a == this b)%Q -> a = b.
Proof. apply Qc_is_canon. Qed.

Lemma num_ltb_lt (a b : num) : num_ltb a b = true <-> (a < b)%Qc.
Proof.
  unfold num_ltb, Qclt. rewrite negb_true_iff.
  split; intros H.
  - apply Qnot_le_lt. intros Hle. apply Qle_bool_iff in Hle. congruence.
  - destruct (Qle_bool b a) eqn:E; [| reflexivity].
    apply Qle_bool_iff in E. exfalso. exact (Qlt_not_le _ _ H E).
Qed.

Lemma num_ltb_ge (a b : num) : num_ltb a b = false <-> (b <= a)%Qc.
Proof.
  unfold num_ltb, Qcle. rewrite negb_false_iff. apply Qle_bool_iff.
Qed.

Lemma fold_left_plus (xs : list num) (a : num) :
  fold_left Qcplus xs a = (a + fold_right Qcplus (Z2num 0) xs)%Qc.
Proof.
  revert a. induction xs as [| x xs IH]; intros a; simpl.
  - change (Z2num 0) with 0%Qc. ring.
  - rewrite IH. ring.
Qed.

(** [sum] as a right fold: the order of the additions does not matter
    in exact arithmetic. *)
Lemma sum_fold_right (xs : list num) :
  sum xs = fold_right Qcplus (Z2num 0) xs.
Proof.
  unfold sum. rewrite fold_left_plus. change (Z2num 0) with 0%Qc. ring.
Qed.

Lemma sum_nil : sum [] = Z2num 0.
Proof. reflexivity. Qed.

Lemma sum_cons (x : num) (xs : list num) : sum (x :: xs) = (x + sum xs)%Qc.
Proof. rewrite !sum_fold_right. reflexivity. Qed.

Lemma sum_Permutation (xs ys : list num) :
  Permutation xs ys -> sum xs = sum ys.
Proof.
  induction 1 as [| x l l' _ IH | x y l | l l' l'' _ IH1 _ IH2].
  - reflexivity.
  - rewrite !sum_cons, IH. reflexivity.
  - rewrite !sum_cons. ring.
  - congruence.
Qed.

(** ** Strings *)

Lemma lower_ascii_idem (c : ascii) : lower_ascii (lower_ascii c) = lower_ascii c.
Proof.
  destruct c as [[|] [|] [|] [|] [|] [|] [|] [|]]; reflexivity.
Qed.

Lemma lower_idem (s : string) : lower (lower s) = lower s.
Proof.
  induction s as [| c s IH]; simpl; [reflexivity |].
  now rewrite lower_ascii_idem, IH.
Qed.

Lemma lower_lowercase (s : string) : lowercase (lower s).
Proof. apply lower_idem. Qed.

(** ** Dictionaries *)

Section DictFacts.
Context {V : Type}.
Implicit Types (d : dict V) (k : string) (v : V).

Lemma dict_get_set_eq d k v : dict_get k (dict_set k v d) = Some v.
Proof.
  induction d as [| [k' v'] d IH]; simpl.
  - now rewrite String.eqb_refl.
  - destruct (String.eqb k k') eqn:E; simpl; rewrite ?String.eqb_refl, ?E; auto.
Qed.

Lemma dict_get_set_neq d k k' v :
  k <> k' -> dict_get k' (dict_set k v d) = dict_get k' d.
Proof.
  intros Hne. induction d as [| [k0 v0] d IH]; simpl.
  - destruct (String.eqb k' k) eqn:E; [| reflexivity].
    apply String.eqb_eq in E. congruence.
  - destruct (String.eqb k k0) eqn:E; simpl.
    + apply String.eqb_eq in E. subst k0.
      destruct (String.eqb k' k) eqn:E'; [| reflexivity].
      apply String.eqb_eq in E'. congruence.
    + now rewrite IH.
Qed.

Lemma dict_get_default_set_eq d k v v0 :
  dict_get_default k v0 (dict_set k v d) = v.
Proof. unfold dict_get_default. now rewrite dict_get_set_eq. Qed.

Lemma dict_get_default_set_neq d k k' v v0 :
  k <> k' -> dict_get_default k' v0 (dict_set k v d) = dict_get_default k' v0 d.
Proof. intros H. unfold dict_get_default. now rewrite dict_get_set_neq. Qed.

Lemma dict_get_None d k : dict_get k d = None <-> ~ In k (keys d).
Proof.
  induction d as [| [k' v'] d IH]; simpl.
  - tauto.
  - destruct (String.eqb k k') eqn:E.
    + apply String.eqb_eq in E. subst. split; [discriminate | tauto].
    + apply String.eqb_neq in E. rewrite IH. split; intros H.
      * intros [H' | H']; [congruence | tauto].
      * tauto.
Qed.

Lemma dict_get_In d k v : dict_get k d = Some v -> In (k, v) d.
Proof.
  induction d as [| [k' v'] d IH]; simpl; [discriminate |].
  destruct (String.eqb k k') eqn:E.
  - apply String.eqb_eq in E. intros [= ->]. subst. now left.
  - auto.
Qed.

Lemma In_dict_get d k v : dict_wf d -> In (k, v) d -> dict_get k d = Some v.
Proof.
  unfold dict_wf. induction d as [| [k' v'] d IH]; simpl; [tauto |].
  intros Hnd [H | H]; inversion Hnd as [| ? ? Hnotin Hnd']; subst.
  - injection H as -> ->. now rewrite String.eqb_refl.
  - destruct (String.eqb k k') eqn:E; [| auto].
    apply String.eqb_eq in E. subst k'.
    exfalso. apply Hnotin. change k with (fst (k, v)). now apply in_map.
Qed.

Lemma keys_dict_set d k v :
  keys (dict_set k v d)
  = match dict_get k d with Some _ => keys d | None => keys d ++ [k] end.
Proof.
  induction d as [| [k' v'] d IH]; simpl; [reflexivity |].
  destruct (String.eqb k k') eqn:E; simpl.
  - apply String.eqb_eq in E. now subst.
  - rewrite IH. now destruct (dict_get k d).
Qed.

Lemma In_keys_dict_set d k v k' :
  In k' (keys (dict_set k v d)) <-> k' = k \/ In k' (keys d).
Proof.
  rewrite keys_dict_set. destruct (dict_get k d) eqn:E.
  - split; [tauto |]. intros [-> | H]; [| exact H].
    destruct (in_dec string_dec k (keys d)) as [Hin | Hin]; [exact Hin |].
    apply dict_get_None in Hin. congruence.
  - rewrite in_app_iff. simpl. intuition congruence.
Qed.

Lemma dict_set_wf d k v : dict_wf d -> dict_wf (dict_set k v d).
Proof.
  unfold dict_wf. rewrite keys_dict_set.
  destruct (dict_get k d) eqn:E; [tauto |].
  intros Hnd. apply dict_get_None in E.
  apply NoDup_app; [exact Hnd | repeat constructor; simpl; tauto |].
  intros x Hx [<- | []]. contradiction.
Qed.

(** Building a [dict] from items of pairwise different keys keeps the
    items as they are. *)
Lemma py_dict_app (d items : list (string * V)) :
  dict_wf (d ++ items) ->
  fold_left (fun d kv => dict_set (fst kv) (snd kv) d) items d = d ++ items.
Proof.
  revert d. induction items as [| [k v] items IH]; intros d Hwf; simpl.
  - now rewrite app_nil_r.
  - assert (Hk : dict_get k d = None).
    { apply dict_get_None. unfold dict_wf, keys in Hwf.
      rewrite map_app in Hwf. simpl in Hwf.
      apply NoDup_remove_2 in Hwf. rewrite in_app_iff in Hwf. tauto. }
    assert (Hset : dict_set k v d = d ++ [(k, v)]).
    { clear - Hk. induction d as [| [k' v'] d IHd]; simpl in *; [reflexivity |].
      destruct (String.eqb k k'); [discriminate |]. now rewrite IHd. }
    rewrite Hset, IH; rewrite <- app_assoc; [reflexivity | exact Hwf].
Qed.

Lemma py_dict_wf (items : list (string * V)) :
  dict_wf items -> py_dict items = items.
Proof. intros H. unfold py_dict. now rewrite py_dict_app. Qed.
End DictFacts.

(** ** Transaction *)

(** On arguments of the annotated types the constructor returns. *)
Lemma Transaction_init_typed (now : datetime) (x : num) (c ty : string)
    (d dt : json) :
  Transaction_init now (JNum x) (JStr c) d (JStr ty) dt
  = Ok {| id := JNum (timestamp now);
          amount := Qcabs x;
          category := lower c;
          description := d;
          type := lower ty;
          date := if truthy dt then dt else JStr (strftime now) |}.
Proof. reflexivity. Qed.

Lemma Transaction_init_Ok (now : datetime) (a c d ty dt : json)
    (t : Transaction) :
  Transaction_init now a c d ty dt = Ok t ->
  exists x sc sty,
    as_num a = Some x /\ c = JStr sc /\ ty = JStr sty /\
    t = {| id := JNum (timestamp now);
           amount := Qcabs x;
           category := lower sc;
           description := d;
           type := lower sty;
           date := if truthy dt then dt else JStr (strftime now) |}.
Proof.
  unfold Transaction_init, py_abs. intros H.
  destruct (as_num a) as [x |] eqn:Ea; [| discriminate].
  destruct c as [| | | sc | |]; try discriminate.
  destruct ty as [| | | sty | |]; try discriminate.
  simpl in H. injection H as <-. now exists x, sc, sty.
Qed.

Lemma from_dict_Ok (now : datetime) (data : json) (t : Transaction) :
  from_dict now data = Ok t ->
  exists a c d ty dt i t0,
    subscript data "amount" = Ok a /\
    subscript data "category" = Ok c /\
    subscript data "description" = Ok d /\
    subscript data "type" = Ok ty /\
    subscript data "date" = Ok dt /\
    subscript data "id" = Ok i /\
    Transaction_init now a c d ty dt = Ok t0 /\
    t = set_id t0 i.
Proof.
  unfold from_dict. intros H.
  bind_inv H. bind_inv H. bind_inv H. bind_inv H. bind_inv H. bind_inv H.
  bind_inv H. injection H as <-.
  repeat eexists; eassumption.
Qed.

Lemma strftime_not_empty (now : datetime) : strftime now <> "".
Proof.
  unfold strftime. destruct (ord2ymd (ordinal now)) as [[y m] d].
  unfold pad4. simpl. discriminate.
Qed.

Lemma truthy_default_date (now : datetime) (dt : json) :
  truthy (if truthy dt then dt else JStr (strftime now)) = true.
Proof.
  destruct (truthy dt) eqn:E; [exact E |]. simpl.
  apply negb_true_iff, String.eqb_neq, strftime_not_empty.
Qed.

Lemma Transaction_init_wf (now : datetime) (a c d ty dt : json)
    (t : Transaction) :
  Transaction_init now a c d ty dt = Ok t -> Transaction_wf t.
Proof.
  intros H. apply Transaction_init_Ok in H.
  destruct H as (x & sc & sty & _ & _ & _ & ->).
  constructor; simpl.
  - apply Qcabs_nonneg.
  - apply lower_lowercase.
  - apply lower_lowercase.
  - apply truthy_default_date.
Qed.

Lemma set_id_wf (t : Transaction) (i : json) :
  Transaction_wf t -> Transaction_wf (set_id t i).
Proof. intros [H1 H2 H3 H4]. constructor; assumption. Qed.

Lemma from_dict_wf (now : datetime) (data : json) (t : Transaction) :
  from_dict now data = Ok t -> Transaction_wf t.
Proof.
  intros H. apply from_dict_Ok in H.
  destruct H as (a & c & d & ty & dt & i & t0 & _ & _ & _ & _ & _ & _ & H0 & ->).
  apply set_id_wf. eapply Transaction_init_wf, H0.
Qed.

Lemma created_wf (t : Transaction) : created t -> Transaction_wf t.
Proof.
  intros [(now & a & c & d & ty & dt & H) | (now & data & H)].
  - eapply Transaction_init_wf, H.
  - eapply from_dict_wf, H.
Qed.

Lemma from_dict_to_dict (now : datetime) (t : Transaction) :
  Transaction_wf t -> from_dict now (to_dict t) = Ok t.
Proof.
  intros [Ha Hc Hty Hd]. destruct t as [i a c d ty dt]. simpl in *.
  unfold from_dict, to_dict. simpl.
  unfold Transaction_init, py_abs. simpl.
  rewrite Hd. unfold set_id. simpl.
  rewrite (Qcabs_pos _ Ha). unfold lowercase in Hc, Hty. now rewrite Hc, Hty.
Qed.

Lemma comprehension_from_dict (now : datetime) (l : list Transaction) :
  Forall Transaction_wf l ->
  comprehension (from_dict now) (map to_dict l) = Ok l.
Proof.
  induction 1 as [| t l Ht _ IH]; [reflexivity |].
  cbn [map comprehension]. rewrite (from_dict_to_dict now t Ht).
  cbn [bind]. rewrite IH. reflexivity.
Qed.

(** A tracker built from the file that [save_data] wrote is the tracker
    that was saved. *)
Lemma load_after_save (now : datetime) (fs : filesystem)
    (self : FinanceTracker) :
  Forall Transaction_wf (transactions self) ->
  FinanceTracker_init now (save_data fs self) (data_file self) = Ok (self, []).
Proof.
  intros Hwf. unfold FinanceTracker_init, load_data, save_data. simpl.
  rewrite String.eqb_refl. unfold load_body. simpl.
  unfold dict_get_default. simpl.
  rewrite (comprehension_from_dict now _ Hwf). simpl.
  now destruct self.
Qed.

(** C7: the amount a transaction stores is the absolute value of the
    amount it was given, hence not negative, for the constructor and for
    [from_dict] alike; on a numeric amount the constructor always
    returns; and the inputs -50 and 50, with the same category,
    description, type and date on the same day, give records that differ
    at most in their id. *)
Theorem stored_amount_is_absolute_value :
  (forall now a c d ty dt t,
      Transaction_init now a c d ty dt = Ok t ->
      exists x, as_num a = Some x /\ amount t = Qcabs x /\ (0 <= amount t)%Qc)
  /\ (forall now data t,
      from_dict now data = Ok t ->
      exists a x,
        subscript data "amount" = Ok a /\ as_num a = Some x /\
        amount t = Qcabs x /\ (0 <= amount t)%Qc)
  /\ (forall now x c d ty dt,
      exists t,
        Transaction_init now (JNum x) (JStr c) d (JStr ty) dt = Ok t /\
        amount t = Qcabs x /\ (0 <= amount t)%Qc)
  /\ (forall now1 now2 c d ty dt,
      ordinal now1 = ordinal now2 ->
      exists t1 t2,
        Transaction_init now1 (JNum (Z2num (-50))) (JStr c) d (JStr ty) dt = Ok t1 /\
        Transaction_init now2 (JNum (Z2num 50)) (JStr c) d (JStr ty) dt = Ok t2 /\
        set_id t1 (id t2) = t2).
Proof.
  repeat split.
  - intros now a c d ty dt t H. apply Transaction_init_Ok in H.
    destruct H as (x & sc & sty & Hx & _ & _ & ->). exists x. simpl.
    repeat split; [exact Hx | apply Qcabs_nonneg].
  - intros now data t H. apply from_dict_Ok in H.
    destruct H as (a & c & d & ty & dt & i & t0 & Ha & _ & _ & _ & _ & _ & H0 & ->).
    apply Transaction_init_Ok in H0.
    destruct H0 as (x & sc & sty & Hx & _ & _ & ->). exists a, x. simpl.
    repeat split; [exact Ha | exact Hx | apply Qcabs_nonneg].
  - intros now x c d ty dt. eexists. rewrite Transaction_init_typed.
    repeat split. simpl. apply Qcabs_nonneg.
  - intros now1 now2 c d ty dt Hday. do 2 eexists.
    rewrite !Transaction_init_typed. repeat split.
    unfold set_id, strftime. simpl. rewrite Hday. f_equal.
    apply num_eq. reflexivity.
Qed.

Lemma stored_amount_is_absolute_value_witness :
  (exists t,
     Transaction_init sample_now (JBool true) (JStr "Food") JNull
       (JStr "Expense") JNull = Ok t /\ (0 <= amount t)%Qc)
  /\ (exists t,
     from_dict sample_now (to_dict (sample_expense sample_now (-50) "Food")) = Ok t
     /\ (0 <= amount t)%Qc)
  /\ (exists t1 t2,
     Transaction_init sample_now (JNum (Z2num (-50))) (JStr "Food") JNull
       (JStr "expense") JNull = Ok t1 /\
     Transaction_init (minus_days sample_now 0) (JNum (Z2num 50)) (JStr "Food")
       JNull (JStr "expense") JNull = Ok t2 /\
     set_id t1 (id t2) = t2).
Proof.
  destruct stored_amount_is_absolute_value as (Hinit & Hfrom & _ & Hsign).
  split; [| split].
  - destruct (Transaction_init sample_now (JBool true) (JStr "Food") JNull
                (JStr "Expense") JNull) as [t | e] eqn:E;
      [| vm_compute in E; discriminate E].
    exists t. split; [reflexivity |].
    destruct (Hinit _ _ _ _ _ _ _ E) as (x & _ & _ & H). exact H.
  - destruct (from_dict sample_now
                (to_dict (sample_expense sample_now (-50) "Food")))
      as [t | e] eqn:E; [| vm_compute in E; discriminate E].
    exists t. split; [reflexivity |].
    destruct (Hfrom _ _ _ E) as (a & x & _ & _ & _ & H). exact H.
  - exact (Hsign sample_now (minus_days sample_now 0) "Food" JNull "expense"
             JNull eq_refl).
Defined.

(** C2: [from_dict] of [to_dict] gives back every transaction, field by
    field and with its id, whatever the clock shows at that time; and
    after [add_transaction] a tracker built from the same file holds the
    same transactions, the added one last, and the same budgets. *)
Theorem serialization_round_trip :
  (forall now t, created t -> from_dict now (to_dict t) = Ok t)
  /\ (forall now now' fs self x c d ty,
      Forall created (transactions self) ->
      exists t self' fs' out,
        add_transaction now fs self x c d ty = Ok (self', fs', out) /\
        created t /\
        transactions self' = transactions self ++ [t] /\
        FinanceTracker_init now' fs' (data_file self) = Ok (self', [])).
Proof.
  split.
  - intros now t Ht. apply from_dict_to_dict, created_wf, Ht.
  - intros now now' fs self x c d ty Hall.
    unfold add_transaction. rewrite Transaction_init_typed. cbn [bind].
    do 4 eexists. split; [reflexivity |].
    assert (Hc : created
              {| id := JNum (timestamp now); amount := Qcabs x;
                 category := lower c; description := JStr d;
                 type := lower ty; date := JStr (strftime now) |}).
    { left. exists now, (JNum x), (JStr c), (JStr d), (JStr ty), JNull.
      reflexivity. }
    split; [exact Hc |]. split; [reflexivity |].
    match goal with
    | |- FinanceTracker_init _ (save_data _ ?s) _ = _ =>
        change (data_file self) with (data_file s);
        apply (load_after_save now' fs s)
    end.
    simpl. apply Forall_app. split.
    + eapply Forall_impl; [| exact Hall]. apply created_wf.
    + constructor; [apply created_wf, Hc | constructor].
Qed.

Lemma sample_expense_created (now : datetime) (x : Z) (c : string) :
  created (sample_expense now x c).
Proof.
  left. exists now, (JNum (Z2num x)), (JStr c), (JStr "sample"),
    (JStr "expense"), JNull. reflexivity.
Qed.

Lemma serialization_round_trip_witness :
  from_dict sample_now (to_dict (sample_expense sample_now (-50) "Food"))
  = Ok (sample_expense sample_now (-50) "Food")
  /\ exists t self' fs' out,
      add_transaction sample_now no_files
        {| data_file := "finance_data.json";
           transactions := [sample_expense sample_now 40 "food"];
           budgets := JObj [] |}
        (Z2num 70) "Food" "dinner" "expense" = Ok (self', fs', out) /\
      created t /\
      transactions self' = [sample_expense sample_now 40 "food"] ++ [t] /\
      FinanceTracker_init sample_now fs' "finance_data.json" = Ok (self', []).
Proof.
  destruct serialization_round_trip as (Hrt & Hadd). split.
  - apply Hrt, sample_expense_created.
  - apply (Hadd sample_now sample_now no_files
             {| data_file := "finance_data.json";
                transactions := [sample_expense sample_now 40 "food"];
                budgets := JObj [] |}).
    simpl. constructor; [apply sample_expense_created | constructor].
Defined.

(** ** Loading *)

Lemma deserializable_from_dict (now : datetime) (r : json) :
  deserializable r -> exists t, from_dict now r = Ok t.
Proof.
  intros (kvs & -> & Hty & Hall).
  assert (Hget : forall k, In k required_fields ->
                           exists v, dict_get k kvs = Some v /\ field_typed k v).
  { intros k Hk. specialize (Hall k Hk).
    destruct (dict_get k kvs) as [v |] eqn:E; [| congruence].
    exists v. split; [reflexivity | apply Hty, E]. }
  destruct (Hget "id") as (i & Ei & _); [simpl; tauto |].
  destruct (Hget "amount") as (a & Ea & Ta); [simpl; tauto |].
  destruct (Hget "category") as (c & Ec & (sc & ->)); [simpl; tauto |].
  destruct (Hget "description") as (d & Ed & _); [simpl; tauto |].
  destruct (Hget "type") as (ty & Ety & (sty & ->)); [simpl; tauto |].
  destruct (Hget "date") as (dt & Edt & _); [simpl; tauto |].
  unfold field_typed in Ta. simpl in Ta.
  destruct (as_num a) as [x |] eqn:Ex; [| congruence].
  unfold from_dict, subscript. rewrite Ea, Ec, Ed, Ety, Edt, Ei. cbn [bind].
  unfold Transaction_init, py_abs. rewrite Ex. simpl. eauto.
Qed.

Lemma lacks_field_from_dict (now : datetime) (r : json) :
  lacks_field r -> from_dict now r = Raise KeyError.
Proof.
  intros (kvs & -> & Hty & (kvs' & k & [= <-] & Hk & Hnone)).
  unfold from_dict, subscript.
  destruct (dict_get "amount" kvs) as [a |] eqn:Ea; [| reflexivity].
  destruct (dict_get "category" kvs) as [c |] eqn:Ec; [| reflexivity].
  destruct (dict_get "description" kvs) as [d |] eqn:Ed; [| reflexivity].
  destruct (dict_get "type" kvs) as [ty |] eqn:Ety; [| reflexivity].
  destruct (dict_get "date" kvs) as [dt |] eqn:Edt; [| reflexivity].
  assert (Ei : dict_get "id" kvs = None).
  { simpl in Hk. destruct Hk as [<- | [<- | [<- | [<- | [<- | [<- | []]]]]]];
      congruence. }
  rewrite Ei. cbn [bind].
  pose proof (Hty _ _ Ea) as Ta. pose proof (Hty _ _ Ec) as (sc & ->).
  pose proof (Hty _ _ Ety) as (sty & ->).
  unfold field_typed in Ta. simpl in Ta.
  destruct (as_num a) as [x |] eqn:Ex; [| congruence].
  unfold Transaction_init, py_abs. rewrite Ex. reflexivity.
Qed.

Lemma comprehension_first_failure {A B : Type} (f : A -> result B)
    (good : list A) (bad : A) (rest : list A) (e : exn) :
  Forall (fun x => exists y, f x = Ok y) good ->
  f bad = Raise e ->
  comprehension f (good ++ bad :: rest) = Raise e.
Proof.
  intros Hgood Hbad. induction Hgood as [| x good (y & Hy) _ IH]; simpl.
  - now rewrite Hbad.
  - rewrite Hy. cbn [bind]. now rewrite IH.
Qed.

(** C1, as the code has it: a missing file gives the empty store and no
    warning; a text that is no JSON gives the empty store and the warning;
    so does a document in which the first record that does not
    deserialize lacks a field while none of its fields has an unexpected
    type. *)
Theorem load_recovery (now : datetime) (fs : filesystem) (path : string) :
  (fs path = None ->
   FinanceTracker_init now fs path = Ok (empty_tracker path, []))
  /\ (fs path = Some Unparseable -> load_recovers now fs path)
  /\ (forall kvs good bad rest,
      fs path = Some (Document (JObj kvs)) ->
      dict_get "transactions" kvs = Some (JArr (good ++ bad :: rest)) ->
      Forall deserializable good ->
      lacks_field bad ->
      load_recovers now fs path).
Proof.
  unfold load_recovers, FinanceTracker_init, load_data. simpl.
  split; [| split].
  - intros ->. reflexivity.
  - intros ->. reflexivity.
  - intros kvs good bad rest -> Hts Hgood Hbad.
    unfold load_body, py_get, dict_get_default. rewrite Hts. cbn [bind py_iter].
    rewrite (comprehension_first_failure (from_dict now) good bad rest KeyError).
    + reflexivity.
    + eapply Forall_impl; [| exact Hgood].
      intros r Hr. apply deserializable_from_dict, Hr.
    + apply lacks_field_from_dict, Hbad.
Qed.

Lemma load_recovery_witness :
  FinanceTracker_init sample_now no_files "finance_data.json"
  = Ok (empty_tracker "finance_data.json", [])
  /\ load_recovers sample_now (one_file Unparseable) "finance_data.json"
  /\ load_recovers sample_now (one_file no_amount_document) "finance_data.json".
Proof.
  split; [| split].
  - apply (load_recovery sample_now no_files "finance_data.json"). reflexivity.
  - apply (load_recovery sample_now (one_file Unparseable) "finance_data.json").
    reflexivity.
  - destruct (load_recovery sample_now (one_file no_amount_document)
                "finance_data.json") as (_ & _ & H).
    eapply (H _ [] _ []); [reflexivity | reflexivity | constructor |].
    eexists. split; [reflexivity |]. split.
    + intros k v. simpl.
      repeat match goal with
             | |- (if String.eqb k ?s then _ else _) = _ -> _ =>
                 destruct (String.eqb k s) eqn:?
             end; try discriminate; intros [= <-];
        repeat match goal with
               | H : String.eqb _ _ = true |- _ => apply String.eqb_eq in H; subst
               end; unfold field_typed; simpl; eauto.
    + exists [ ("id", JNum (Z2num 1)); ("category", JStr "food");
               ("description", JStr "lunch"); ("type", JStr "expense");
               ("date", JStr "2024-03-01") ], "amount".
      repeat split. simpl. tauto.
Defined.

(** C1 as stated fails: the document holds a record that lacks a field
    (the id), and the load raises [TypeError], which [load_data] does not
    catch. *)
Lemma load_raises_on_ill_typed_record :
  malformed ill_typed_document
  /\ FinanceTracker_init sample_now (one_file ill_typed_document)
       "finance_data.json" = Raise TypeError
  /\ ~ (forall now fs path c,
          fs path = Some c -> malformed c -> load_recovers now fs path).
Proof.
  assert (Hm : malformed ill_typed_document).
  { right. do 3 eexists. split; [reflexivity |]. split; [reflexivity |].
    split; [left; reflexivity |].
    do 2 eexists. split; [reflexivity |]. split; [left; reflexivity |].
    reflexivity. }
  split; [exact Hm |]. split; [reflexivity |].
  intros H.
  specialize (H sample_now (one_file ill_typed_document) "finance_data.json"
                ill_typed_document eq_refl Hm).
  unfold load_recovers in H. vm_compute in H. discriminate H.
Qed.

(** A document that is no object, and a list of transactions that holds
    a number, raise past [load_data] as well. *)
Remark load_raises_on_unexpected_shapes :
  FinanceTracker_init sample_now (one_file (Document (JArr [])))
    "finance_data.json" = Raise AttributeError
  /\ FinanceTracker_init sample_now
       (one_file (Document (JObj [("transactions", JArr [JNum (Z2num 1)])])))
       "finance_data.json" = Raise TypeError.
Proof. split; reflexivity. Qed.

(** ** The keys of the budgets *)

Lemma load_data_budgets (now : datetime) (fs : filesystem)
    (self ft : FinanceTracker) (out : list printed) :
  load_data now fs self = Ok (ft, out) ->
  data_file ft = data_file self
  /\ (ft = self
      \/ exists kvs,
          fs (data_file self) = Some (Document (JObj kvs)) /\
          budgets ft = dict_get_default "budgets" (JObj []) kvs).
Proof.
  unfold load_data.
  destruct (fs (data_file self)) as [[| data] |] eqn:Efile.
  - intros [= <- <-]. tauto.
  - destruct (load_body now data) as [[txs b] | e] eqn:Ebody.
    + intros [= <- <-]. split; [reflexivity |]. right.
      unfold load_body in Ebody.
      destruct data as [| | | | | kvs]; try discriminate Ebody.
      exists kvs. split; [reflexivity |].
      cbn [py_get bind] in Ebody.
      bind_inv Ebody. bind_inv Ebody. now injection Ebody as _ <-.
    + destruct e; intros H; try discriminate H; injection H as <- <-; tauto.
  - intros [= <- <-]. tauto.
Qed.

Lemma set_budget_Ok (fs : filesystem) (self ft : FinanceTracker)
    (c : string) (x : num) (fs' : filesystem) (out : list printed) :
  set_budget fs self c x = Ok (ft, fs', out) ->
  exists kvs,
    budgets self = JObj kvs /\
    ft = {| data_file := data_file self;
            transactions := transactions self;
            budgets := JObj (dict_set (lower c) (JNum x) kvs) |} /\
    fs' = save_data fs ft.
Proof.
  unfold set_budget, py_setitem.
  destruct (budgets self) as [| | | | | kvs]; try discriminate.
  cbn [bind]. intros [= <- <- _]. exists kvs. auto.
Qed.

Lemma empty_budgets_lowercase : budget_keys_lowercase (JObj []).
Proof. exists []. split; [reflexivity | constructor]. Qed.

Lemma file_after_save (fs : filesystem) (self : FinanceTracker)
    (path : string) :
  data_file self = path ->
  budget_keys_lowercase (budgets self) ->
  file_budgets_lowercase (save_data fs self path).
Proof.
  intros <- H. unfold save_data. rewrite String.eqb_refl. exact H.
Qed.

(** The invariant of a run: the tracker writes to [path], its budget keys
    are lowercase, and so are those of the file at [path]. *)
Lemma reachable_invariant (path : string) (fs : filesystem)
    (ft : FinanceTracker) :
  reachable path fs ft ->
  data_file ft = path /\ budget_keys_lowercase (budgets ft)
  /\ file_budgets_lowercase (fs path).
Proof.
  induction 1 as [now fs ft out Hfile Hload
                 | now fs ft x c d ty ft' fs' out _ IH Hadd
                 | fs ft c x ft' fs' out _ IH Hset
                 | fs ft _ IH
                 | now fs ft ft' out _ IH Hload].
  - apply load_data_budgets in Hload. simpl in Hload.
    destruct Hload as (Hpath & [-> | (kvs & Efile & Hb)]).
    + repeat split; [apply empty_budgets_lowercase | exact Hfile].
    + repeat split; [exact Hpath | | exact Hfile].
      rewrite Efile in Hfile. simpl in Hfile. now rewrite Hb.
  - destruct IH as (Hpath & Hb & _).
    unfold add_transaction in Hadd. rewrite Transaction_init_typed in Hadd.
    cbn [bind] in Hadd. injection Hadd as <- <- _.
    repeat split; [exact Hpath | exact Hb |].
    apply file_after_save; [exact Hpath | exact Hb].
  - destruct IH as (Hpath & (kvs0 & Hkvs0 & Hlow) & _).
    apply set_budget_Ok in Hset. destruct Hset as (kvs & Hkvs & -> & ->).
    assert (Hb' : budget_keys_lowercase
                    (JObj (dict_set (lower c) (JNum x) kvs))).
    { eexists. split; [reflexivity |].
      rewrite Hkvs in Hkvs0. injection Hkvs0 as ->.
      rewrite Forall_forall in *. intros k Hk.
      apply In_keys_dict_set in Hk. destruct Hk as [-> | Hk].
      - apply lower_lowercase.
      - apply Hlow, Hk. }
    repeat split; [exact Hpath | exact Hb' |].
    apply file_after_save; [exact Hpath | exact Hb'].
  - destruct IH as (Hpath & Hb & _). repeat split; [exact Hpath | exact Hb |].
    apply file_after_save; [exact Hpath | exact Hb].
  - destruct IH as (_ & _ & Hfile).
    apply load_data_budgets in Hload. simpl in Hload.
    destruct Hload as (Hpath & [-> | (kvs & Efile & Hb)]).
    + repeat split; [apply empty_budgets_lowercase | exact Hfile].
    + repeat split; [exact Hpath | | exact Hfile].
      rewrite Efile in Hfile. simpl in Hfile. now rewrite Hb.
Qed.

(** C8, as the code has it: in every store of a run every budget key is
    lowercase, and [set_budget] on such a store returns, stores the
    amount under the lowered category and leaves the other keys as they
    were.  The run starts from a file whose budget keys are lowercase:
    [load_data] copies the keys of the file as they are. *)
Theorem budget_keys_stay_lowercase (path : string) (fs : filesystem)
    (ft : FinanceTracker) :
  reachable path fs ft ->
  budget_keys_lowercase (budgets ft)
  /\ forall c x,
      exists ft' kvs kvs',
        set_budget fs ft c x
        = Ok (ft', save_data fs ft', [BudgetSet c x]) /\
        budgets ft = JObj kvs /\ budgets ft' = JObj kvs' /\
        dict_get (lower c) kvs' = Some (JNum x) /\
        (forall k, In k (keys kvs') <-> k = lower c \/ In k (keys kvs)) /\
        budget_keys_lowercase (budgets ft').
Proof.
  intros Hreach.
  pose proof (reachable_invariant path fs ft Hreach) as (_ & Hb & _).
  split; [exact Hb |]. intros c x.
  destruct Hb as (kvs & Hkvs & Hlow).
  unfold set_budget, py_setitem. rewrite Hkvs. cbn [bind].
  do 3 eexists. split; [reflexivity |]. split; [reflexivity |].
  split; [reflexivity |]. split; [apply dict_get_set_eq |].
  split; [intros k; apply In_keys_dict_set |].
  eexists. split; [reflexivity |].
  rewrite Forall_forall in *. intros k Hk.
  apply In_keys_dict_set in Hk. destruct Hk as [-> | Hk].
  - apply lower_lowercase.
  - apply Hlow, Hk.
Qed.

Lemma budget_keys_stay_lowercase_witness :
  exists ft fs,
    set_budget no_files (empty_tracker "finance_data.json") "Food" (Z2num 100)
    = Ok (ft, fs, [BudgetSet "Food" (Z2num 100)])
    /\ budgets ft = JObj [("food", JNum (Z2num 100))]
    /\ budget_keys_lowercase (budgets ft).
Proof.
  do 2 eexists. split; [reflexivity |]. split; [reflexivity |].
  eapply (budget_keys_stay_lowercase "finance_data.json").
  eapply reach_set with (fs := no_files) (c := "Food") (x := Z2num 100)
                       (ft := empty_tracker "finance_data.json");
    [| reflexivity].
  eapply reach_load with (now := sample_now); [exact I | reflexivity].
Defined.

(** C8 as stated fails: [load_data] does not lower the keys it reads. *)
Lemma load_keeps_capital_budget_key :
  (exists ft,
      FinanceTracker_init sample_now (one_file capital_key_document)
        "finance_data.json" = Ok (ft, [])
      /\ budgets ft = JObj [("Food", JNum (Z2num 100))]
      /\ ~ budget_keys_lowercase (budgets ft))
  /\ ~ (forall now fs path ft out,
          FinanceTracker_init now fs path = Ok (ft, out) ->
          budget_keys_lowercase (budgets ft)).
Proof.
  assert (Hno : ~ budget_keys_lowercase (JObj [("Food", JNum (Z2num 100))])).
  { intros (kvs & [= <-] & Hlow). inversion Hlow as [| ? ? Hfood _]; subst.
    discriminate Hfood. }
  split.
  - eexists. split; [reflexivity |]. split; [reflexivity | exact Hno].
  - intros H. apply Hno.
    exact (H sample_now (one_file capital_key_document) "finance_data.json"
             _ _ eq_refl).
Qed.

(** ** Transactions of a period *)

Lemma datetime_geb_le (a b : datetime) :
  datetime_geb a b = true <-> datetime_le b a.
Proof.
  unfold datetime_geb, datetime_le.
  rewrite orb_true_iff, andb_true_iff, Z.ltb_lt, Z.eqb_eq, Z.leb_le.
  intuition lia.
Qed.

Lemma filter_comprehension_Ok {A : Type} (p : A -> result bool)
    (q : A -> bool) (l : list A) :
  (forall x, In x l -> p x = Ok (q x)) ->
  filter_comprehension p l = Ok (filter q l).
Proof.
  induction l as [| x l IH]; intros H; simpl; [reflexivity |].
  rewrite (H x (or_introl eq_refl)). cbn [bind].
  rewrite IH by (intros y Hy; apply H; now right).
  cbn [bind]. reflexivity.
Qed.

(** A condition that raises on some element makes the comprehension
    raise what the condition raised on one of the elements. *)
Lemma filter_comprehension_Raise {A : Type} (p : A -> result bool)
    (l : list A) (x : A) (e : exn) :
  In x l -> p x = Raise e ->
  exists y e', In y l /\ p y = Raise e' /\ filter_comprehension p l = Raise e'.
Proof.
  induction l as [| z l IH]; intros Hin Hx; [contradiction |]. simpl.
  destruct (p z) as [b | e0] eqn:Ez.
  - destruct Hin as [-> | Hin]; [congruence |].
    destruct (IH Hin Hx) as (y & e' & Hy & Hpy & Hfc).
    exists y, e'. cbn [bind]. rewrite Hfc. auto.
  - exists z, e0. auto.
Qed.

Lemma filter_comprehension_Ok_inv {A : Type} (p : A -> result bool)
    (l r : list A) :
  filter_comprehension p l = Ok r ->
  forall x, In x l -> exists b, p x = Ok b.
Proof.
  intros H x Hin. destruct (p x) as [b | e] eqn:E; [eauto |].
  destruct (filter_comprehension_Raise p l x e Hin E) as (_ & e' & _ & _ & H').
  congruence.
Qed.

Lemma period_condition_Ok (cutoff : datetime) (t : Transaction) (b : bool) :
  (d <- strptime (date t) ;; Ok (datetime_geb d cutoff)) = Ok b ->
  exists d, dated t d /\ b = datetime_geb d cutoff.
Proof.
  unfold dated. destruct (strptime (date t)) as [d |]; [| discriminate].
  cbn [bind]. intros [= <-]. eauto.
Qed.

(** The cutoff of a period: within the limits of [timedelta] and of
    [datetime] it is [minus_days now days]; outside them, and for a
    reading that is no clock of a run, line 93 raises [OverflowError]
    before any date is parsed. *)
Lemma get_transactions_by_period_cutoff (now : datetime) (days : Z)
    (self : FinanceTracker) :
  (clock_of_a_run now /\ cutoff_in_range now days /\
   get_transactions_by_period now days self
   = filter_comprehension
       (fun t => d <- strptime (date t) ;;
                 Ok (datetime_geb d (minus_days now days)))
       (transactions self))
  \/ (~ (clock_of_a_run now /\ cutoff_in_range now days) /\
      get_transactions_by_period now days self = Raise OverflowError).
Proof.
  unfold get_transactions_by_period, datetime_now, timedelta, datetime_sub,
    clock_of_a_run, cutoff_in_range.
  destruct ((719163 <=? ordinal now) && (ordinal now <=? 3652059)
            && (0 <=? micro now) && (micro now <? 86400000000))%Z eqn:Ec;
    cbn [bind].
  - rewrite !andb_true_iff, !Z.leb_le, Z.ltb_lt in Ec.
    destruct ((-999999999 <=? days) && (days <=? 999999999))%Z eqn:Ed;
      cbn [bind].
    + rewrite andb_true_iff, !Z.leb_le in Ed.
      destruct ((1 <=? ordinal (minus_days now days))
                && (ordinal (minus_days now days) <=? 3652059))%Z eqn:Er;
        cbn [bind].
      * rewrite andb_true_iff, !Z.leb_le in Er. cbn [minus_days ordinal] in Er.
        left. split; [lia |]. split; [lia | reflexivity].
      * rewrite andb_false_iff, !Z.leb_gt in Er. cbn [minus_days ordinal] in Er.
        right. split; [lia | reflexivity].
    + rewrite andb_false_iff, !Z.leb_gt in Ed.
      right. split; [lia | reflexivity].
  - rewrite !andb_false_iff, !Z.leb_gt, Z.ltb_ge in Ec.
    right. split; [lia | reflexivity].
Qed.

Lemma get_transactions_by_period_in_range (now : datetime) (days : Z)
    (self : FinanceTracker) :
  clock_of_a_run now -> cutoff_in_range now days ->
  get_transactions_by_period now days self
  = filter_comprehension
      (fun t => d <- strptime (date t) ;;
                Ok (datetime_geb d (minus_days now days)))
      (transactions self).
Proof.
  intros Hc Hd.
  destruct (get_transactions_by_period_cutoff now days self)
    as [(_ & _ & H) | (H & _)]; [exact H | tauto].
Qed.

Lemma get_transactions_by_period_overflow (now : datetime) (days : Z)
    (self : FinanceTracker) :
  ~ (clock_of_a_run now /\ cutoff_in_range now days) ->
  get_transactions_by_period now days self = Raise OverflowError.
Proof.
  intros Hn.
  destruct (get_transactions_by_period_cutoff now days self)
    as [(Hc & Hd & _) | (_ & H)]; [tauto | exact H].
Qed.

(** A filter that returns has computed its cutoff. *)
Lemma get_transactions_by_period_range (now : datetime) (days : Z)
    (self : FinanceTracker) (p : list Transaction) :
  get_transactions_by_period now days self = Ok p ->
  clock_of_a_run now /\ cutoff_in_range now days.
Proof.
  intros H.
  destruct (get_transactions_by_period_cutoff now days self)
    as [(Hc & Hd & _) | (_ & H')]; [tauto | congruence].
Qed.

(** A clock of a run leaves room for the thirty days of the budget
    check. *)
Lemma cutoff_in_range_30 (now : datetime) :
  clock_of_a_run now -> cutoff_in_range now 30.
Proof. unfold clock_of_a_run, cutoff_in_range. lia. Qed.

(** With the cutoff in range the filter returns exactly when every date
    parses, and then it returns the transactions of the period in the
    order of the store. *)
Lemma get_transactions_by_period_Ok (now : datetime) (days : Z)
    (self : FinanceTracker) :
  clock_of_a_run now -> cutoff_in_range now days ->
  (forall t, In t (transactions self) -> exists d, dated t d) ->
  get_transactions_by_period now days self
  = Ok (filter (dated_in_period now days) (transactions self)).
Proof.
  intros Hc Hr H. rewrite (get_transactions_by_period_in_range _ _ _ Hc Hr).
  apply filter_comprehension_Ok. intros t Ht.
  destruct (H t Ht) as (d & Hd). unfold dated in Hd. unfold dated_in_period.
  now rewrite Hd.
Qed.

Lemma get_transactions_by_period_Ok_inv (now : datetime) (days : Z)
    (self : FinanceTracker) (p : list Transaction) :
  get_transactions_by_period now days self = Ok p ->
  (forall t, In t (transactions self) -> exists d, dated t d)
  /\ p = filter (dated_in_period now days) (transactions self).
Proof.
  intros H.
  destruct (get_transactions_by_period_range _ _ _ _ H) as (Hc & Hr).
  assert (Hall : forall t, In t (transactions self) -> exists d, dated t d).
  { intros t Ht.
    rewrite (get_transactions_by_period_in_range _ _ _ Hc Hr) in H.
    destruct (filter_comprehension_Ok_inv _ _ _ H t Ht) as (b & Hb).
    apply period_condition_Ok in Hb. destruct Hb as (d & Hd & _). eauto. }
  split; [exact Hall |].
  rewrite (get_transactions_by_period_Ok now days self Hc Hr Hall) in H.
  congruence.
Qed.

(** Among the periods whose cutoff is in range, whether the filter
    returns does not depend on the length of the period. *)
Lemma get_transactions_by_period_days (now : datetime) (days days' : Z)
    (self : FinanceTracker) (p : list Transaction) :
  get_transactions_by_period now days self = Ok p ->
  cutoff_in_range now days' ->
  get_transactions_by_period now days' self
  = Ok (filter (dated_in_period now days') (transactions self)).
Proof.
  intros H Hr'.
  destruct (get_transactions_by_period_range _ _ _ _ H) as (Hc & _).
  apply get_transactions_by_period_Ok; [exact Hc | exact Hr' |].
  apply (get_transactions_by_period_Ok_inv now days self p H).
Qed.

(** In particular the thirty days of the budget check return whenever
    some period does. *)
Lemma get_transactions_by_period_30 (now : datetime) (days : Z)
    (self : FinanceTracker) (p : list Transaction) :
  get_transactions_by_period now days self = Ok p ->
  get_transactions_by_period now 30 self
  = Ok (filter (dated_in_period now 30) (transactions self)).
Proof.
  intros H. apply (get_transactions_by_period_days now days 30 self p H).
  apply cutoff_in_range_30.
  apply (get_transactions_by_period_range _ _ _ _ H).
Qed.

Lemma sample_now_clock : clock_of_a_run sample_now.
Proof. unfold clock_of_a_run, sample_now. cbn [ordinal micro]. lia. Qed.

(** C3, as stated, fails: it promises a list for every [days], and the
    store below has dates that all parse, yet on a period of 999999 days
    from the first of March 2024 the cutoff is before the year 1 and
    line 93 raises [OverflowError]; no list is returned. *)
Lemma long_period_raises_OverflowError :
  (forall t, In t (transactions (tracker_of sample_transactions (JObj []))) ->
             exists d, dated t d)
  /\ get_transactions_by_period sample_now 999999
       (tracker_of sample_transactions (JObj [])) = Raise OverflowError
  /\ get_transactions_by_period sample_now 1000000000
       (tracker_of [] (JObj [])) = Raise OverflowError.
Proof.
  split; [| split; reflexivity].
  intros t Ht. simpl in Ht.
  destruct Ht as [<- | [<- | [<- | [<- | [<- | []]]]]];
    eexists; reflexivity.
Qed.

(** C3 (amended): on a clock of a run and for [days] whose cutoff
    [now - days] is within the limits of [timedelta] and [datetime]:
    when every date parses, the filter returns the transactions whose
    date is not before the cutoff, and only those, in the order of the
    store; when the date of some transaction is an ASCII text that does
    not parse, the filter raises and returns no list, and what it raises
    is the [ValueError] of [strptime] as soon as every date is a text.
    For every other [days] the filter raises [OverflowError], whatever
    the dates are. *)
Theorem period_filter_and_parse_errors (now : datetime) (days : Z)
    (self : FinanceTracker) :
  clock_of_a_run now ->
  (cutoff_in_range now days ->
   ((forall t, In t (transactions self) -> exists d, dated t d) ->
    exists p,
      get_transactions_by_period now days self = Ok p /\
      p = filter (dated_in_period now days) (transactions self) /\
      forall t,
        In t p <->
        In t (transactions self) /\
        exists d, dated t d /\ datetime_le (minus_days now days) d)
   /\ (forall t,
       In t (transactions self) -> date_fails_to_parse t ->
       (exists e, get_transactions_by_period now days self = Raise e)
       /\ ((forall t', In t' (transactions self) -> exists s, date t' = JStr s) ->
           get_transactions_by_period now days self = Raise ValueError)))
  /\ (~ cutoff_in_range now days ->
      get_transactions_by_period now days self = Raise OverflowError).
Proof.
  intros Hc. split; [intros Hr; split |].
  - intros Hall. eexists.
    split; [apply get_transactions_by_period_Ok; assumption |].
    split; [reflexivity |]. intros t. rewrite filter_In.
    split; intros [Hin H]; (split; [exact Hin |]).
    + destruct (Hall t Hin) as (d & Hd). exists d. split; [exact Hd |].
      unfold dated_in_period in H. unfold dated in Hd. rewrite Hd in H.
      apply datetime_geb_le, H.
    + destruct H as (d & Hd & Hle). unfold dated_in_period.
      unfold dated in Hd. rewrite Hd. apply datetime_geb_le, Hle.
  - intros t Hin (s & Hs & _ & Hnone).
    assert (Hraise : (d <- strptime (date t) ;;
                      Ok (datetime_geb d (minus_days now days)))
                     = Raise ValueError).
    { rewrite Hs. simpl. now rewrite Hnone. }
    destruct (filter_comprehension_Raise
                (fun t => d <- strptime (date t) ;;
                          Ok (datetime_geb d (minus_days now days)))
                _ _ _ Hin Hraise)
      as (y & e' & Hy & Hpy & Hfc).
    rewrite (get_transactions_by_period_in_range _ _ _ Hc Hr).
    split; [exists e'; exact Hfc |].
    intros Hstr. rewrite Hfc.
    destruct (Hstr y Hy) as (sy & Hsy). rewrite Hsy in Hpy.
    unfold strptime in Hpy.
    destruct (strptime_str sy); cbn [bind] in Hpy;
      [discriminate Hpy | injection Hpy as <-; reflexivity].
  - intros Hn. apply get_transactions_by_period_overflow. tauto.
Qed.

Lemma period_filter_and_parse_errors_witness :
  get_transactions_by_period sample_now 30
    (tracker_of [ dated_transaction "2024-02-10" 40 "food" "expense";
                  dated_transaction "2024-01-05" 70 "food" "expense";
                  dated_transaction "2024-3-1" 9 "rent" "expense" ]
       (JObj []))
  = Ok [ dated_transaction "2024-02-10" 40 "food" "expense";
         dated_transaction "2024-3-1" 9 "rent" "expense" ]
  /\ get_transactions_by_period sample_now 30
       (tracker_of [ dated_transaction "2024-02-10" 40 "food" "expense";
                     dated_transaction "10/02/2024" 70 "food" "expense" ]
          (JObj []))
     = Raise ValueError
  /\ get_transactions_by_period sample_now 999999
       (tracker_of [ dated_transaction "2024-02-10" 40 "food" "expense" ]
          (JObj []))
     = Raise OverflowError.
Proof.
  assert (Hc : clock_of_a_run sample_now).
  { unfold clock_of_a_run, sample_now. cbn [ordinal micro]. lia. }
  assert (Hr : cutoff_in_range sample_now 30).
  { unfold cutoff_in_range, sample_now. cbn [ordinal]. lia. }
  split; [| split].
  - destruct (period_filter_and_parse_errors sample_now 30
                (tracker_of [ dated_transaction "2024-02-10" 40 "food" "expense";
                              dated_transaction "2024-01-05" 70 "food" "expense";
                              dated_transaction "2024-3-1" 9 "rent" "expense" ]
                   (JObj [])) Hc) as (H & _).
    destruct (H Hr) as (H1 & _).
    destruct H1 as (p & Hp & -> & _).
    + simpl. intros t [<- | [<- | [<- | []]]]; eexists; reflexivity.
    + exact Hp.
  - destruct (period_filter_and_parse_errors sample_now 30
                (tracker_of [ dated_transaction "2024-02-10" 40 "food" "expense";
                              dated_transaction "10/02/2024" 70 "food" "expense" ]
                   (JObj [])) Hc) as (H & _).
    destruct (H Hr) as (_ & H2).
    apply (H2 (dated_transaction "10/02/2024" 70 "food" "expense")).
    + simpl. tauto.
    + exists "10/02/2024". split; [reflexivity |]. split; [| reflexivity].
      unfold ascii_text. simpl. repeat constructor.
    + simpl. intros t' [<- | [<- | []]]; eexists; reflexivity.
  - destruct (period_filter_and_parse_errors sample_now 999999
                (tracker_of [ dated_transaction "2024-02-10" 40 "food" "expense" ]
                   (JObj [])) Hc) as (_ & H).
    apply H. unfold cutoff_in_range, sample_now. cbn [ordinal]. lia.
Defined.

(** ** Income and expenses *)

Lemma sum_filter_total (f : Transaction -> bool) (p : list Transaction) :
  sum (map amount (filter f p)) = total f p.
Proof.
  induction p as [| t p IH]; simpl; [reflexivity |].
  destruct (f t); simpl; [rewrite sum_cons, IH |]; auto.
Qed.

Lemma total_none (f : Transaction -> bool) (p : list Transaction) :
  (forall t, In t p -> f t = false) -> total f p = 0%Qc.
Proof.
  induction p as [| t p IH]; intros H; simpl; [reflexivity |].
  rewrite (H t (or_introl eq_refl)). apply IH. intros t' Ht'. apply H. now right.
Qed.

Lemma total_Permutation (f : Transaction -> bool) (p q : list Transaction) :
  Permutation p q -> total f p = total f q.
Proof.
  induction 1 as [| t p q _ IH | t u p | p q r _ IH1 _ IH2]; simpl.
  - reflexivity.
  - now rewrite IH.
  - destruct (f t), (f u); try reflexivity. ring.
  - congruence.
Qed.

(** C9: whenever the period filter returns, the report returns; its
    income and its expenses are the totals of the amounts of the income
    and of the expense transactions of the period, its net is their
    difference, and on an empty period the three are 0.  An error of the
    period filter is the error of the report. *)
Theorem income_vs_expenses_totals (now : datetime) (days : Z)
    (self : FinanceTracker) :
  match get_transactions_by_period now days self with
  | Ok p =>
      exists r,
        get_income_vs_expenses now days self = Ok r /\
        income r = total is_income p /\
        expenses r = total is_expense p /\
        net r = (income r - expenses r)%Qc /\
        (p = [] -> r = {| income := 0%Qc; expenses := 0%Qc; net := 0%Qc |})
  | Raise e => get_income_vs_expenses now days self = Raise e
  end.
Proof.
  unfold get_income_vs_expenses.
  destruct (get_transactions_by_period now days self) as [p | e];
    [| reflexivity].
  cbn [bind]. eexists. split; [reflexivity |]. unfold summary_of. simpl.
  rewrite !sum_filter_total.
  split; [reflexivity |]. split; [reflexivity |]. split; [reflexivity |].
  intros ->. simpl. f_equal; apply num_eq; reflexivity.
Qed.

(** The scenario of the specification: an expense of 50 and an income of
    1000, both of the day. *)
Example income_vs_expenses_scenario :
  exists r,
    get_income_vs_expenses sample_now 30
      (tracker_of [ dated_transaction "2024-03-01" 50 "food" "expense";
                    dated_transaction "2024-03-01" 1000 "salary" "income" ]
         (JObj [])) = Ok r
    /\ income r = Z2num 1000 /\ expenses r = Z2num 50 /\ net r = Z2num 950.
Proof.
  eexists. split; [reflexivity |].
  repeat split; apply num_eq; reflexivity.
Qed.

(** ** Spending by category *)

Lemma existsb_false_forall {A : Type} (f : A -> bool) (l : list A) :
  existsb f l = false -> forall x, In x l -> f x = false.
Proof.
  intros H x Hx. destruct (f x) eqn:E; [| reflexivity].
  assert (Ht : existsb f l = true) by (apply existsb_exists; eauto).
  congruence.
Qed.

Lemma accumulate_spending_other (d : dict num) (t : Transaction) :
  is_expense t = false -> accumulate_spending d t = d.
Proof. unfold accumulate_spending, is_expense. now intros ->. Qed.

(** What the loop of [get_spending_by_category] leaves at a key. *)
Lemma spending_fold_get (p : list Transaction) (d0 : dict num) (c : string) :
  dict_get c (fold_left accumulate_spending p d0)
  = if existsb (is_expense_of c) p
    then Some (dict_get_default c (Z2num 0) d0 + total (is_expense_of c) p)%Qc
    else dict_get c d0.
Proof.
  revert d0. induction p as [| t p IH]; intros d0; [reflexivity |].
  cbn [fold_left existsb total]. rewrite IH. clear IH.
  assert (Hf : is_expense_of c t
               = is_expense t && String.eqb (category t) c) by reflexivity.
  rewrite Hf. clear Hf.
  destruct (is_expense t) eqn:Et.
  - unfold accumulate_spending. unfold is_expense in Et. rewrite Et.
    destruct (String.eqb (category t) c) eqn:Ec; cbn [andb orb].
    + apply String.eqb_eq in Ec. subst c.
      rewrite dict_get_default_set_eq, dict_get_set_eq.
      destruct (existsb (is_expense_of (category t)) p) eqn:Ex.
      * f_equal. ring.
      * rewrite (total_none _ p (existsb_false_forall _ _ Ex)). f_equal. ring.
    + apply String.eqb_neq in Ec.
      rewrite (dict_get_default_set_neq _ _ _ _ _ Ec).
      rewrite (dict_get_set_neq _ _ _ _ Ec). reflexivity.
  - rewrite (accumulate_spending_other _ _ Et). reflexivity.
Qed.

Lemma spending_fold_wf (p : list Transaction) (d0 : dict num) :
  dict_wf d0 -> dict_wf (fold_left accumulate_spending p d0).
Proof.
  revert d0. induction p as [| t p IH]; intros d0 H; [exact H |].
  simpl. apply IH. unfold accumulate_spending.
  destruct (String.eqb (type t) "expense"); [apply dict_set_wf |]; exact H.
Qed.

Lemma insert_desc_Permutation (x : string * num) (l : list (string * num)) :
  Permutation (insert_desc x l) (x :: l).
Proof.
  induction l as [| y l IH]; simpl; [reflexivity |].
  destruct (num_ltb (snd x) (snd y)); [| reflexivity].
  rewrite IH. apply perm_swap.
Qed.

Lemma sorted_desc_Permutation (l : list (string * num)) :
  Permutation (sorted_desc l) l.
Proof.
  induction l as [| x l IH]; simpl; [reflexivity |].
  rewrite insert_desc_Permutation. now constructor.
Qed.

Lemma insert_desc_descending (x : string * num) (l : list (string * num)) :
  descending l -> descending (insert_desc x l).
Proof.
  unfold descending. induction 1 as [| y l Hl IH Hy]; simpl.
  - repeat constructor.
  - destruct (num_ltb (snd x) (snd y)) eqn:E.
    + constructor; [exact IH |].
      rewrite (insert_desc_Permutation x l). constructor; [| exact Hy].
      apply num_ltb_lt in E. apply Qclt_le_weak, E.
    + apply num_ltb_ge in E. constructor; [now constructor |].
      constructor; [exact E |].
      eapply Forall_impl; [| exact Hy]. intros z Hz. simpl in Hz.
      eapply Qcle_trans; eassumption.
Qed.

Lemma sorted_desc_descending (l : list (string * num)) :
  descending (sorted_desc l).
Proof.
  induction l as [| x l IH]; simpl; [constructor |].
  apply insert_desc_descending, IH.
Qed.

Lemma dict_wf_Permutation {V : Type} (d d' : dict V) :
  Permutation d d' -> dict_wf d -> dict_wf d'.
Proof.
  intros HP. unfold dict_wf, keys.
  apply Permutation_NoDup, Permutation_map, HP.
Qed.

Lemma dict_get_Permutation {V : Type} (d d' : dict V) (k : string) :
  dict_wf d -> Permutation d d' -> dict_get k d = dict_get k d'.
Proof.
  intros Hwf HP.
  pose proof (dict_wf_Permutation d d' HP Hwf) as Hwf'.
  destruct (dict_get k d) as [v |] eqn:E.
  - symmetry. apply In_dict_get; [exact Hwf' |].
    eapply Permutation_in; [exact HP |]. apply dict_get_In, E.
  - symmetry. apply dict_get_None. apply dict_get_None in E.
    intros Hin. apply E. unfold keys in *.
    eapply Permutation_in; [| exact Hin].
    apply Permutation_map, Permutation_sym, HP.
Qed.

Lemma spending_of_sorted (p : list Transaction) :
  spending_of p = sorted_desc (fold_left accumulate_spending p []).
Proof.
  unfold spending_of. apply py_dict_wf.
  eapply dict_wf_Permutation; [apply Permutation_sym, sorted_desc_Permutation |].
  apply spending_fold_wf. constructor.
Qed.

Lemma spending_of_wf (p : list Transaction) : dict_wf (spending_of p).
Proof.
  rewrite spending_of_sorted.
  eapply dict_wf_Permutation; [apply Permutation_sym, sorted_desc_Permutation |].
  apply spending_fold_wf. constructor.
Qed.

(** The mapping has a key for every category with an expense, and the
    value at the key is the total of the expenses of the category. *)
Lemma spending_of_get (p : list Transaction) (c : string) :
  dict_get c (spending_of p)
  = if existsb (is_expense_of c) p
    then Some (total (is_expense_of c) p) else None.
Proof.
  rewrite spending_of_sorted.
  rewrite (dict_get_Permutation _ (fold_left accumulate_spending p []) c).
  - rewrite spending_fold_get. destruct (existsb (is_expense_of c) p);
      [| reflexivity].
    f_equal. unfold dict_get_default. simpl. change (Z2num 0) with 0%Qc. ring.
  - eapply dict_wf_Permutation;
      [apply Permutation_sym, sorted_desc_Permutation |].
    apply spending_fold_wf. constructor.
  - apply sorted_desc_Permutation.
Qed.

Lemma existsb_is_expense_of (p : list Transaction) (c : string) :
  existsb (is_expense_of c) p = true
  <-> exists t, In t p /\ is_expense t = true /\ category t = c.
Proof.
  rewrite existsb_exists. unfold is_expense_of.
  split; intros (t & Ht & H); exists t; (split; [exact Ht |]).
  - apply andb_true_iff in H. now rewrite String.eqb_eq in H.
  - apply andb_true_iff. now rewrite String.eqb_eq.
Qed.

Lemma spending_of_keys (p : list Transaction) (c : string) :
  In c (keys (spending_of p))
  <-> exists t, In t p /\ is_expense t = true /\ category t = c.
Proof.
  rewrite <- existsb_is_expense_of.
  pose proof (spending_of_get p c) as Hget.
  pose proof (dict_get_None (spending_of p) c) as Hnone.
  destruct (existsb (is_expense_of c) p).
  - split; [reflexivity |]. intros _.
    destruct (in_dec string_dec c (keys (spending_of p))) as [H | H];
      [exact H |].
    apply Hnone in H. congruence.
  - split; [| discriminate]. intros H. apply Hnone in Hget. contradiction.
Qed.

Lemma is_income_not_expense (t : Transaction) :
  is_income t = true -> is_expense t = false.
Proof.
  unfold is_income, is_expense. intros H. apply String.eqb_eq in H.
  now rewrite H.
Qed.

(** Transactions that are no expenses leave the mapping as it is. *)
Lemma spending_fold_filter (f : Transaction -> bool) (p : list Transaction)
    (d0 : dict num) :
  (forall t, f t = false -> is_expense t = false) ->
  fold_left accumulate_spending (filter f p) d0
  = fold_left accumulate_spending p d0.
Proof.
  intros Hf. revert d0. induction p as [| t p IH]; intros d0; [reflexivity |].
  simpl. destruct (f t) eqn:E; simpl.
  - apply IH.
  - rewrite (accumulate_spending_other _ _ (Hf t E)). apply IH.
Qed.

Lemma spending_of_without_income (p : list Transaction) :
  spending_of (filter (fun t => negb (is_income t)) p) = spending_of p.
Proof.
  unfold spending_of. rewrite spending_fold_filter; [reflexivity |].
  intros t H. apply negb_false_iff in H. apply is_income_not_expense, H.
Qed.

Lemma spending_of_no_expense (p : list Transaction) :
  (forall t, In t p -> is_expense t = false) -> spending_of p = [].
Proof.
  intros H. unfold spending_of.
  assert (E : fold_left accumulate_spending p [] = []).
  { generalize (@nil (string * num)) as d0.
    induction p as [| t p IH]; intros d0; [reflexivity |].
    simpl. rewrite (accumulate_spending_other _ _ (H t (or_introl eq_refl))).
    apply IH. intros t' Ht'. apply H. now right. }
  rewrite E. reflexivity.
Qed.

(** C4: whenever the period filter returns, the report returns a
    mapping without repeated keys whose keys are the categories of the
    expense transactions of the period, each with the total of the
    amounts of these transactions, listed from the largest total to the
    smallest; the transactions that are no expenses, income among them,
    change nothing, and a period without expenses gives the empty mapping.
    An error of the period filter is the error of the report. *)
Theorem spending_by_category_totals (now : datetime) (days : Z)
    (self : FinanceTracker) :
  match get_transactions_by_period now days self with
  | Ok p =>
      exists r,
        get_spending_by_category now days self = Ok r /\
        dict_wf r /\
        (forall c,
            In c (keys r)
            <-> exists t, In t p /\ is_expense t = true /\ category t = c) /\
        (forall c,
            In c (keys r) -> dict_get c r = Some (total (is_expense_of c) p)) /\
        descending r /\
        r = spending_of (filter is_expense p) /\
        r = spending_of (filter (fun t => negb (is_income t)) p) /\
        ((forall t, In t p -> is_expense t = false) -> r = [])
  | Raise e => get_spending_by_category now days self = Raise e
  end.
Proof.
  unfold get_spending_by_category.
  destruct (get_transactions_by_period now days self) as [p | e];
    [| reflexivity].
  cbn [bind]. exists (spending_of p). split; [reflexivity |].
  split; [apply spending_of_wf |].
  split; [apply spending_of_keys |].
  split.
  { intros c Hc. rewrite spending_of_get.
    apply spending_of_keys, existsb_is_expense_of in Hc. now rewrite Hc. }
  split; [rewrite spending_of_sorted; apply sorted_desc_descending |].
  split.
  { unfold spending_of. rewrite spending_fold_filter; [reflexivity |].
    intros t H. exact H. }
  split; [symmetry; apply spending_of_without_income |].
  apply spending_of_no_expense.
Qed.

Lemma sample_period_correct (b : json) :
  get_transactions_by_period sample_now 30 (tracker_of sample_transactions b)
  = Ok sample_period.
Proof. reflexivity. Qed.

Lemma spending_by_category_totals_witness :
  exists r,
    get_spending_by_category sample_now 30
      (tracker_of sample_transactions (JObj [])) = Ok r
    /\ keys r = ["rent"; "food"]
    /\ descending r
    /\ dict_get "food" r = Some (total (is_expense_of "food") sample_period)
    /\ get_spending_by_category sample_now 30
         (tracker_of [dated_transaction "2024-02-20" 1000 "salary" "income"]
            (JObj [])) = Ok [].
Proof.
  pose proof (spending_by_category_totals sample_now 30
                (tracker_of sample_transactions (JObj []))) as H.
  rewrite sample_period_correct in H.
  destruct H as (r & Hr & _ & _ & Hget & Hdesc & _).
  exists r. split; [exact Hr |].
  assert (Hk : keys r = ["rent"; "food"]).
  { vm_compute in Hr. injection Hr as <-. reflexivity. }
  split; [exact Hk |]. split; [exact Hdesc |].
  split; [apply Hget; rewrite Hk; simpl; tauto |].
  pose proof (spending_by_category_totals sample_now 30
                (tracker_of [dated_transaction "2024-02-20" 1000 "salary" "income"]
                   (JObj []))) as H.
  change (get_transactions_by_period sample_now 30
            (tracker_of [dated_transaction "2024-02-20" 1000 "salary" "income"]
               (JObj [])))
    with (Ok [dated_transaction "2024-02-20" 1000 "salary" "income"]) in H.
  destruct H as (r' & Hr' & _ & _ & _ & _ & _ & _ & Hempty).
  rewrite Hr'. f_equal. apply Hempty.
  intros t [<- | []]. reflexivity.
Defined.

Lemma income_vs_expenses_totals_witness :
  (exists r,
     get_income_vs_expenses sample_now 30
       (tracker_of [ dated_transaction "2024-03-01" 50 "food" "expense";
                     dated_transaction "2024-03-01" 1000 "salary" "income" ]
          (JObj [])) = Ok r
     /\ income r = Z2num 1000 /\ expenses r = Z2num 50 /\ net r = Z2num 950)
  /\ get_income_vs_expenses sample_now 30 (tracker_of [] (JObj []))
     = Ok {| income := 0%Qc; expenses := 0%Qc; net := 0%Qc |}.
Proof.
  split.
  - pose proof (income_vs_expenses_totals sample_now 30
                  (tracker_of
                     [ dated_transaction "2024-03-01" 50 "food" "expense";
                       dated_transaction "2024-03-01" 1000 "salary" "income" ]
                     (JObj []))) as H.
    change (get_transactions_by_period sample_now 30
              (tracker_of
                 [ dated_transaction "2024-03-01" 50 "food" "expense";
                   dated_transaction "2024-03-01" 1000 "salary" "income" ]
                 (JObj [])))
      with (Ok [ dated_transaction "2024-03-01" 50 "food" "expense";
                 dated_transaction "2024-03-01" 1000 "salary" "income" ]) in H.
    destruct H as (r & Hr & Hi & He & Hn & _).
    assert (Hi' : income r = Z2num 1000)
      by (rewrite Hi; apply num_eq; reflexivity).
    assert (He' : expenses r = Z2num 50)
      by (rewrite He; apply num_eq; reflexivity).
    exists r. split; [exact Hr |]. split; [exact Hi' |]. split; [exact He' |].
    rewrite Hn, Hi', He'. apply num_eq. reflexivity.
  - pose proof (income_vs_expenses_totals sample_now 30
                  (tracker_of [] (JObj []))) as H.
    change (get_transactions_by_period sample_now 30 (tracker_of [] (JObj [])))
      with (@Ok (list Transaction) []) in H.
    destruct H as (r & Hr & _ & _ & _ & Hzero).
    rewrite Hr. f_equal. apply Hzero. reflexivity.
Defined.

(** ** Reordering the store *)

Lemma filter_Permutation {A : Type} (f : A -> bool) (l l' : list A) :
  Permutation l l' -> Permutation (filter f l) (filter f l').
Proof.
  induction 1 as [| x l l' _ IH | x y l | l l' l'' _ IH1 _ IH2]; simpl.
  - constructor.
  - destruct (f x); [now constructor | exact IH].
  - destruct (f x), (f y); try reflexivity. apply perm_swap.
  - now transitivity (filter f l').
Qed.

Lemma existsb_Permutation {A : Type} (f : A -> bool) (l l' : list A) :
  Permutation l l' -> existsb f l = existsb f l'.
Proof.
  intros HP. destruct (existsb f l') eqn:E.
  - apply existsb_exists in E. destruct E as (x & Hx & Hf).
    apply existsb_exists. exists x. split; [| exact Hf].
    eapply Permutation_in; [apply Permutation_sym, HP | exact Hx].
  - destruct (existsb f l) eqn:E'; [| reflexivity].
    apply existsb_exists in E'. destruct E' as (x & Hx & Hf).
    rewrite (existsb_false_forall f l' E x) in Hf; [discriminate |].
    eapply Permutation_in; [exact HP | exact Hx].
Qed.

Lemma spending_of_same_mapping (p q : list Transaction) :
  Permutation p q -> same_mapping (spending_of p) (spending_of q).
Proof.
  intros HP c. rewrite !spending_of_get.
  rewrite (existsb_Permutation _ p q HP), (total_Permutation _ p q HP).
  reflexivity.
Qed.

Lemma same_mapping_Permutation {V : Type} (d1 d2 : dict V) :
  dict_wf d1 -> dict_wf d2 -> same_mapping d1 d2 -> Permutation d1 d2.
Proof.
  intros H1 H2 Hsame.
  apply NoDup_Permutation.
  - eapply NoDup_map_inv, H1.
  - eapply NoDup_map_inv, H2.
  - intros [k v]. split; intros Hin.
    + apply dict_get_In. rewrite <- Hsame. now apply In_dict_get.
    + apply dict_get_In. rewrite Hsame. now apply In_dict_get.
Qed.

(** C10, as stated, fails: the result depends on the order of the store.
    Two categories of equal total are listed in the order in which the
    store has them, so the two stores below, one a reordering of the
    other, give mappings that list their items differently; and the
    totals are sums of binary floating-point numbers taken in the order
    of the store, so expenses of 0.1, 0.2 and 0.3 in one category total
    0.6000000000000001 and, the store reversed, 0.6. *)
Lemma spending_depends_on_store_order :
  Permutation
    [ dated_transaction "2024-03-01" 10 "food" "expense";
      dated_transaction "2024-03-01" 10 "rent" "expense" ]
    [ dated_transaction "2024-03-01" 10 "rent" "expense";
      dated_transaction "2024-03-01" 10 "food" "expense" ]
  /\ (exists r1 r2,
        get_spending_by_category sample_now 30
          (tracker_of [ dated_transaction "2024-03-01" 10 "food" "expense";
                        dated_transaction "2024-03-01" 10 "rent" "expense" ]
             (JObj [])) = Ok r1
        /\ get_spending_by_category sample_now 30
             (tracker_of [ dated_transaction "2024-03-01" 10 "rent" "expense";
                           dated_transaction "2024-03-01" 10 "food" "expense" ]
                (JObj [])) = Ok r2
        /\ keys r1 = ["food"; "rent"]
        /\ keys r2 = ["rent"; "food"]
        /\ r1 <> r2)
  /\ float_category_total [0.1; 0.2; 0.3]%float
     <> float_category_total [0.3; 0.2; 0.1]%float.
Proof.
  split; [apply perm_swap |]. split.
  - eexists. eexists. split; [reflexivity |]. split; [reflexivity |].
    split; [reflexivity |]. split; [reflexivity |].
    intros H. apply (f_equal keys) in H. vm_compute in H. discriminate H.
  - intros H.
    apply (f_equal (fun x => PrimFloat.eqb x
                               (float_category_total [0.3; 0.2; 0.1]%float)))
      in H.
    vm_compute in H. discriminate H.
Qed.

(** C10 (amended): on two stores whose transactions are the same up to
    their order, the report raises on both or returns on both, and then
    the two mappings have the same categories; the income transactions
    of a store can be left out without any change; and when the amounts
    add without rounding the two mappings have the same total at every
    category and list the same items.  (The order in which equal totals
    are listed follows the store.) *)
Theorem spending_by_category_reordering (now : datetime) (days : Z)
    (self1 self2 : FinanceTracker) :
  Permutation (transactions self1) (transactions self2) ->
  match get_spending_by_category now days self1,
        get_spending_by_category now days self2 with
  | Ok r1, Ok r2 =>
      Permutation (keys r1) (keys r2) /\
      (exists p1,
         get_transactions_by_period now days self1 = Ok p1 /\
         r1 = spending_of (filter (fun t => negb (is_income t)) p1)) /\
      (whole_amounts (transactions self1) ->
       same_mapping r1 r2 /\ Permutation r1 r2)
  | Raise _, Raise _ => True
  | _, _ => False
  end.
Proof.
  intros HP. unfold get_spending_by_category.
  destruct (get_transactions_by_period now days self1) as [p1 | e1] eqn:E1;
    destruct (get_transactions_by_period now days self2) as [p2 | e2] eqn:E2;
    cbn [bind].
  - apply get_transactions_by_period_Ok_inv in E1, E2.
    destruct E1 as (_ & ->), E2 as (_ & ->).
    pose proof (filter_Permutation (dated_in_period now days) _ _ HP) as HPf.
    pose proof (spending_of_same_mapping _ _ HPf) as Hsame.
    assert (Hperm : Permutation
                      (spending_of (filter (dated_in_period now days)
                                      (transactions self1)))
                      (spending_of (filter (dated_in_period now days)
                                      (transactions self2)))).
    { apply same_mapping_Permutation;
        [apply spending_of_wf | apply spending_of_wf | exact Hsame]. }
    split; [apply Permutation_map, Hperm |].
    split; [| intros _; split; assumption].
    eexists. split; [reflexivity |].
    symmetry. apply spending_of_without_income.
  - destruct (get_transactions_by_period_range _ _ _ _ E1) as (Hc & Hr).
    apply get_transactions_by_period_Ok_inv in E1. destruct E1 as (Hall & _).
    rewrite get_transactions_by_period_Ok in E2;
      [discriminate E2 | exact Hc | exact Hr |].
    intros t Ht. apply Hall.
    eapply Permutation_in; [apply Permutation_sym, HP | exact Ht].
  - destruct (get_transactions_by_period_range _ _ _ _ E2) as (Hc & Hr).
    apply get_transactions_by_period_Ok_inv in E2. destruct E2 as (Hall & _).
    rewrite get_transactions_by_period_Ok in E1;
      [discriminate E1 | exact Hc | exact Hr |].
    intros t Ht. apply Hall.
    eapply Permutation_in; [exact HP | exact Ht].
  - exact I.
Qed.

Lemma sample_transactions_whole : whole_amounts sample_transactions.
Proof.
  split; [| reflexivity].
  unfold sample_transactions.
  apply Forall_cons;
    [exists 40%Z; split; [lia | apply num_eq; reflexivity] |].
  apply Forall_cons;
    [exists 1000%Z; split; [lia | apply num_eq; reflexivity] |].
  apply Forall_cons;
    [exists 900%Z; split; [lia | apply num_eq; reflexivity] |].
  apply Forall_cons;
    [exists 70%Z; split; [lia | apply num_eq; reflexivity] |].
  apply Forall_cons;
    [exists 5%Z; split; [lia | apply num_eq; reflexivity] |].
  apply Forall_nil.
Qed.

Lemma spending_by_category_reordering_witness :
  exists r1 r2,
    get_spending_by_category sample_now 30
      (tracker_of sample_transactions (JObj [])) = Ok r1
    /\ get_spending_by_category sample_now 30
         (tracker_of (rev sample_transactions) (JObj [])) = Ok r2
    /\ Permutation (keys r1) (keys r2)
    /\ same_mapping r1 r2 /\ Permutation r1 r2.
Proof.
  pose proof (spending_by_category_reordering sample_now 30
                (tracker_of sample_transactions (JObj []))
                (tracker_of (rev sample_transactions) (JObj []))
                (Permutation_rev sample_transactions)) as H.
  destruct (get_spending_by_category sample_now 30
              (tracker_of sample_transactions (JObj []))) as [r1 | e1] eqn:E1;
    [| vm_compute in E1; discriminate E1].
  destruct (get_spending_by_category sample_now 30
              (tracker_of (rev sample_transactions) (JObj []))) as [r2 | e2];
    [| contradiction].
  exists r1, r2. destruct H as (Hkeys & _ & Hwhole).
  split; [reflexivity |]. split; [reflexivity |]. split; [exact Hkeys |].
  apply Hwhole. exact sample_transactions_whole.
Defined.

(** ** Budgets *)

Lemma py_div_positive (a b : num) :
  num_ltb (Z2num 0) b = true -> py_div a b = Ok (a / b)%Qc.
Proof.
  intros H. apply num_ltb_lt in H. unfold py_div.
  destruct (Qeq_bool b 0) eqn:E; [| reflexivity].
  apply Qeq_bool_iff in E. exfalso.
  apply (Qclt_not_eq _ _ H). symmetry. apply num_eq. exact E.
Qed.

Lemma budget_step_typed (spending : dict num) (st : dict budget_entry)
    (kv : string * num) :
  budget_step spending (Ok st) (fst kv, JNum (snd kv))
  = Ok (dict_set (fst kv) (budget_entry_of spending kv) st).
Proof.
  unfold budget_step, budget_entry_of. cbn [bind as_num].
  destruct (num_ltb (Z2num 0) (snd kv)) eqn:E; [| reflexivity].
  rewrite (py_div_positive _ _ E). reflexivity.
Qed.

Lemma budget_fold_typed (spending : dict num) (b : dict num)
    (st : dict budget_entry) :
  fold_left (budget_step spending)
    (map (fun kv => (fst kv, JNum (snd kv))) b) (Ok st)
  = Ok (fold_left (fun d kv => dict_set (fst kv) (snd kv) d)
          (map (fun kv => (fst kv, budget_entry_of spending kv)) b) st).
Proof.
  revert st. induction b as [| kv b IH]; intros st; [reflexivity |].
  cbn [map fold_left]. rewrite budget_step_typed. apply IH.
Qed.

(** On budgets of the annotated type, [check_budgets] returns one entry
    for each budget, in the order of the budgets. *)
Lemma check_budgets_typed (now : datetime) (self : FinanceTracker)
    (b : dict num) (p : list Transaction) :
  budgets self = typed_budgets b -> dict_wf b ->
  get_transactions_by_period now 30 self = Ok p ->
  check_budgets now self
  = Ok (map (fun kv => (fst kv, budget_entry_of (spending_of p) kv)) b).
Proof.
  intros Hb Hwf Hp. unfold check_budgets, get_spending_by_category.
  rewrite Hp, Hb. cbn [bind typed_budgets py_items].
  rewrite budget_fold_typed. f_equal. apply py_dict_wf.
  unfold dict_wf, keys in *. rewrite map_map. exact Hwf.
Qed.

Lemma spent_is_category_total (p : list Transaction) (c : string) :
  dict_get_default c (Z2num 0) (spending_of p) = total (is_expense_of c) p.
Proof.
  unfold dict_get_default. rewrite spending_of_get.
  destruct (existsb (is_expense_of c) p) eqn:E; [reflexivity |].
  symmetry. apply total_none, existsb_false_forall, E.
Qed.

Lemma dict_get_map {A B : Type} (f : string * A -> B) (d : dict A)
    (k : string) :
  dict_get k (map (fun kv => (fst kv, f kv)) d)
  = match dict_get k d with
    | Some v => Some (f (k, v))
    | None => None
    end.
Proof.
  induction d as [| [k' v'] d IH]; simpl; [reflexivity |].
  destruct (String.eqb k k') eqn:E; [| exact IH].
  apply String.eqb_eq in E. now subst.
Qed.

(** C5: on a store whose budgets map categories to numbers,
    [check_budgets] returns whenever the filter of the last 30 days
    returns (it takes no other period), with one entry for each budgeted
    category and for no other; the entry holds the budget, the total of
    the expenses of the category in these 30 days, their difference, and
    as percentage [spent / budget * 100] for a positive budget and 0
    otherwise; in particular no division by zero is raised. *)
Theorem budget_status_entries (now : datetime) (self : FinanceTracker)
    (b : dict num) :
  budgets self = typed_budgets b -> dict_wf b ->
  match get_transactions_by_period now 30 self with
  | Ok p =>
      exists st,
        check_budgets now self = Ok st /\
        keys st = keys b /\
        forall c,
          match dict_get c b with
          | Some bud =>
              exists e,
                dict_get c st = Some e /\
                budget e = bud /\
                spent e = total (is_expense_of c) p /\
                remaining e = (bud - spent e)%Qc /\
                ((0 < bud)%Qc ->
                 percentage e = (spent e / bud * Z2num 100)%Qc) /\
                ((bud <= 0)%Qc -> percentage e = 0%Qc)
          | None => dict_get c st = None
          end
  | Raise e => check_budgets now self = Raise e
  end.
Proof.
  intros Hb Hwf.
  destruct (get_transactions_by_period now 30 self) as [p | e] eqn:Hp.
  - eexists. split; [apply (check_budgets_typed now self b p Hb Hwf Hp) |].
    split; [unfold keys; rewrite map_map; reflexivity |].
    intros c. rewrite dict_get_map. destruct (dict_get c b) as [bud |];
      [| reflexivity].
    eexists. split; [reflexivity |]. unfold budget_entry_of.
    cbn [budget spent remaining percentage fst snd].
    rewrite spent_is_category_total. change (Z2num 0) with 0%Qc.
    split; [reflexivity |]. split; [reflexivity |]. split; [reflexivity |].
    split; intros H.
    + apply num_ltb_lt in H. now rewrite H.
    + apply num_ltb_ge in H. now rewrite H.
  - unfold check_budgets, get_spending_by_category. now rewrite Hp.
Qed.

Lemma budget_status_entries_witness :
  exists st food rent,
    check_budgets sample_now food_scenario = Ok st
    /\ keys st = ["food"; "rent"]
    /\ dict_get "food" st = Some food
    /\ budget food = Z2num 100 /\ spent food = Z2num 110
    /\ remaining food = Z2num (-10) /\ percentage food = Z2num 110
    /\ dict_get "rent" st = Some rent
    /\ percentage rent = 0%Qc.
Proof.
  pose proof (budget_status_entries sample_now food_scenario
                [("food", Z2num 100); ("rent", Z2num 0)] eq_refl) as H.
  change (get_transactions_by_period sample_now 30 food_scenario)
    with (Ok [ dated_transaction "2024-02-10" 40 "food" "expense";
               dated_transaction "2024-03-01" 70 "food" "expense" ]) in H.
  destruct H as (st & Hst & Hkeys & Hentries).
  { repeat constructor; simpl; intuition discriminate. }
  pose proof (Hentries "food") as Hfood. pose proof (Hentries "rent") as Hrent.
  simpl in Hfood, Hrent.
  destruct Hfood as (food & Ef & Hbud & Hspent & Hrem & Hpct & _).
  destruct Hrent as (rent & Er & _ & _ & _ & _ & Hzero).
  exists st, food, rent.
  split; [exact Hst |]. split; [exact Hkeys |]. split; [exact Ef |].
  split; [exact Hbud |].
  assert (Hs : spent food = Z2num 110).
  { rewrite Hspent. apply num_eq. reflexivity. }
  split; [exact Hs |].
  split; [rewrite Hrem, Hs; apply num_eq; reflexivity |].
  split; [rewrite Hpct, Hs; [apply num_eq |]; reflexivity |].
  split; [exact Er |]. apply Hzero. apply Qcle_refl.
Defined.

(** ** Insights *)





(** * Further properties *)

(** ** Saving and loading *)

Lemma comprehension_Forall2 {A B : Type} (f : A -> result B) (l : list A)
    (r : list B) :
  comprehension f l = Ok r -> Forall2 (fun x y => f x = Ok y) l r.
Proof.
  revert r. induction l as [| x l IH]; intros r H; simpl in H.
  - injection H as <-. constructor.
  - bind_inv H. bind_inv H. injection H as <-.
    constructor; [assumption | now apply IH].
Qed.

(** X1: a tracker built from the file that [save_data] wrote is the
    tracker that was saved, transactions and budgets alike, and nothing
    is printed; [save_data] writes at the tracker's own path only. *)
Theorem save_then_load (now : datetime) (fs : filesystem)
    (self : FinanceTracker) :
  Forall created (transactions self) ->
  FinanceTracker_init now (save_data fs self) (data_file self) = Ok (self, [])
  /\ forall path, path <> data_file self -> save_data fs self path = fs path.
Proof.
  intros Hall. split.
  - apply load_after_save. eapply Forall_impl; [| exact Hall].
    apply created_wf.
  - intros path Hne. unfold save_data.
    destruct (String.eqb path (data_file self)) eqn:E; [| reflexivity].
    apply String.eqb_eq in E. contradiction.
Qed.

Lemma save_then_load_witness :
  FinanceTracker_init sample_now (save_data no_files sample_tracker)
    "finance_data.json" = Ok (sample_tracker, [])
  /\ save_data no_files sample_tracker "other.json" = None.
Proof.
  destruct (save_then_load sample_now no_files sample_tracker) as (H1 & H2).
  - constructor; [apply sample_expense_created |].
    constructor; [apply sample_expense_created | constructor].
  - split; [exact H1 |]. apply H2. discriminate.
Defined.

(** X2: a load is all or nothing.  From a document whose transactions are
    a list, the tracker either holds one transaction for each record, in
    the order of the file, together with the budgets of the file, or it
    is the empty tracker and the warning was printed. *)
Theorem load_all_or_nothing (now : datetime) (fs : filesystem)
    (path : string) (kvs : dict json) (rs : list json)
    (ft : FinanceTracker) (out : list printed) :
  fs path = Some (Document (JObj kvs)) ->
  dict_get "transactions" kvs = Some (JArr rs) ->
  FinanceTracker_init now fs path = Ok (ft, out) ->
  (out = []
   /\ Forall2 (fun r t => from_dict now r = Ok t) rs (transactions ft)
   /\ budgets ft = dict_get_default "budgets" (JObj []) kvs
   /\ data_file ft = path)
  \/ (out = [WarningCouldNotLoad] /\ ft = empty_tracker path).
Proof.
  intros Hfile Hts. unfold FinanceTracker_init, load_data. simpl.
  rewrite Hfile. unfold load_body, py_get, dict_get_default. rewrite Hts.
  cbn [bind py_iter].
  destruct (comprehension (from_dict now) rs) as [txs | e] eqn:E; cbn [bind].
  - intros [= <- <-]. left. simpl.
    split; [reflexivity |]. split; [apply comprehension_Forall2, E |].
    split; reflexivity.
  - destruct e; intros H; try discriminate H; injection H as <- <-;
      right; split; reflexivity.
Qed.

Lemma load_all_or_nothing_witness :
  exists ft t,
    FinanceTracker_init sample_now (one_file hand_written_document)
      "finance_data.json" = Ok (ft, [])
    /\ transactions ft = [t]
    /\ budgets ft = JObj [].
Proof.
  destruct (FinanceTracker_init sample_now (one_file hand_written_document)
              "finance_data.json") as [[ft out] | e] eqn:E;
    [| vm_compute in E; discriminate E].
  destruct (load_all_or_nothing sample_now (one_file hand_written_document)
              "finance_data.json" _ _ ft out eq_refl eq_refl E)
    as [(-> & Hrs & Hb & _) | (Hout & _)].
  - inversion Hrs as [| r t rs' ts' _ Hnil]; subst. inversion Hnil; subst.
    exists ft, t. repeat split; [congruence | exact Hb].
  - vm_compute in E. injection E as _ <-. discriminate Hout.
Defined.

(** X3: on a file whose amounts are finite numbers (the numbers of JSON:
    the [NaN] and [Infinity] that Python's [json] also reads are no
    values of [json] here) and whose texts are ASCII, the transactions of
    a tracker built from the file have a non-negative amount, a lowercase
    category, a lowercase type and a date that is not empty: [from_dict]
    passes every record through the constructor. *)
Theorem loaded_transactions_normalised (now : datetime) (fs : filesystem)
    (path : string) (ft : FinanceTracker) (out : list printed) :
  FinanceTracker_init now fs path = Ok (ft, out) ->
  Forall created (transactions ft) /\ Forall Transaction_wf (transactions ft).
Proof.
  intros H.
  assert (Hc : Forall created (transactions ft)).
  { unfold FinanceTracker_init, load_data in H. simpl in H.
    destruct (fs path) as [[| data] |].
    - injection H as <- _. constructor.
    - destruct (load_body now data) as [[txs b] | e] eqn:Ebody.
      + injection H as <- _. simpl.
        unfold load_body in Ebody.
        bind_inv Ebody. bind_inv Ebody. bind_inv Ebody. bind_inv Ebody.
        injection Ebody as -> _.
        apply comprehension_Forall2 in Ha1.
        clear - Ha1. induction Ha1 as [| r t rs ts Hrt _ IH]; constructor.
        * right. exists now, r. exact Hrt.
        * exact IH.
      + destruct e; try discriminate H; injection H as <- _; constructor.
    - injection H as <- _. constructor. }
  split; [exact Hc |]. eapply Forall_impl; [| exact Hc]. apply created_wf.
Qed.

Lemma loaded_transactions_normalised_witness :
  exists ft t,
    FinanceTracker_init sample_now (one_file hand_written_document)
      "finance_data.json" = Ok (ft, [])
    /\ transactions ft = [t]
    /\ id t = JStr "first" /\ amount t = Z2num 12
    /\ category t = "food" /\ type t = "expense"
    /\ date t = JStr "2024-03-01"
    /\ Transaction_wf t.
Proof.
  destruct (FinanceTracker_init sample_now (one_file hand_written_document)
              "finance_data.json") as [[ft out] | e] eqn:E;
    [| vm_compute in E; discriminate E].
  destruct (loaded_transactions_normalised _ _ _ _ _ E) as (_ & Hwf).
  vm_compute in E. injection E as <- <-.
  eexists. eexists. split; [reflexivity |]. split; [reflexivity |].
  split; [reflexivity |]. split; [apply num_eq; reflexivity |].
  split; [reflexivity |]. split; [reflexivity |]. split; [reflexivity |].
  inversion Hwf as [| ? ? Ht _]. exact Ht.
Defined.

(** ** Setting budgets *)

Lemma dict_set_set {V : Type} (d : dict V) (k : string) (v v' : V) :
  dict_set k v' (dict_set k v d) = dict_set k v' d.
Proof.
  induction d as [| [k0 v0] d IH]; simpl.
  - now rewrite String.eqb_refl.
  - destruct (String.eqb k k0) eqn:E; simpl.
    + now rewrite String.eqb_refl.
    + now rewrite E, IH.
Qed.

Lemma keys_dict_set_present {V : Type} (d : dict V) (k : string) (v v' : V) :
  keys (dict_set k v' (dict_set k v d)) = keys (dict_set k v d).
Proof. rewrite (keys_dict_set (dict_set k v d)), dict_get_set_eq. reflexivity. Qed.

(** X4: budgets are set without regard to case, and the later amount
    wins: setting a budget for a category and then for a category that
    differs from it in case only gives the tracker and the file that the
    second call alone gives, and leaves the keys as the first call left
    them. *)
Theorem set_budget_latest_wins (fs : filesystem) (self : FinanceTracker)
    (c1 c2 : string) (x y : num) (ft1 : FinanceTracker) (fs1 : filesystem)
    (out1 : list printed) :
  lower c1 = lower c2 ->
  set_budget fs self c1 x = Ok (ft1, fs1, out1) ->
  exists ft2 fs2 fs2' kvs1 kvs2,
    set_budget fs1 ft1 c2 y = Ok (ft2, fs2, [BudgetSet c2 y]) /\
    set_budget fs self c2 y = Ok (ft2, fs2', [BudgetSet c2 y]) /\
    fs2 (data_file self) = fs2' (data_file self) /\
    budgets ft1 = JObj kvs1 /\ budgets ft2 = JObj kvs2 /\
    keys kvs2 = keys kvs1 /\
    dict_get (lower c1) kvs2 = Some (JNum y).
Proof.
  intros Hc H1. apply set_budget_Ok in H1.
  destruct H1 as (kvs & Hkvs & -> & ->).
  unfold set_budget, py_setitem. rewrite Hkvs. cbn [budgets bind].
  rewrite <- Hc, dict_set_set.
  do 5 eexists. split; [reflexivity |]. split; [reflexivity |].
  split; [unfold save_data; simpl; now rewrite String.eqb_refl |].
  split; [reflexivity |]. split; [reflexivity |].
  split; [rewrite <- (dict_set_set kvs (lower c1) (JNum x) (JNum y));
          apply keys_dict_set_present |].
  apply dict_get_set_eq.
Qed.

Lemma set_budget_latest_wins_witness :
  exists ft1 fs1 ft2 fs2,
    set_budget no_files sample_tracker "Food" (Z2num 250)
    = Ok (ft1, fs1, [BudgetSet "Food" (Z2num 250)])
    /\ set_budget fs1 ft1 "FOOD" (Z2num 300)
       = Ok (ft2, fs2, [BudgetSet "FOOD" (Z2num 300)])
    /\ budgets ft2 = typed_budgets [("food", Z2num 300)].
Proof.
  destruct (set_budget no_files sample_tracker "Food" (Z2num 250))
    as [[[ft1 fs1] out1] | e] eqn:E1; [| vm_compute in E1; discriminate E1].
  destruct (set_budget_latest_wins no_files sample_tracker "Food" "FOOD"
              (Z2num 250) (Z2num 300) ft1 fs1 out1 eq_refl E1)
    as (ft2 & fs2 & fs2' & kvs1 & kvs2 & H2 & H2' & _).
  exists ft1, fs1, ft2, fs2.
  split; [vm_compute in E1; injection E1 as <- <- <-; reflexivity |].
  split; [exact H2 |].
  vm_compute in H2'. injection H2' as <- _. reflexivity.
Defined.

(** ** Budgets of another shape *)

Lemma budget_step_Raise (spending : dict num) (items : list (string * json))
    (e : exn) :
  fold_left (budget_step spending) items (Raise e) = Raise e.
Proof. induction items as [| item items IH]; [reflexivity | exact IH]. Qed.

Lemma budget_step_cases (spending : dict num) (st : dict budget_entry)
    (k : string) (v : json) :
  match as_num v with
  | Some _ => exists st', budget_step spending (Ok st) (k, v) = Ok st'
  | None => budget_step spending (Ok st) (k, v) = Raise TypeError
  end.
Proof.
  unfold budget_step. cbn [bind]. destruct (as_num v) as [b |]; [| reflexivity].
  destruct (num_ltb (Z2num 0) b) eqn:E; [| eexists; reflexivity].
  rewrite (py_div_positive _ _ E). eexists. reflexivity.
Qed.

Lemma budget_fold_text_amount (spending : dict num)
    (items : list (string * json)) (st : dict budget_entry) :
  Exists (fun kv => as_num (snd kv) = None) items ->
  fold_left (budget_step spending) items (Ok st) = Raise TypeError.
Proof.
  intros H. revert st. induction H as [[k v] items Hv | [k v] items _ IH];
    intros st; cbn [fold_left].
  - pose proof (budget_step_cases spending st k v) as Hc. simpl in Hv.
    rewrite Hv in Hc. rewrite Hc. apply budget_step_Raise.
  - pose proof (budget_step_cases spending st k v) as Hc.
    destruct (as_num v).
    + destruct Hc as (st' & ->). apply IH.
    + rewrite Hc. apply budget_step_Raise.
Qed.

(** X5: [load_data] takes the budgets of the file as they are, and the
    operations on budgets raise later.  When the budgets are no object,
    [set_budget] raises [TypeError] and writes nothing, and
    [check_budgets], and with it the insights of a period that is not
    empty, raise [AttributeError]; when the budgets are an object with an
    amount that is no number, they raise [TypeError].  The insights of an
    empty period are the message all the same. *)
Theorem reports_on_ill_shaped_budgets (now : datetime) (fs : filesystem)
    (self : FinanceTracker) :
  ((forall kvs, budgets self <> JObj kvs) ->
   (forall c x, set_budget fs self c x = Raise TypeError) /\
   (forall p, get_transactions_by_period now 30 self = Ok p ->
              check_budgets now self = Raise AttributeError) /\
   (forall days t p,
       get_transactions_by_period now days self = Ok (t :: p) ->
       get_financial_insights now days self = Raise AttributeError))
  /\ (forall kvs,
      budgets self = JObj kvs ->
      Exists (fun kv => as_num (snd kv) = None) kvs ->
      (forall p, get_transactions_by_period now 30 self = Ok p ->
                 check_budgets now self = Raise TypeError) /\
      (forall days t p,
          get_transactions_by_period now days self = Ok (t :: p) ->
          get_financial_insights now days self = Raise TypeError))
  /\ (forall days,
      get_transactions_by_period now days self = Ok [] ->
      get_financial_insights now days self = Ok Message).
Proof.
  split; [| split].
  - intros Hshape.
    assert (Hitems : py_items (budgets self) = Raise AttributeError).
    { destruct (budgets self) as [| | | | | kvs]; try reflexivity.
      exfalso. now apply (Hshape kvs). }
    assert (Hcheck : forall p, get_transactions_by_period now 30 self = Ok p ->
                               check_budgets now self = Raise AttributeError).
    { intros p Hp. unfold check_budgets, get_spending_by_category.
      rewrite Hp. cbn [bind]. now rewrite Hitems. }
    split; [| split; [exact Hcheck |]].
    + intros c x. unfold set_budget, py_setitem.
      destruct (budgets self) as [| | | | | kvs]; try reflexivity.
      exfalso. now apply (Hshape kvs).
    + intros days t p Hp. unfold get_financial_insights. rewrite Hp.
      cbn [bind]. unfold get_spending_by_category, get_income_vs_expenses.
      rewrite Hp. cbn [bind].
      rewrite (Hcheck _ (get_transactions_by_period_30 now days self _ Hp)).
      reflexivity.
  - intros kvs Hkvs Hbad.
    assert (Hcheck : forall p, get_transactions_by_period now 30 self = Ok p ->
                               check_budgets now self = Raise TypeError).
    { intros p Hp. unfold check_budgets, get_spending_by_category.
      rewrite Hp, Hkvs. cbn [bind py_items].
      apply budget_fold_text_amount, Hbad. }
    split; [exact Hcheck |].
    intros days t p Hp. unfold get_financial_insights. rewrite Hp.
    cbn [bind]. unfold get_spending_by_category, get_income_vs_expenses.
    rewrite Hp. cbn [bind].
    rewrite (Hcheck _ (get_transactions_by_period_30 now days self _ Hp)).
    reflexivity.
  - intros days Hp. unfold get_financial_insights. now rewrite Hp.
Qed.

Lemma reports_on_ill_shaped_budgets_witness :
  (exists ft,
      FinanceTracker_init sample_now (one_file list_budgets_document)
        "finance_data.json" = Ok (ft, [])
      /\ budgets ft = JArr []
      /\ set_budget (one_file list_budgets_document) ft "food" (Z2num 100)
         = Raise TypeError
      /\ check_budgets sample_now ft = Raise AttributeError
      /\ get_financial_insights sample_now 30 ft = Ok Message)
  /\ check_budgets sample_now (tracker_of sample_transactions text_amount_budgets)
     = Raise TypeError
  /\ get_financial_insights sample_now 30
       (tracker_of sample_transactions text_amount_budgets)
     = Raise TypeError.
Proof.
  split.
  - eexists. split; [reflexivity |]. split; [reflexivity |].
    destruct (reports_on_ill_shaped_budgets sample_now
                (one_file list_budgets_document)
                {| data_file := "finance_data.json"; transactions := [];
                   budgets := JArr [] |}) as (H & _ & Hempty).
    destruct H as (Hset & Hcheck & _); [intros kvs; discriminate |].
    split; [apply Hset |]. split; [apply (Hcheck []); reflexivity |].
    apply Hempty. reflexivity.
  - destruct (reports_on_ill_shaped_budgets sample_now no_files
                (tracker_of sample_transactions text_amount_budgets))
      as (_ & H & _).
    destruct (H _ eq_refl) as (Hcheck & Hins).
    + right. left. reflexivity.
    + split; [apply (Hcheck sample_period), sample_period_correct |].
      eapply Hins. apply sample_period_correct.
Defined.

(** ** Periods *)

Lemma datetime_geb_minus_days (d now : datetime) (days days' : Z) :
  (days <= days')%Z ->
  datetime_geb d (minus_days now days) = true ->
  datetime_geb d (minus_days now days') = true.
Proof.
  intros Hle. rewrite !datetime_geb_le. unfold datetime_le, minus_days. simpl.
  lia.
Qed.

Lemma dated_in_period_longer (now : datetime) (days days' : Z)
    (t : Transaction) :
  (days <= days')%Z ->
  dated_in_period now days t = true -> dated_in_period now days' t = true.
Proof.
  intros Hle. unfold dated_in_period.
  destruct (strptime (date t)); [| discriminate].
  now apply datetime_geb_minus_days.
Qed.

Lemma filter_filter_implied {A : Type} (f g : A -> bool) (l : list A) :
  (forall x, f x = true -> g x = true) ->
  filter f (filter g l) = filter f l.
Proof.
  intros H. induction l as [| x l IH]; simpl; [reflexivity |].
  destruct (g x) eqn:Eg; simpl.
  - destruct (f x); now rewrite IH.
  - destruct (f x) eqn:Ef; [| exact IH].
    apply H in Ef. congruence.
Qed.

(** X6: a longer period holds the shorter ones.  When the filter returns
    for some number of days it returns for every larger number of days
    whose cutoff is still within the limits of [timedelta] and
    [datetime], and the transactions of the shorter period are those of
    the longer one that are not before the later cutoff, in the same
    order. *)
Theorem longer_period_holds_shorter (now : datetime) (days days' : Z)
    (self : FinanceTracker) (p : list Transaction) :
  (days <= days')%Z ->
  cutoff_in_range now days' ->
  get_transactions_by_period now days self = Ok p ->
  exists p',
    get_transactions_by_period now days' self = Ok p' /\
    p = filter (dated_in_period now days) p' /\
    incl p p' /\ incl p' (transactions self) /\
    (List.length p <= List.length p')%nat.
Proof.
  intros Hle Hr' Hp.
  pose proof (get_transactions_by_period_days now days days' self p Hp Hr')
    as Hp'.
  apply get_transactions_by_period_Ok_inv in Hp. destruct Hp as (_ & ->).
  eexists. split; [exact Hp' |].
  assert (E : filter (dated_in_period now days) (transactions self)
              = filter (dated_in_period now days)
                  (filter (dated_in_period now days') (transactions self))).
  { symmetry. apply filter_filter_implied. intros t.
    now apply dated_in_period_longer. }
  split; [exact E |].
  split; [rewrite E; apply incl_filter |].
  split; [apply incl_filter |].
  rewrite E. apply filter_length_le.
Qed.

Lemma longer_period_holds_shorter_witness :
  exists p p',
    get_transactions_by_period sample_now 7
      (tracker_of sample_transactions (JObj [])) = Ok p
    /\ get_transactions_by_period sample_now 30
         (tracker_of sample_transactions (JObj [])) = Ok p'
    /\ List.length p = 2%nat /\ List.length p' = 4%nat /\ incl p p'.
Proof.
  destruct (get_transactions_by_period sample_now 7
              (tracker_of sample_transactions (JObj []))) as [p | e] eqn:E;
    [| vm_compute in E; discriminate E].
  destruct (longer_period_holds_shorter sample_now 7 30 _ p ltac:(lia)
              (cutoff_in_range_30 sample_now sample_now_clock) E)
    as (p' & Hp' & _ & Hincl & _).
  exists p, p'. split; [reflexivity |]. split; [exact Hp' |].
  split; [vm_compute in E; injection E as <-; reflexivity |].
  split; [| exact Hincl].
  rewrite sample_period_correct in Hp'. injection Hp' as <-. reflexivity.
Defined.

(** The exception of a comprehension over a store with a date that does
    not parse does not depend on the cutoff. *)
Lemma bad_date_fails_every_cutoff (l : list Transaction) (t : Transaction) :
  In t l -> date_fails_to_parse t ->
  exists e,
    (e = ValueError \/ e = TypeError) /\
    forall cutoff,
      filter_comprehension
        (fun u => d <- strptime (date u) ;; Ok (datetime_geb d cutoff)) l
      = Raise e.
Proof.
  intros Hin (s & Hs & _ & Hnone).
  induction l as [| u l IH]; [contradiction |].
  cbn [filter_comprehension].
  destruct (strptime (date u)) as [d | e] eqn:Eu.
  - destruct Hin as [-> | Hin].
    + rewrite Hs in Eu. simpl in Eu. rewrite Hnone in Eu. discriminate Eu.
    + destruct (IH Hin) as (e & He & Hall). exists e. split; [exact He |].
      intros cutoff. cbn [bind]. now rewrite Hall.
  - exists e. split; [| reflexivity].
    unfold strptime in Eu. destruct (date u); try (injection Eu as <-; tauto).
    destruct (strptime_str s0); [discriminate Eu | injection Eu as <-; tauto].
Qed.

(** X7: one date that does not parse stops every report.  When the date
    of some transaction of the store is an ASCII text that names no day,
    the period filter, the spending by category, the income and expenses
    and the insights raise for every number of days, and the budget check
    raises; on a clock of a run what they raise is one exception, the
    [ValueError] or the [TypeError] of [strptime], for the budget check
    and for every number of days whose cutoff is within the limits of
    [timedelta] and [datetime] (for the others it is the
    [OverflowError] of the cutoff). *)
Theorem bad_date_stops_every_report (now : datetime) (self : FinanceTracker)
    (t : Transaction) :
  In t (transactions self) -> date_fails_to_parse t ->
  (forall days,
      exists e,
        get_transactions_by_period now days self = Raise e /\
        get_spending_by_category now days self = Raise e /\
        get_income_vs_expenses now days self = Raise e /\
        get_financial_insights now days self = Raise e)
  /\ (exists e, check_budgets now self = Raise e)
  /\ (clock_of_a_run now ->
      exists e,
        (e = ValueError \/ e = TypeError) /\
        check_budgets now self = Raise e /\
        forall days,
          (cutoff_in_range now days ->
           get_transactions_by_period now days self = Raise e /\
           get_spending_by_category now days self = Raise e /\
           get_income_vs_expenses now days self = Raise e /\
           get_financial_insights now days self = Raise e)
          /\ (~ cutoff_in_range now days ->
              get_transactions_by_period now days self = Raise OverflowError /\
              get_spending_by_category now days self = Raise OverflowError /\
              get_income_vs_expenses now days self = Raise OverflowError /\
              get_financial_insights now days self = Raise OverflowError)).
Proof.
  intros Hin Hbad.
  destruct (bad_date_fails_every_cutoff _ t Hin Hbad) as (e & He & Hall).
  assert (Hreports : forall days e',
             get_transactions_by_period now days self = Raise e' ->
             get_transactions_by_period now days self = Raise e' /\
             get_spending_by_category now days self = Raise e' /\
             get_income_vs_expenses now days self = Raise e' /\
             get_financial_insights now days self = Raise e').
  { intros days e' H. split; [exact H |].
    unfold get_spending_by_category, get_income_vs_expenses,
      get_financial_insights.
    rewrite H. auto. }
  assert (Hperiod : forall days,
             exists e', get_transactions_by_period now days self = Raise e').
  { intros days.
    destruct (get_transactions_by_period_cutoff now days self)
      as [(_ & _ & H) | (_ & H)].
    - exists e. rewrite H. apply Hall.
    - exists OverflowError. exact H. }
  split; [| split].
  - intros days. destruct (Hperiod days) as (e' & H). exists e'.
    now apply Hreports.
  - destruct (Hperiod 30%Z) as (e' & H). exists e'.
    unfold check_budgets, get_spending_by_category. now rewrite H.
  - intros Hc. exists e. split; [exact He |]. split.
    + unfold check_budgets, get_spending_by_category.
      rewrite (get_transactions_by_period_in_range _ _ _ Hc
                 (cutoff_in_range_30 now Hc)).
      now rewrite Hall.
    + intros days. split.
      * intros Hr. apply Hreports.
        rewrite (get_transactions_by_period_in_range _ _ _ Hc Hr).
        apply Hall.
      * intros Hn. apply Hreports.
        apply get_transactions_by_period_overflow. tauto.
Qed.

Lemma bad_date_stops_every_report_witness :
  exists ft,
    FinanceTracker_init sample_now (one_file day_first_document)
      "finance_data.json" = Ok (ft, [])
    /\ get_spending_by_category sample_now 30 ft = Raise ValueError
    /\ get_financial_insights sample_now 365 ft = Raise ValueError
    /\ check_budgets sample_now ft = Raise ValueError
    /\ get_income_vs_expenses sample_now 999999 ft = Raise OverflowError.
Proof.
  destruct (FinanceTracker_init sample_now (one_file day_first_document)
              "finance_data.json") as [[ft out] | e0] eqn:E;
    [| vm_compute in E; discriminate E].
  vm_compute in E. injection E as <- <-.
  eexists. split; [reflexivity |].
  match goal with
  | |- get_spending_by_category _ _ ?ft = _ /\ _ =>
      destruct (bad_date_stops_every_report sample_now ft
                  (set_id (dated_transaction "10/02/2024" 12 "food" "expense")
                     (JNum (Z2num 1)))) as (_ & _ & H)
  end.
  - left. reflexivity.
  - exists "10/02/2024". split; [reflexivity |]. split; [| reflexivity].
    unfold ascii_text. simpl. repeat constructor.
  - destruct (H sample_now_clock) as (e & _ & Hcheck & Hall).
    assert (Hr30 : cutoff_in_range sample_now 30)
      by (unfold cutoff_in_range, sample_now; cbn [ordinal]; lia).
    assert (Hr365 : cutoff_in_range sample_now 365)
      by (unfold cutoff_in_range, sample_now; cbn [ordinal]; lia).
    assert (Hn : ~ cutoff_in_range sample_now 999999)
      by (unfold cutoff_in_range, sample_now; cbn [ordinal]; lia).
    assert (He : e = ValueError).
    { destruct (proj1 (Hall 30%Z) Hr30) as (Hp & _). vm_compute in Hp.
      injection Hp as <-. reflexivity. }
    subst e. split; [apply (proj1 (Hall 30%Z) Hr30) |].
    split; [apply (proj1 (Hall 365%Z) Hr365) |].
    split; [exact Hcheck |].
    apply (proj2 (Hall 999999%Z) Hn).
Defined.

(** ** Agreement of the reports *)

Lemma sum_values_dict_set (d : dict num) (k : string) (v : num) :
  sum (values (dict_set k v d))
  = (sum (values d) - dict_get_default k (Z2num 0) d + v)%Qc.
Proof.
  unfold values, dict_get_default.
  induction d as [| [k' v'] d IH]; simpl.
  - rewrite sum_cons, sum_nil. change (Z2num 0) with 0%Qc. ring.
  - destruct (String.eqb k k') eqn:E; simpl.
    + rewrite !sum_cons. ring.
    + rewrite !sum_cons, IH. ring.
Qed.

Lemma sum_values_spending_fold (p : list Transaction) (d0 : dict num) :
  sum (values (fold_left accumulate_spending p d0))
  = (sum (values d0) + total is_expense p)%Qc.
Proof.
  revert d0. induction p as [| t p IH]; intros d0; simpl.
  - ring.
  - rewrite IH. unfold accumulate_spending, is_expense.
    destruct (String.eqb (type t) "expense"); [| reflexivity].
    rewrite sum_values_dict_set. ring.
Qed.

Lemma sum_values_spending_of (p : list Transaction) :
  sum (values (spending_of p)) = total is_expense p.
Proof.
  rewrite spending_of_sorted.
  rewrite (sum_Permutation _ (values (fold_left accumulate_spending p []))).
  - rewrite sum_values_spending_fold. unfold values. simpl.
    rewrite sum_nil. change (Z2num 0) with 0%Qc. ring.
  - unfold values. apply Permutation_map, sorted_desc_Permutation.
Qed.

(** X8: the two reports agree.  Over the same period, on amounts that add
    without rounding, the totals of the spending by category add up to
    the expenses of the income and expenses report. *)
Theorem spending_adds_up_to_expenses (now : datetime) (days : Z)
    (self : FinanceTracker) (r : dict num) :
  whole_amounts (transactions self) ->
  get_spending_by_category now days self = Ok r ->
  exists s,
    get_income_vs_expenses now days self = Ok s /\
    sum (values r) = expenses s.
Proof.
  unfold get_spending_by_category, get_income_vs_expenses. intros _ H.
  bind_inv H. injection H as <-. cbn [bind].
  eexists. split; [reflexivity |].
  unfold summary_of. cbn [expenses].
  now rewrite sum_values_spending_of, sum_filter_total.
Qed.

Lemma spending_adds_up_to_expenses_witness :
  exists r s,
    get_spending_by_category sample_now 30
      (tracker_of sample_transactions (JObj [])) = Ok r
    /\ get_income_vs_expenses sample_now 30
         (tracker_of sample_transactions (JObj [])) = Ok s
    /\ sum (values r) = expenses s
    /\ expenses s = Z2num 1010.
Proof.
  destruct (get_spending_by_category sample_now 30
              (tracker_of sample_transactions (JObj []))) as [r | e] eqn:E;
    [| vm_compute in E; discriminate E].
  destruct (spending_adds_up_to_expenses sample_now 30
              (tracker_of sample_transactions (JObj [])) r
              sample_transactions_whole E)
    as (s & Hs & Hsum).
  exists r, s. split; [reflexivity |]. split; [exact Hs |].
  split; [exact Hsum |].
  vm_compute in Hs. injection Hs as <-. apply num_eq. reflexivity.
Defined.

Lemma filter_comm {A : Type} (f g : A -> bool) (l : list A) :
  filter f (filter g l) = filter g (filter f l).
Proof.
  induction l as [| x l IH]; simpl; [reflexivity |].
  destruct (f x) eqn:Ef, (g x) eqn:Eg; simpl; rewrite ?Ef, ?Eg, IH;
    reflexivity.
Qed.

(** X9: a transaction whose type is neither "income" nor "expense" counts
    in no total.  If the period filter returns on a store, then on the
    store without these transactions it returns as well, and the spending
    by category and the income and expenses are the same on both. *)
Theorem other_types_count_nowhere (now : datetime) (days : Z)
    (self self' : FinanceTracker) (p : list Transaction) :
  transactions self' = filter income_or_expense (transactions self) ->
  get_transactions_by_period now days self = Ok p ->
  get_transactions_by_period now days self' = Ok (filter income_or_expense p)
  /\ get_spending_by_category now days self'
     = get_spending_by_category now days self
  /\ get_income_vs_expenses now days self'
     = get_income_vs_expenses now days self.
Proof.
  intros Htx Hp.
  pose proof (get_transactions_by_period_Ok_inv now days self p Hp)
    as (Hall & Hfilter).
  assert (Hp' : get_transactions_by_period now days self'
                = Ok (filter income_or_expense p)).
  { destruct (get_transactions_by_period_range _ _ _ _ Hp) as (Hc & Hr).
    rewrite (get_transactions_by_period_Ok _ _ _ Hc Hr).
    - rewrite Htx, Hfilter. f_equal. apply filter_comm.
    - intros t Ht. rewrite Htx in Ht. apply filter_In in Ht. apply Hall, Ht. }
  split; [exact Hp' |].
  unfold get_spending_by_category, get_income_vs_expenses.
  rewrite Hp, Hp'. cbn [bind]. split; f_equal.
  - unfold spending_of. rewrite spending_fold_filter; [reflexivity |].
    intros t Ht. unfold income_or_expense in Ht.
    apply orb_false_iff in Ht. apply Ht.
  - unfold summary_of.
    rewrite !(filter_filter_implied _ income_or_expense); [reflexivity | |];
      intros t Ht; unfold income_or_expense; rewrite Ht;
      [apply orb_true_r | reflexivity].
Qed.

Lemma other_types_count_nowhere_witness :
  get_spending_by_category sample_now 30
    (tracker_of (filter income_or_expense transactions_with_transfer) (JObj []))
  = get_spending_by_category sample_now 30
      (tracker_of transactions_with_transfer (JObj []))
  /\ exists s,
      get_income_vs_expenses sample_now 30
        (tracker_of transactions_with_transfer (JObj [])) = Ok s
      /\ income s = Z2num 1000 /\ expenses s = Z2num 40.
Proof.
  destruct (other_types_count_nowhere sample_now 30
              (tracker_of transactions_with_transfer (JObj []))
              (tracker_of (filter income_or_expense transactions_with_transfer)
                 (JObj []))
              transactions_with_transfer eq_refl eq_refl) as (_ & Hsp & _).
  split; [exact Hsp |].
  eexists. split; [reflexivity |]. split; apply num_eq; reflexivity.
Defined.

(** ** The figures of the insights *)

(** What a report that is no message was computed from. *)
Lemma get_financial_insights_Report (now : datetime) (days : Z)
    (self : FinanceTracker) (r : insights) :
  get_financial_insights now days self = Ok (Report r) ->
  exists t p st,
    get_transactions_by_period now days self = Ok (t :: p) /\
    check_budgets now self = Ok st /\
    period_days r = days /\
    total_transactions r = List.length (t :: p) /\
    average_expense r
    = match map amount (filter is_expense (t :: p)) with
      | [] => Z2num 0
      | x :: xs => mean (x :: xs)
      end /\
    largest_expense r
    = match map amount (filter is_expense (t :: p)) with
      | [] => Z2num 0
      | x :: xs => py_max x xs
      end /\
    smallest_expense r
    = match map amount (filter is_expense (t :: p)) with
      | [] => Z2num 0
      | x :: xs => py_min x xs
      end /\
    most_expensive_category r
    = match spending_of (t :: p) with
      | [] => ""
      | kv :: d => max_key kv d
      end.
Proof.
  unfold get_financial_insights. intros H.
  destruct (get_transactions_by_period now days self) as [[| t p] | e] eqn:Hp;
    cbn [bind] in H; try discriminate H.
  unfold get_spending_by_category, get_income_vs_expenses in H.
  rewrite Hp in H. cbn [bind] in H.
  destruct (check_budgets now self) as [st | e] eqn:Hst; cbn [bind] in H;
    [| discriminate H].
  injection H as <-. exists t, p, st.
  cbn [period_days total_transactions average_expense largest_expense
       smallest_expense most_expensive_category].
  split; [reflexivity |]. split; [reflexivity |]. split; [reflexivity |].
  split; [reflexivity |].
  split.
  { cbn [filter]. destruct (is_expense t); cbn [map]; [reflexivity |].
    destruct (map amount (filter is_expense p)); reflexivity. }
  split; [reflexivity |]. split; reflexivity.
Qed.

Lemma max_key_descending (kv : string * num) (d : dict num) :
  descending (kv :: d) -> max_key kv d = fst kv.
Proof.
  unfold descending, max_key. intros H.
  apply StronglySorted_inv in H. destruct H as (_ & Hall).
  induction Hall as [| y d Hy _ IH]; [reflexivity |].
  cbn [fold_left]. apply num_ltb_ge in Hy. now rewrite Hy.
Qed.

(** X10: the most expensive category of the insights is the first
    category of the spending by category of the same period, no total is
    above its total, and it is the empty text when the period has no
    expense. *)
Theorem most_expensive_category_is_first (now : datetime) (days : Z)
    (self : FinanceTracker) (r : insights) :
  get_financial_insights now days self = Ok (Report r) ->
  exists sp,
    get_spending_by_category now days self = Ok sp /\
    match sp with
    | [] => most_expensive_category r = ""
    | (c, v) :: _ =>
        most_expensive_category r = c /\
        forall c' v', In (c', v') sp -> (v' <= v)%Qc
    end.
Proof.
  intros H. apply get_financial_insights_Report in H.
  destruct H as (t & p & st & Hp & _ & _ & _ & _ & _ & _ & Hmost).
  unfold get_spending_by_category. rewrite Hp. cbn [bind].
  eexists. split; [reflexivity |].
  pose proof (sorted_desc_descending (fold_left accumulate_spending (t :: p) []))
    as Hdesc.
  rewrite <- spending_of_sorted in Hdesc.
  destruct (spending_of (t :: p)) as [| [c v] d]; [exact Hmost |].
  split; [rewrite Hmost; now apply max_key_descending |].
  intros c' v' [[= <- <-] | Hin]; [apply Qcle_refl |].
  apply StronglySorted_inv in Hdesc. destruct Hdesc as (_ & Hall).
  rewrite Forall_forall in Hall. apply (Hall _ Hin).
Qed.

Lemma most_expensive_category_is_first_witness :
  exists r,
    get_financial_insights sample_now 30
      (tracker_of sample_transactions (JObj [])) = Ok (Report r)
    /\ most_expensive_category r = "rent".
Proof.
  destruct (get_financial_insights sample_now 30
              (tracker_of sample_transactions (JObj [])))
    as [[| r] | e] eqn:E; try (vm_compute in E; discriminate E).
  exists r. split; [reflexivity |].
  destruct (most_expensive_category_is_first _ _ _ r E) as (sp & Hsp & H).
  vm_compute in Hsp. injection Hsp as <-. apply H.
Defined.

Lemma py_max_bounds (x : num) (xs : list num) :
  In (py_max x xs) (x :: xs)
  /\ forall y, In y (x :: xs) -> (y <= py_max x xs)%Qc.
Proof.
  unfold py_max. revert x. induction xs as [| z xs IH]; intros x.
  - split; [now left |]. intros y [<- | []]. apply Qcle_refl.
  - cbn [fold_left]. destruct (num_ltb x z) eqn:E.
    + destruct (IH z) as (Hin & Hle). split; [now right |].
      intros y [<- | Hy]; [| now apply Hle].
      apply num_ltb_lt in E. eapply Qcle_trans; [apply Qclt_le_weak, E |].
      apply Hle. now left.
    + destruct (IH x) as (Hin & Hle). split.
      * destruct Hin as [Hin | Hin]; [now left | now right; right].
      * intros y [<- | [<- | Hy]].
        -- apply Hle. now left.
        -- apply num_ltb_ge in E. eapply Qcle_trans; [exact E |].
           apply Hle. now left.
        -- apply Hle. now right.
Qed.

Lemma py_min_bounds (x : num) (xs : list num) :
  In (py_min x xs) (x :: xs)
  /\ forall y, In y (x :: xs) -> (py_min x xs <= y)%Qc.
Proof.
  unfold py_min. revert x. induction xs as [| z xs IH]; intros x.
  - split; [now left |]. intros y [<- | []]. apply Qcle_refl.
  - cbn [fold_left]. destruct (num_ltb z x) eqn:E.
    + destruct (IH z) as (Hin & Hle). split; [now right |].
      intros y [<- | Hy]; [| now apply Hle].
      apply num_ltb_lt in E. eapply Qcle_trans; [| apply Qclt_le_weak, E].
      apply Hle. now left.
    + destruct (IH x) as (Hin & Hle). split.
      * destruct Hin as [Hin | Hin]; [now left | now right; right].
      * intros y [<- | [<- | Hy]].
        -- apply Hle. now left.
        -- apply num_ltb_ge in E. eapply Qcle_trans; [| exact E].
           apply Hle. now left.
        -- apply Hle. now right.
Qed.

(** X11: the largest and the smallest expense of the insights are amounts
    of expenses of the period, and every expense of the period lies
    between them; the count of transactions is that of the whole period,
    income included; without an expense the three figures are 0. *)
Theorem insights_expense_figures (now : datetime) (days : Z)
    (self : FinanceTracker) (r : insights) :
  get_financial_insights now days self = Ok (Report r) ->
  exists p,
    get_transactions_by_period now days self = Ok p /\
    total_transactions r = List.length p /\
    (forall t,
        In t p -> is_expense t = true ->
        (smallest_expense r <= amount t)%Qc /\
        (amount t <= largest_expense r)%Qc /\
        (exists t1, In t1 p /\ is_expense t1 = true /\
                    largest_expense r = amount t1) /\
        (exists t2, In t2 p /\ is_expense t2 = true /\
                    smallest_expense r = amount t2)) /\
    ((forall t, In t p -> is_expense t = false) ->
     largest_expense r = Z2num 0 /\ smallest_expense r = Z2num 0 /\
     average_expense r = Z2num 0).
Proof.
  intros H. apply get_financial_insights_Report in H.
  destruct H as (t0 & p0 & st & Hp & _ & _ & Hn & Havg & Hmax & Hmin & _).
  exists (t0 :: p0). split; [exact Hp |]. split; [exact Hn |].
  set (p := t0 :: p0) in *. clearbody p. clear Hp Hn t0 p0.
  assert (Hamount : forall x, In x (map amount (filter is_expense p)) ->
                              exists t, In t p /\ is_expense t = true /\ x = amount t).
  { intros x Hx. apply in_map_iff in Hx. destruct Hx as (t & <- & Ht).
    apply filter_In in Ht. exists t. tauto. }
  split.
  - intros t Ht He.
    assert (Hin : In (amount t) (map amount (filter is_expense p))).
    { apply in_map, filter_In. tauto. }
    destruct (map amount (filter is_expense p)) as [| x xs]; [contradiction |].
    destruct (py_max_bounds x xs) as (Hmax_in & Hmax_le).
    destruct (py_min_bounds x xs) as (Hmin_in & Hmin_le).
    rewrite Hmax, Hmin.
    split; [apply Hmin_le, Hin |]. split; [apply Hmax_le, Hin |].
    split.
    + destruct (Hamount _ Hmax_in) as (t1 & ? & ? & ?). exists t1. auto.
    + destruct (Hamount _ Hmin_in) as (t2 & ? & ? & ?). exists t2. auto.
  - intros Hnone.
    assert (E : filter is_expense p = []).
    { clear - Hnone. induction p as [| t p IH]; [reflexivity |]. simpl.
      rewrite (Hnone t (or_introl eq_refl)). apply IH.
      intros u Hu. apply Hnone. now right. }
    rewrite E in Havg, Hmax, Hmin. simpl in Havg, Hmax, Hmin. auto.
Qed.

Lemma insights_expense_figures_witness :
  exists r,
    get_financial_insights sample_now 30
      (tracker_of sample_transactions (JObj [])) = Ok (Report r)
    /\ total_transactions r = 4%nat
    /\ (Z2num 900 <= largest_expense r)%Qc
    /\ (smallest_expense r <= Z2num 40)%Qc.
Proof.
  destruct (get_financial_insights sample_now 30
              (tracker_of sample_transactions (JObj [])))
    as [[| r] | e] eqn:E; try (vm_compute in E; discriminate E).
  exists r. split; [reflexivity |].
  destruct (insights_expense_figures _ _ _ r E) as (p & Hp & Hn & Hbounds & _).
  rewrite sample_period_correct in Hp. injection Hp as <-.
  split; [exact Hn |]. split.
  - replace (Z2num 900)
      with (amount (dated_transaction "2024-02-25" 900 "rent" "expense"))
      by (apply num_eq; reflexivity).
    apply Hbounds; [simpl; tauto | reflexivity].
  - replace (Z2num 40)
      with (amount (dated_transaction "2024-02-10" 40 "food" "expense"))
      by (apply num_eq; reflexivity).
    apply Hbounds; [simpl; tauto | reflexivity].
Defined.

(** ** Budgets and their alerts *)

Lemma Qcminus_neg_iff (a b : num) : (a - b < 0)%Qc <-> (a < b)%Qc.
Proof.
  rewrite (Qclt_minus_iff (a - b) 0), (Qclt_minus_iff a b).
  replace (0 + - (a - b))%Qc with (b + - a)%Qc by ring. reflexivity.
Qed.

Lemma Qc_one_not_le_zero : ~ (1 <= 0)%Qc.
Proof. unfold Qcle, Qle. simpl. lia. Qed.

Lemma Qcinv_positive (b : num) : (0 < b)%Qc -> (0 < / b)%Qc.
Proof.
  intros Hb. apply Qcnot_le_lt. intros Hle.
  apply Qc_one_not_le_zero.
  pose proof (Qcmult_le_compat_r _ _ b Hle (Qclt_le_weak _ _ Hb)) as H.
  rewrite Qcmult_inv_l in H by (apply not_eq_sym, Qclt_not_eq, Hb).
  now rewrite Qcmult_0_l in H.
Qed.

(** For a positive budget the percentage is above a mark exactly when
    the spending is above that share of the budget. *)
Lemma percentage_above (s b m : num) :
  (0 < b)%Qc ->
  ((m < s / b * Z2num 100)%Qc <-> (m * b < s * Z2num 100)%Qc).
Proof.
  intros Hb. pose proof (Qcinv_positive b Hb) as Hinv.
  assert (Hne : b <> 0%Qc) by (apply not_eq_sym, Qclt_not_eq, Hb).
  assert (E1 : (s / b * Z2num 100)%Qc = (s * Z2num 100 * / b)%Qc).
  { unfold Qcdiv. ring. }
  assert (E2 : m = (m * b * / b)%Qc).
  { rewrite <- Qcmult_assoc, Qcmult_inv_r by exact Hne. ring. }
  rewrite E1. split; intros H.
  - rewrite E2 in H.
    destruct (Qclt_le_dec (m * b) (s * Z2num 100)) as [Hlt | Hge];
      [exact Hlt |].
    exfalso. apply (Qclt_not_le _ _ H).
    apply Qcmult_le_compat_r; [exact Hge | apply Qclt_le_weak, Hinv].
  - rewrite E2 at 1. apply Qcmult_lt_compat_r; assumption.
Qed.

Lemma check_budgets_typed_inv (now : datetime) (self : FinanceTracker)
    (b : dict num) (st : dict budget_entry) :
  budgets self = typed_budgets b -> dict_wf b ->
  check_budgets now self = Ok st ->
  exists p,
    get_transactions_by_period now 30 self = Ok p /\
    st = map (fun kv => (fst kv, budget_entry_of (spending_of p) kv)) b.
Proof.
  intros Hb Hwf H.
  destruct (get_transactions_by_period now 30 self) as [p | e] eqn:Hp.
  - rewrite (check_budgets_typed now self b p Hb Hwf Hp) in H.
    injection H as <-. eauto.
  - unfold check_budgets, get_spending_by_category in H. rewrite Hp in H.
    discriminate H.
Qed.

(** X12: for a positive budget the three signs of overspending agree:
    the remaining amount is negative exactly when the spending is above
    the budget, and exactly when the percentage is above 100. *)
Theorem over_budget_signs_agree (now : datetime) (self : FinanceTracker)
    (b : dict num) (st : dict budget_entry) (c : string) (e : budget_entry) :
  budgets self = typed_budgets b -> dict_wf b ->
  check_budgets now self = Ok st ->
  dict_get c st = Some e ->
  (0 < budget e)%Qc ->
  ((remaining e < 0)%Qc <-> (budget e < spent e)%Qc)
  /\ ((remaining e < 0)%Qc <-> (Z2num 100 < percentage e)%Qc).
Proof.
  intros Hb Hwf Hst Hget Hpos.
  destruct (check_budgets_typed_inv now self b st Hb Hwf Hst) as (p & _ & ->).
  rewrite dict_get_map in Hget.
  destruct (dict_get c b) as [bud |]; [| discriminate Hget].
  injection Hget as <-. unfold budget_entry_of in *.
  cbn [budget spent remaining percentage fst snd] in *.
  set (s := dict_get_default c (Z2num 0) (spending_of p)).
  split; [apply Qcminus_neg_iff |].
  rewrite Qcminus_neg_iff.
  change (Z2num 0) with 0%Qc. apply num_ltb_lt in Hpos as Hpos'.
  change (Z2num 0) with 0%Qc in Hpos'. rewrite Hpos'.
  rewrite (percentage_above s bud (Z2num 100) Hpos).
  split; intros H.
  - rewrite (Qcmult_comm (Z2num 100) bud).
    apply Qcmult_lt_compat_r; [reflexivity | exact H].
  - destruct (Qclt_le_dec bud s) as [Hlt | Hge]; [exact Hlt |].
    exfalso. apply (Qclt_not_le _ _ H).
    rewrite (Qcmult_comm (Z2num 100) bud).
    apply Qcmult_le_compat_r; [exact Hge | discriminate].
Qed.

Lemma over_budget_signs_agree_witness :
  exists st e,
    check_budgets sample_now food_scenario = Ok st
    /\ dict_get "food" st = Some e
    /\ (remaining e < 0)%Qc /\ (budget e < spent e)%Qc
    /\ (Z2num 100 < percentage e)%Qc.
Proof.
  destruct (check_budgets sample_now food_scenario) as [st | e0] eqn:E;
    [| vm_compute in E; discriminate E].
  destruct (dict_get "food" st) as [e |] eqn:Ee;
    [| vm_compute in E; injection E as <-; discriminate Ee].
  assert (Hpos : (0 < budget e)%Qc).
  { vm_compute in E. injection E as <-. injection Ee as <-. reflexivity. }
  destruct (over_budget_signs_agree sample_now food_scenario
              [("food", Z2num 100); ("rent", Z2num 0)] st "food" e eq_refl)
    as (H1 & H2); try assumption.
  { repeat constructor; simpl; intuition discriminate. }
  assert (Hrem : (remaining e < 0)%Qc).
  { vm_compute in E. injection E as <-. injection Ee as <-. reflexivity. }
  exists st, e. split; [reflexivity |]. split; [exact Ee |].
  split; [exact Hrem |]. split; [apply H1, Hrem | apply H2, Hrem].
Defined.





Lemma rent_scenario_budgets_wf :
  dict_wf [("food", Z2num 50); ("rent", Z2num 0); ("Food", Z2num 10)].
Proof.
  unfold dict_wf. simpl.
  repeat constructor; simpl; intuition discriminate.
Qed.



(** X14: a budget under a key that is not lowercase is never charged.
    The categories of the transactions are lowercase, so the entry of
    such a key shows a spending of 0, the whole budget as remaining and a
    percentage of 0. *)
Theorem capital_budget_key_never_charged (now : datetime)
    (self : FinanceTracker) (b : dict num) (st : dict budget_entry)
    (k : string) (bud : num) :
  budgets self = typed_budgets b -> dict_wf b ->
  Forall created (transactions self) ->
  check_budgets now self = Ok st ->
  dict_get k b = Some bud ->
  lower k <> k ->
  exists e,
    dict_get k st = Some e /\
    budget e = bud /\ spent e = 0%Qc /\ remaining e = bud /\
    percentage e = 0%Qc.
Proof.
  intros Hb Hwf Hall Hst Hget Hk.
  destruct (check_budgets_typed_inv now self b st Hb Hwf Hst) as (p & Hp & ->).
  rewrite dict_get_map, Hget. eexists. split; [reflexivity |].
  unfold budget_entry_of. cbn [budget spent remaining percentage fst snd].
  rewrite spent_is_category_total.
  assert (Hzero : total (is_expense_of k) p = 0%Qc).
  { apply total_none. intros t Ht.
    apply get_transactions_by_period_Ok_inv in Hp. destruct Hp as (_ & ->).
    apply filter_In in Ht. destruct Ht as (Ht & _).
    rewrite Forall_forall in Hall. pose proof (created_wf t (Hall t Ht)) as Hwft.
    unfold is_expense_of. apply andb_false_iff. right.
    apply String.eqb_neq. intros <-. apply Hk, Hwft. }
  rewrite Hzero. split; [reflexivity |]. split; [reflexivity |].
  split; [ring |].
  destruct (num_ltb (Z2num 0) bud); [unfold Qcdiv; ring | reflexivity].
Qed.

Lemma rent_scenario_created : Forall created (transactions rent_scenario).
Proof.
  constructor; [apply sample_expense_created |].
  constructor; [apply sample_expense_created | constructor].
Qed.

Lemma capital_budget_key_never_charged_witness :
  exists st e e',
    check_budgets sample_now rent_scenario = Ok st
    /\ dict_get "Food" st = Some e /\ spent e = 0%Qc
    /\ dict_get "food" st = Some e' /\ spent e' = Z2num 40.
Proof.
  destruct (check_budgets sample_now rent_scenario) as [st | e0] eqn:E;
    [| vm_compute in E; discriminate E].
  destruct (capital_budget_key_never_charged sample_now rent_scenario
              [("food", Z2num 50); ("rent", Z2num 0); ("Food", Z2num 10)]
              st "Food" (Z2num 10) eq_refl rent_scenario_budgets_wf
              rent_scenario_created E eq_refl)
    as (e & He & _ & Hspent & _); [discriminate |].
  vm_compute in E. injection E as <-.
  eexists. exists e. eexists. split; [reflexivity |]. split; [exact He |].
  split; [exact Hspent |]. split; [reflexivity |]. apply num_eq. reflexivity.
Defined.

(** ** The calendar *)

Lemma digit_val_digit (n : Z) : digit_val (digit n) = Some (n mod 10)%Z.
Proof.
  unfold digit.
  assert (H : (0 <= n mod 10 < 10)%Z) by (apply Z.mod_pos_bound; lia).
  destruct (n mod 10)%Z as [| p | p]; [reflexivity | | lia].
  enumerate_positive; reflexivity.
Qed.

Lemma parse_Y_pad4 (y : Z) (s : string) :
  (0 <= y <= 9999)%Z -> parse_Y (pad4 y ++ s) = Some (y, s).
Proof.
  intros Hy. unfold pad4, pad2, parse_Y. cbn [append].
  rewrite !digit_val_digit. do 2 f_equal.
  pose proof (Z.div_mod y 10 ltac:(lia)).
  pose proof (Z.div_mod (y / 10) 10 ltac:(lia)).
  pose proof (Z.div_mod (y / 100) 10 ltac:(lia)).
  pose proof (Z.div_mod (y / 1000) 10 ltac:(lia)).
  assert (E1 : (y / 100 = y / 10 / 10)%Z) by (rewrite Z.div_div by lia; reflexivity).
  assert (E2 : (y / 1000 = y / 100 / 10)%Z)
    by (rewrite E1, !Z.div_div by lia; reflexivity).
  assert (E3 : (y / 1000 / 10 = 0)%Z)
    by (rewrite Z.div_div by lia; apply Z.div_small; lia).
  lia.
Qed.

Lemma parse_m_pad2 (m : Z) (s : string) :
  (1 <= m <= 12)%Z -> parse_m (pad2 m ++ String "-" s) = Some (m, s).
Proof.
  intros Hm. destruct m as [| p | p]; try lia.
  enumerate_positive; reflexivity.
Qed.

Lemma parse_d_pad2 (d : Z) :
  (1 <= d <= 31)%Z -> parse_d (pad2 d) = Some d.
Proof.
  intros Hd. destruct d as [| p | p]; try lia.
  enumerate_positive; reflexivity.
Qed.

Lemma month_day_ok_all (leapyear : bool) (n : nat) :
  (n < 365)%nat -> month_day_ok leapyear n = true.
Proof.
  intros Hn.
  assert (H : forallb (month_day_ok leapyear) (seq 0 365) = true)
    by (destruct leapyear; vm_compute; reflexivity).
  rewrite forallb_forall in H. apply H, in_seq. lia.
Qed.

Lemma month_day_correct (r : Z) (leapyear : bool) :
  (0 <= r < 365)%Z ->
  exists m d,
    month_day r leapyear = (m, d) /\
    (1 <= m <= 12)%Z /\ (1 <= d)%Z /\
    (d <= DAYS_IN_MONTH m + (if (m =? 2)%Z && leapyear then 1 else 0))%Z /\
    (DAYS_BEFORE_MONTH m + (if (2 <? m)%Z && leapyear then 1 else 0) + d
     = r + 1)%Z.
Proof.
  intros Hr.
  pose proof (month_day_ok_all leapyear (Z.to_nat r) ltac:(lia)) as H.
  unfold month_day_ok in H. rewrite Z2Nat.id in H by lia.
  destruct (month_day r leapyear) as [m d]. exists m, d.
  rewrite !andb_true_iff, !Z.leb_le, Z.eqb_eq in H.
  intuition lia.
Qed.

(** The days before a year and its leap status, from the position of the
    year in the cycles of 400, 100 and 4 years. *)
Lemma year_decomposition (A B C E : Z) :
  (0 <= B <= 3)%Z -> (0 <= C <= 24)%Z -> (0 <= E <= 3)%Z ->
  days_before_year (400 * A + 100 * B + 4 * C + E + 1)
  = (146097 * A + 36524 * B + 1461 * C + 365 * E)%Z
  /\ is_leap (400 * A + 100 * B + 4 * C + E + 1)
     = ((E =? 3) && (negb (C =? 24) || (B =? 3)))%Z.
Proof.
  intros HB HC HE. split.
  - unfold days_before_year. cbv zeta.
    replace (400 * A + 100 * B + 4 * C + E + 1 - 1)%Z
      with (400 * A + 100 * B + 4 * C + E)%Z by lia.
    rewrite <- (Z.div_unique (400 * A + 100 * B + 4 * C + E) 4
                  (100 * A + 25 * B + C) E) by lia.
    rewrite <- (Z.div_unique (400 * A + 100 * B + 4 * C + E) 100
                  (4 * A + B) (4 * C + E)) by lia.
    rewrite <- (Z.div_unique (400 * A + 100 * B + 4 * C + E) 400
                  A (100 * B + 4 * C + E)) by lia.
    lia.
  - unfold is_leap.
    destruct ((400 * A + 100 * B + 4 * C + E + 1) mod 4 =? 0)%Z eqn:E4;
      destruct ((400 * A + 100 * B + 4 * C + E + 1) mod 100 =? 0)%Z eqn:E100;
      destruct ((400 * A + 100 * B + 4 * C + E + 1) mod 400 =? 0)%Z eqn:E400;
      destruct (E =? 3)%Z eqn:E3; destruct (C =? 24)%Z eqn:C24;
      destruct (B =? 3)%Z eqn:B3; simpl; try reflexivity; exfalso;
      rewrite ?Z.eqb_eq, ?Z.eqb_neq in *;
      Z.div_mod_to_equations; lia.
Qed.

Lemma days_in_month_leap (y m d : Z) (leapyear : bool) :
  is_leap y = leapyear ->
  (d <= DAYS_IN_MONTH m + (if (m =? 2)%Z && leapyear then 1 else 0))%Z ->
  (d <= days_in_month y m)%Z.
Proof.
  intros <-. unfold days_in_month.
  destruct (m =? 2)%Z eqn:E; [| simpl; lia].
  apply Z.eqb_eq in E. subst m. destruct (is_leap y); simpl; lia.
Qed.

Lemma ymd_of_decomposition (A B C E m d r : Z) :
  (0 <= B <= 3)%Z -> (0 <= C <= 24)%Z -> (0 <= E <= 3)%Z ->
  (1 <= d)%Z ->
  (d <= DAYS_IN_MONTH m
        + (if (m =? 2)%Z && ((E =? 3) && (negb (C =? 24) || (B =? 3)))%Z
           then 1 else 0))%Z ->
  (DAYS_BEFORE_MONTH m
   + (if (2 <? m)%Z && ((E =? 3) && (negb (C =? 24) || (B =? 3)))%Z
      then 1 else 0) + d = r + 1)%Z ->
  (1 <= d <= days_in_month (400 * A + 100 * B + 4 * C + E + 1) m)%Z
  /\ ymd2ord (400 * A + 100 * B + 4 * C + E + 1) m d
     = (146097 * A + 36524 * B + 1461 * C + 365 * E + r + 1)%Z.
Proof.
  intros HB HC HE Hd Hdim Hdbm.
  destruct (year_decomposition A B C E HB HC HE) as (Hdays & Hleap).
  split.
  - split; [exact Hd |]. eapply days_in_month_leap; [exact Hleap | exact Hdim].
  - unfold ymd2ord, days_before_month. rewrite Hdays, Hleap. lia.
Qed.

(** [ord2ymd] names the day of the ordinal. *)
Lemma ord2ymd_correct (n : Z) :
  (1 <= n <= 3652059)%Z ->
  exists y m d,
    ord2ymd n = (y, m, d) /\
    (1 <= y <= 9999)%Z /\ (1 <= m <= 12)%Z /\
    (1 <= d <= days_in_month y m)%Z /\
    ymd2ord y m d = n.
Proof.
  intros Hn. unfold ord2ymd. cbv zeta.
  pose proof (Z.div_mod (n - 1) 146097 ltac:(lia)) as D1.
  pose proof (Z.mod_pos_bound (n - 1) 146097 ltac:(lia)) as B1.
  set (a := ((n - 1) / 146097)%Z) in *.
  set (r400 := ((n - 1) mod 146097)%Z) in *.
  pose proof (Z.div_mod r400 36524 ltac:(lia)) as D2.
  pose proof (Z.mod_pos_bound r400 36524 ltac:(lia)) as B2.
  set (b := (r400 / 36524)%Z) in *. set (r100 := (r400 mod 36524)%Z) in *.
  pose proof (Z.div_mod r100 1461 ltac:(lia)) as D3.
  pose proof (Z.mod_pos_bound r100 1461 ltac:(lia)) as B3.
  set (c := (r100 / 1461)%Z) in *. set (r4 := (r100 mod 1461)%Z) in *.
  pose proof (Z.div_mod r4 365 ltac:(lia)) as D4.
  pose proof (Z.mod_pos_bound r4 365 ltac:(lia)) as B4.
  set (e := (r4 / 365)%Z) in *. set (r := (r4 mod 365)%Z) in *.
  clearbody a r400 b r100 c r4 e r.
  assert (Ha : (0 <= a <= 24)%Z) by lia.
  assert (Hb : (0 <= b <= 4)%Z) by lia.
  assert (Hc : (0 <= c <= 24)%Z) by lia.
  assert (He : (0 <= e <= 4)%Z) by lia.
  destruct ((e =? 4) || (b =? 4))%Z eqn:Especial.
  - (* the last day of a leap year *)
    apply orb_true_iff in Especial. rewrite !Z.eqb_eq in Especial.
    assert (Hdec : exists B C,
               (0 <= B <= 3)%Z /\ (0 <= C <= 24)%Z /\
               ((negb (C =? 24) || (B =? 3))%Z = true) /\
               (a * 400 + 1 + b * 100 + c * 4 + e - 1
                = 400 * a + 100 * B + 4 * C + 3 + 1)%Z /\
               (n = 146097 * a + 36524 * B + 1461 * C + 365 * 3 + 365 + 1)%Z).
    { destruct (Z.eq_dec b 4) as [Eb | Eb].
      - exists 3%Z, 24%Z. repeat split; try lia.
      - exists b, c. assert (c <> 24)%Z by lia.
        repeat split; lia. }
    destruct Hdec as (B & C & HB & HC & Hleap & Hy & Hn').
    do 3 eexists. split; [reflexivity |]. rewrite Hy.
    split; [lia |]. split; [lia |].
    destruct (ymd_of_decomposition a B C 3 12 31 365 HB HC ltac:(lia) ltac:(lia))
      as (Hd & Hord).
    + rewrite Hleap. simpl. lia.
    + rewrite Hleap. simpl. lia.
    + split; [exact Hd |]. rewrite Hord. lia.
  - apply orb_false_iff in Especial. rewrite !Z.eqb_neq in Especial.
    destruct (month_day_correct r ((e =? 3) && (negb (c =? 24) || (b =? 3)))%Z B4)
      as (m & d & Hmd & Hm & Hd1 & Hdim & Hdbm).
    unfold month_day in Hmd. cbv zeta in Hmd.
    assert (Hy : (a * 400 + 1 + b * 100 + c * 4 + e
                  = 400 * a + 100 * b + 4 * c + e + 1)%Z) by lia.
    destruct (ymd_of_decomposition a b c e m d r ltac:(lia) Hc ltac:(lia)
                Hd1 Hdim Hdbm) as (Hd & Hord).
    exists (a * 400 + 1 + b * 100 + c * 4 + e)%Z, m, d.
    split.
    + match type of Hmd with
      | (if ?cond then _ else _) = _ => destruct cond
      end; injection Hmd as <- <-; reflexivity.
    + rewrite Hy. split; [| split; [exact Hm | split; [exact Hd |]]].
      * split; [lia |].
        destruct (Z_le_gt_dec (400 * a + 100 * b + 4 * c + e + 1) 9999)
          as [Hle | Hgt]; [exact Hle | lia].
      * rewrite Hord. lia.
Qed.

Lemma days_in_month_le_31 (y m : Z) : (days_in_month y m <= 31)%Z.
Proof.
  unfold days_in_month. destruct ((m =? 2)%Z && is_leap y); [lia |].
  unfold DAYS_IN_MONTH. destruct m as [| p | p]; try lia.
  do 4 (try destruct p as [p | p |]); lia.
Qed.

(** Parsing the printed date of an instant gives the midnight of its
    day. *)
Lemma strptime_strftime (now : datetime) :
  in_datetime_range now ->
  strptime (JStr (strftime now))
  = Ok {| ordinal := ordinal now; micro := 0 |}.
Proof.
  intros Hrange.
  destruct (ord2ymd_correct (ordinal now) Hrange)
    as (y & m & d & Hymd & Hy & Hm & Hd & Hord).
  unfold strptime, strftime, strptime_str. rewrite Hymd.
  rewrite parse_Y_pad4 by lia. cbn [append].
  rewrite parse_m_pad2 by exact Hm.
  pose proof (days_in_month_le_31 y m).
  rewrite parse_d_pad2 by lia.
  replace ((1 <=? y)%Z && (d <=? days_in_month y m)%Z) with true
    by (symmetry; apply andb_true_iff; split; apply Z.leb_le; lia).
  now rewrite Hord.
Qed.

Lemma sample_now_in_range : in_datetime_range sample_now.
Proof. unfold in_datetime_range. simpl. lia. Qed.

Lemma clock_in_datetime_range (now : datetime) :
  clock_of_a_run now -> in_datetime_range now.
Proof. unfold clock_of_a_run, in_datetime_range. lia. Qed.

(** X15: a transaction made without a date suits the period filter.  On
    a clock of a run (the years 1970 to 9999, where [%Y] prints four
    digits) the constructor dates it with the text of the day, the filter
    reads this text as the midnight of that day, and on a store of this
    one transaction the filter returns at any reading of the clock and
    for every number of days whose cutoff is within the limits. *)
Theorem default_date_parses (now : datetime) (a c d ty dt : json)
    (t : Transaction) :
  clock_of_a_run now ->
  truthy dt = false ->
  Transaction_init now a c d ty dt = Ok t ->
  date t = JStr (strftime now)
  /\ dated t {| ordinal := ordinal now; micro := 0 |}
  /\ forall now' days b,
       clock_of_a_run now' -> cutoff_in_range now' days ->
       get_transactions_by_period now' days (tracker_of [t] b)
       = Ok (if datetime_geb {| ordinal := ordinal now; micro := 0 |}
                  (minus_days now' days)
             then [t] else []).
Proof.
  intros Hclock Hdt H. apply Transaction_init_Ok in H.
  destruct H as (x & sc & sty & _ & _ & _ & ->).
  pose proof (strptime_strftime now (clock_in_datetime_range now Hclock))
    as Hparse.
  unfold dated. cbn [date]. rewrite Hdt.
  split; [reflexivity |]. split; [exact Hparse |].
  intros now' days b Hc' Hr'.
  rewrite (get_transactions_by_period_in_range _ _ _ Hc' Hr').
  cbn [transactions tracker_of filter_comprehension date]. rewrite ?Hdt.
  rewrite Hparse. cbn [bind]. reflexivity.
Qed.

Lemma default_date_parses_witness :
  exists t,
    Transaction_init sample_now (JNum (Z2num 5)) (JStr "food") JNull
      (JStr "expense") (JStr "") = Ok t
    /\ date t = JStr "2024-03-01"
    /\ dated t {| ordinal := 738946; micro := 0 |}
    /\ get_transactions_by_period sample_now 30 (tracker_of [t] (JObj []))
       = Ok [t].
Proof.
  eexists. split; [reflexivity |].
  destruct (default_date_parses sample_now (JNum (Z2num 5)) (JStr "food") JNull
              (JStr "expense") (JStr "") _ sample_now_clock eq_refl eq_refl)
    as (H1 & H2 & H3).
  split; [exact H1 |]. split; [exact H2 |].
  apply (H3 sample_now 30%Z (JObj []) sample_now_clock
           (cutoff_in_range_30 sample_now sample_now_clock)).
Defined.

(** ** Adding a transaction and the reports *)

Lemma add_transaction_Ok (now : datetime) (fs : filesystem)
    (self : FinanceTracker) (x : num) (c d ty : string) :
  let t := {| id := JNum (timestamp now);
              amount := Qcabs x;
              category := lower c;
              description := JStr d;
              type := lower ty;
              date := JStr (strftime now) |} in
  let self' := {| data_file := data_file self;
                  transactions := transactions self ++ [t];
                  budgets := budgets self |} in
  add_transaction now fs self x c d ty
  = Ok (self', save_data fs self', [Added ty x c]).
Proof. reflexivity. Qed.

Lemma dated_in_period_today (now : datetime) (days : Z) (t : Transaction) :
  in_datetime_range now ->
  date t = JStr (strftime now) ->
  ((1 <= days)%Z -> dated_in_period now days t = true)
  /\ ((days <= 0)%Z -> (0 < micro now)%Z -> dated_in_period now days t = false).
Proof.
  intros Hrange Hdate. unfold dated_in_period.
  rewrite Hdate, (strptime_strftime now Hrange).
  split.
  - intros Hdays. apply datetime_geb_le. unfold datetime_le. simpl. lia.
  - intros Hdays Hmicro.
    destruct (datetime_geb _ _) eqn:E; [| reflexivity].
    apply datetime_geb_le in E. unfold datetime_le in E. simpl in E. lia.
Qed.

(** The period of a tracker with one more transaction, dated today. *)
Lemma period_with_one_more (now : datetime) (days : Z)
    (self self' : FinanceTracker) (t : Transaction) (p : list Transaction) :
  in_datetime_range now ->
  date t = JStr (strftime now) ->
  transactions self' = transactions self ++ [t] ->
  get_transactions_by_period now days self = Ok p ->
  get_transactions_by_period now days self'
  = Ok (p ++ (if dated_in_period now days t then [t] else [])).
Proof.
  intros Hrange Hdate Htx Hp.
  destruct (get_transactions_by_period_range _ _ _ _ Hp) as (Hc & Hr).
  apply get_transactions_by_period_Ok_inv in Hp. destruct Hp as (Hall & ->).
  rewrite (get_transactions_by_period_Ok _ _ _ Hc Hr).
  - rewrite Htx, filter_app. reflexivity.
  - intros u Hu. rewrite Htx in Hu. apply in_app_iff in Hu.
    destruct Hu as [Hu | [<- | []]]; [apply Hall, Hu |].
    eexists. unfold dated. rewrite Hdate. apply strptime_strftime, Hrange.
Qed.

(** X16: a transaction that was just added is in the period of every
    positive number of days; it is in no period of 0 days or less unless
    the clock shows midnight exactly: the date of the transaction stands
    for the midnight of its day, and the cutoff keeps the time of day. *)
Theorem added_transaction_and_period (now : datetime) (fs : filesystem)
    (self : FinanceTracker) (x : num) (c d ty : string) (days : Z)
    (p : list Transaction) :
  in_datetime_range now ->
  get_transactions_by_period now days self = Ok p ->
  exists t self' fs' out,
    add_transaction now fs self x c d ty = Ok (self', fs', out) /\
    transactions self' = transactions self ++ [t] /\
    ((1 <= days)%Z ->
     get_transactions_by_period now days self' = Ok (p ++ [t])) /\
    ((days <= 0)%Z -> (0 < micro now)%Z ->
     get_transactions_by_period now days self' = Ok p).
Proof.
  intros Hrange Hp. rewrite add_transaction_Ok. cbv zeta.
  match goal with
  | |- context [Ok (?s, _, _)] => set (self' := s)
  end.
  match goal with
  | _ := context [transactions self ++ [?u]] |- _ => set (t := u) in *
  end.
  exists t, self'. do 2 eexists. split; [reflexivity |]. split; [reflexivity |].
  pose proof (dated_in_period_today now days t Hrange eq_refl) as (Hin & Hout).
  pose proof (period_with_one_more now days self self' t p Hrange
                eq_refl eq_refl Hp) as Hp'.
  split.
  - intros Hdays. now rewrite Hp', (Hin Hdays).
  - intros Hdays Hmicro. now rewrite Hp', (Hout Hdays Hmicro), app_nil_r.
Qed.

Lemma added_transaction_and_period_witness :
  exists t self' fs' out,
    add_transaction sample_now no_files (tracker_of sample_transactions (JObj []))
      (Z2num 12) "Food" "lunch" "expense" = Ok (self', fs', out)
    /\ get_transactions_by_period sample_now 30 self' = Ok (sample_period ++ [t])
    /\ get_transactions_by_period sample_now 0 self' = Ok [].
Proof.
  destruct (added_transaction_and_period sample_now no_files
              (tracker_of sample_transactions (JObj []))
              (Z2num 12) "Food" "lunch" "expense" 30 sample_period
              sample_now_in_range (sample_period_correct _))
    as (t & self' & fs' & out & Hadd & _ & Hin & _).
  exists t, self', fs', out. split; [exact Hadd |].
  split; [apply Hin; lia |].
  destruct (added_transaction_and_period sample_now no_files
              (tracker_of sample_transactions (JObj []))
              (Z2num 12) "Food" "lunch" "expense" 0 []
              sample_now_in_range eq_refl)
    as (t0 & self0 & fs0 & out0 & Hadd0 & _ & _ & Hout).
  rewrite Hadd in Hadd0. injection Hadd0 as <- _ _.
  apply Hout; [lia | simpl; lia].
Defined.

Lemma total_app (f : Transaction -> bool) (p q : list Transaction) :
  total f (p ++ q) = (total f p + total f q)%Qc.
Proof.
  induction p as [| t p IH]; simpl; [ring |].
  destruct (f t); rewrite IH; ring.
Qed.

Lemma spending_of_get_default (p : list Transaction) (k : string) :
  dict_get k (spending_of p)
  = if existsb (is_expense_of k) p
    then Some (dict_get_default k (Z2num 0) (spending_of p)) else None.
Proof.
  rewrite spent_is_category_total. apply spending_of_get.
Qed.

(** The reports of a period with one more transaction at its end. *)
Lemma reports_with_one_more (p : list Transaction) (t : Transaction) :
  income (summary_of (p ++ [t]))
  = (income (summary_of p) + (if is_income t then amount t else 0))%Qc
  /\ expenses (summary_of (p ++ [t]))
     = (expenses (summary_of p) + (if is_expense t then amount t else 0))%Qc
  /\ (forall k,
         dict_get_default k (Z2num 0) (spending_of (p ++ [t]))
         = (dict_get_default k (Z2num 0) (spending_of p)
            + (if is_expense_of k t then amount t else 0))%Qc)
  /\ (forall k,
         is_expense_of k t = false ->
         dict_get k (spending_of (p ++ [t])) = dict_get k (spending_of p)).
Proof.
  unfold summary_of. cbn [income expenses].
  rewrite !sum_filter_total, !total_app. cbn [total].
  split; [destruct (is_income t); ring |].
  split; [destruct (is_expense t); ring |].
  split.
  - intros k. rewrite !spent_is_category_total, total_app. cbn [total].
    destruct (is_expense_of k t); ring.
  - intros k Hk. rewrite !spending_of_get, existsb_app, total_app.
    cbn [existsb total]. rewrite Hk, orb_false_r.
    destruct (existsb (is_expense_of k) p); [f_equal; ring | reflexivity].
Qed.

(** X17: what adding an expense does to the reports.  On amounts that
    add without rounding, after [add_transaction] with a type that is
    "expense" up to case, over any period of one day or more and at the
    same instant, the expenses are up by the absolute value of the
    amount, the income is the same, the net is the income less the new
    expenses, and in the spending by category the total of the lowered
    category is up by the absolute value of the amount while the other
    categories are as they were. *)
Theorem added_expense_and_reports (now : datetime) (fs : filesystem)
    (self : FinanceTracker) (x : num) (c d ty : string) (days : Z)
    (s : income_vs_expenses) (sp : dict num) :
  in_datetime_range now -> (1 <= days)%Z ->
  lower ty = "expense" ->
  whole_amounts_with (transactions self) x ->
  get_income_vs_expenses now days self = Ok s ->
  get_spending_by_category now days self = Ok sp ->
  exists self' fs' out s' sp',
    add_transaction now fs self x c d ty = Ok (self', fs', out) /\
    get_income_vs_expenses now days self' = Ok s' /\
    get_spending_by_category now days self' = Ok sp' /\
    income s' = income s /\
    expenses s' = (expenses s + Qcabs x)%Qc /\
    net s' = (income s - (expenses s + Qcabs x))%Qc /\
    dict_get (lower c) sp'
    = Some (dict_get_default (lower c) (Z2num 0) sp + Qcabs x)%Qc /\
    forall k, k <> lower c -> dict_get k sp' = dict_get k sp.
Proof.
  intros Hrange Hdays Hty _ Hs Hsp.
  unfold get_income_vs_expenses in Hs. bind_inv Hs. injection Hs as <-.
  unfold get_spending_by_category in Hsp. rewrite Ha in Hsp.
  cbn [bind] in Hsp. injection Hsp as <-. rename a into p.
  rewrite add_transaction_Ok. cbv zeta.
  match goal with
  | |- context [Ok (?s, _, _)] => set (self' := s)
  end.
  match goal with
  | _ := context [transactions self ++ [?u]] |- _ => set (t := u) in *
  end.
  pose proof (dated_in_period_today now days t Hrange eq_refl) as (Hin & _).
  pose proof (period_with_one_more now days self self' t p Hrange
                eq_refl eq_refl Ha) as Hp'.
  rewrite (Hin Hdays) in Hp'.
  exists self'. do 4 eexists. split; [reflexivity |].
  unfold get_income_vs_expenses, get_spending_by_category. rewrite Hp'.
  cbn [bind]. split; [reflexivity |]. split; [reflexivity |].
  destruct (reports_with_one_more p t) as (Hinc & Hexp & Hdef & Hother).
  assert (Et : is_expense t = true).
  { unfold is_expense, t. cbn [type]. now rewrite Hty. }
  assert (It : is_income t = false).
  { unfold is_income, t. cbn [type]. now rewrite Hty. }
  rewrite It in Hinc. rewrite Et in Hexp.
  assert (Hinc' : income (summary_of (p ++ [t])) = income (summary_of p))
    by (rewrite Hinc; ring).
  split; [exact Hinc' |]. split; [exact Hexp |].
  split.
  { change (net (summary_of (p ++ [t])))
      with (income (summary_of (p ++ [t])) - expenses (summary_of (p ++ [t])))%Qc.
    rewrite Hinc', Hexp. reflexivity. }
  split.
  - rewrite spending_of_get_default, existsb_app. cbn [existsb].
    assert (Ek : is_expense_of (lower c) t = true).
    { unfold is_expense_of. rewrite Et. cbn [category t andb].
      apply String.eqb_refl. }
    rewrite Ek, orb_true_r, Hdef, Ek. reflexivity.
  - intros k Hk. apply Hother. unfold is_expense_of. rewrite Et.
    cbn [category t andb]. apply String.eqb_neq. congruence.
Qed.

Lemma sample_transactions_whole_with :
  whole_amounts_with sample_transactions (Z2num (-12)).
Proof.
  split; [exact sample_transactions_whole |].
  split; [exists (-12)%Z; reflexivity | reflexivity].
Qed.

Lemma added_expense_and_reports_witness :
  exists self' fs' out s' sp',
    add_transaction sample_now no_files (tracker_of sample_transactions (JObj []))
      (Z2num (-12)) "Food" "lunch" "Expense" = Ok (self', fs', out)
    /\ get_income_vs_expenses sample_now 30 self' = Ok s'
    /\ get_spending_by_category sample_now 30 self' = Ok sp'
    /\ expenses s' = Z2num 1022
    /\ net s' = Z2num (-22)
    /\ dict_get "food" sp' = Some (Z2num 122).
Proof.
  destruct (get_income_vs_expenses sample_now 30
              (tracker_of sample_transactions (JObj []))) as [s | e] eqn:Es;
    [| vm_compute in Es; discriminate Es].
  destruct (get_spending_by_category sample_now 30
              (tracker_of sample_transactions (JObj []))) as [sp | e] eqn:Esp;
    [| vm_compute in Esp; discriminate Esp].
  destruct (added_expense_and_reports sample_now no_files
              (tracker_of sample_transactions (JObj []))
              (Z2num (-12)) "Food" "lunch" "Expense" 30 s sp
              sample_now_in_range ltac:(lia) eq_refl
              sample_transactions_whole_with Es Esp)
    as (self' & fs' & out & s' & sp' & Hadd & Hs' & Hsp' & _ & Hexp & Hnet
        & Hfood & _).
  exists self', fs', out, s', sp'.
  split; [exact Hadd |]. split; [exact Hs' |]. split; [exact Hsp' |].
  vm_compute in Es. injection Es as <-.
  vm_compute in Esp. injection Esp as <-.
  split; [rewrite Hexp; apply num_eq; reflexivity |].
  split; [rewrite Hnet; apply num_eq; reflexivity |].
  change (lower "Food") with "food" in Hfood.
  rewrite Hfood. f_equal; apply num_eq; reflexivity.
Defined.

Lemma typed_budgets_set (b : dict num) (k : string) (v : num) :
  dict_set k (JNum v) (map (fun kv => (fst kv, JNum (snd kv))) b)
  = map (fun kv => (fst kv, JNum (snd kv))) (dict_set k v b).
Proof.
  induction b as [| [k' v'] b IH]; simpl; [reflexivity |].
  destruct (String.eqb k k'); simpl; [reflexivity | now rewrite IH].
Qed.

(** X18: budgets and expenses meet without regard to case.  After
    [set_budget] for a category and [add_transaction] of an expense in a
    category that differs from it in case only, [check_budgets] shows,
    under the lowered category, the budget that was set and a spending
    that is up by the absolute value of the amount. *)
Theorem budget_meets_expense (now : datetime) (fs : filesystem)
    (self : FinanceTracker) (b : dict num) (c1 c2 d ty : string)
    (bud x : num) (p : list Transaction) :
  in_datetime_range now ->
  budgets self = typed_budgets b -> dict_wf b ->
  lower c1 = lower c2 -> lower ty = "expense" ->
  get_transactions_by_period now 30 self = Ok p ->
  exists self1 fs1 out1 self2 fs2 out2 st e,
    set_budget fs self c2 bud = Ok (self1, fs1, out1) /\
    add_transaction now fs1 self1 x c1 d ty = Ok (self2, fs2, out2) /\
    check_budgets now self2 = Ok st /\
    dict_get (lower c2) st = Some e /\
    budget e = bud /\
    spent e = (total (is_expense_of (lower c2)) p + Qcabs x)%Qc /\
    remaining e = (bud - spent e)%Qc.
Proof.
  intros Hrange Hb Hwf Hc Hty Hp.
  unfold set_budget, py_setitem. rewrite Hb. unfold typed_budgets.
  cbn [bind]. rewrite typed_budgets_set.
  match goal with
  | |- context [Ok (?s, _, [BudgetSet _ _])] => set (self1 := s)
  end.
  exists self1. do 2 eexists.
  rewrite add_transaction_Ok. cbv zeta.
  match goal with
  | |- context [Ok (?s, _, [Added _ _ _])] => set (self2 := s)
  end.
  match goal with
  | _ := context [transactions self1 ++ [?u]] |- _ => set (t := u) in *
  end.
  exists self2. do 2 eexists.
  assert (Hp1 : get_transactions_by_period now 30 self1 = Ok p) by exact Hp.
  pose proof (dated_in_period_today now 30 t Hrange eq_refl) as (Hin & _).
  pose proof (period_with_one_more now 30 self1 self2 t p Hrange
                eq_refl eq_refl Hp1) as Hp2.
  rewrite (Hin ltac:(lia)) in Hp2.
  pose proof (check_budgets_typed now self2 (dict_set (lower c2) bud b)
                (p ++ [t]) eq_refl (dict_set_wf b _ _ Hwf) Hp2) as Hst.
  do 2 eexists. split; [reflexivity |]. split; [reflexivity |].
  split; [exact Hst |].
  rewrite dict_get_map, dict_get_set_eq. split; [reflexivity |].
  unfold budget_entry_of. cbn [budget spent remaining fst snd].
  rewrite spent_is_category_total, total_app. cbn [total].
  assert (Ek : is_expense_of (lower c2) t = true).
  { unfold is_expense_of, is_expense, t. cbn [type category].
    rewrite Hty, Hc, !String.eqb_refl. reflexivity. }
  rewrite Ek. split; [reflexivity |].
  split; [cbn [amount t]; ring | reflexivity].
Qed.

Lemma budget_meets_expense_witness :
  exists self1 fs1 out1 self2 fs2 out2 st e,
    set_budget no_files (tracker_of sample_transactions (typed_budgets []))
      "FOOD" (Z2num 200) = Ok (self1, fs1, out1)
    /\ add_transaction sample_now fs1 self1 (Z2num 12) "Food" "lunch" "expense"
       = Ok (self2, fs2, out2)
    /\ check_budgets sample_now self2 = Ok st
    /\ dict_get "food" st = Some e
    /\ budget e = Z2num 200 /\ spent e = Z2num 122.
Proof.
  destruct (budget_meets_expense sample_now no_files
              (tracker_of sample_transactions (typed_budgets [])) []
              "Food" "FOOD" "lunch" "expense" (Z2num 200) (Z2num 12)
              sample_period sample_now_in_range eq_refl)
    as (self1 & fs1 & out1 & self2 & fs2 & out2 & st & e
        & H1 & H2 & H3 & H4 & H5 & H6 & _);
    [constructor | reflexivity | reflexivity | apply sample_period_correct |].
  exists self1, fs1, out1, self2, fs2, out2, st, e.
  repeat (split; [assumption |]).
  rewrite H6. apply num_eq. reflexivity.
Defined.

(** ** The exceptions of [from_dict] *)

(** X19: which exception [from_dict] raises.  A record that lacks one of
    the five fields of the constructor raises [KeyError], whatever its
    other fields hold; with the five fields present, an amount that is no
    number raises [TypeError] and, after it, a category or a type that is
    no text raises [AttributeError], also when the id is missing; the
    missing id raises [KeyError] only when the constructor returned.
    Data that is no object raises [TypeError]. *)
Theorem from_dict_exceptions (now : datetime) (data : json) :
  (forall kvs k,
      data = JObj kvs -> In k constructor_fields -> dict_get k kvs = None ->
      from_dict now data = Raise KeyError)
  /\ (forall kvs a c d ty dt,
      data = JObj kvs ->
      dict_get "amount" kvs = Some a -> dict_get "category" kvs = Some c ->
      dict_get "description" kvs = Some d -> dict_get "type" kvs = Some ty ->
      dict_get "date" kvs = Some dt ->
      (as_num a = None -> from_dict now data = Raise TypeError)
      /\ (as_num a <> None ->
          (forall s, c <> JStr s) \/ (forall s, ty <> JStr s) ->
          from_dict now data = Raise AttributeError)
      /\ (as_num a <> None -> (exists s, c = JStr s) -> (exists s, ty = JStr s) ->
          dict_get "id" kvs = None ->
          from_dict now data = Raise KeyError))
  /\ ((forall kvs, data <> JObj kvs) -> from_dict now data = Raise TypeError).
Proof.
  split; [| split].
  - intros kvs k -> Hk Hnone. unfold from_dict, subscript.
    destruct (dict_get "amount" kvs) eqn:Ea; [| reflexivity].
    destruct (dict_get "category" kvs) eqn:Ec; [| reflexivity].
    destruct (dict_get "description" kvs) eqn:Ed; [| reflexivity].
    destruct (dict_get "type" kvs) eqn:Ety; [| reflexivity].
    destruct (dict_get "date" kvs) eqn:Edt; [| reflexivity].
    simpl in Hk. destruct Hk as [<- | [<- | [<- | [<- | [<- | []]]]]];
      congruence.
  - intros kvs a c d ty dt -> Ea Ec Ed Ety Edt.
    unfold from_dict, subscript. rewrite Ea, Ec, Ed, Ety, Edt. cbn [bind].
    unfold Transaction_init, py_abs.
    split; [intros ->; reflexivity |].
    split.
    + intros Hnum Hshape. destruct (as_num a); [| congruence]. cbn [bind].
      destruct c as [| | | sc | |]; try reflexivity.
      destruct Hshape as [Hc | Hty]; [now destruct (Hc sc) |].
      destruct ty as [| | | sty | |]; try reflexivity. now destruct (Hty sty).
    + intros Hnum (sc & ->) (sty & ->) Hid.
      destruct (as_num a); [| congruence]. cbn [bind py_lower].
      rewrite Hid. reflexivity.
  - intros Hshape. unfold from_dict, subscript.
    destruct data as [| | | | | kvs]; try reflexivity.
    now destruct (Hshape kvs).
Qed.

Lemma from_dict_exceptions_witness :
  from_dict sample_now text_amount_record = Raise TypeError
  /\ from_dict sample_now (JObj [("amount", JStr "abc")]) = Raise KeyError
  /\ from_dict sample_now (JStr "record") = Raise TypeError.
Proof.
  split; [| split].
  - destruct (from_dict_exceptions sample_now text_amount_record) as (_ & H & _).
    apply (H _ _ _ _ _ _ eq_refl eq_refl eq_refl eq_refl eq_refl eq_refl).
    reflexivity.
  - destruct (from_dict_exceptions sample_now (JObj [("amount", JStr "abc")]))
      as (H & _).
    apply (H _ "category" eq_refl); [simpl; tauto | reflexivity].
  - destruct (from_dict_exceptions sample_now (JStr "record")) as (_ & _ & H).
    apply H. intros kvs. discriminate.
Defined.

(** ** Signs *)







(** ** Loading into a tracker that holds data *)

(** X21: [load_data] keeps or replaces, it never merges and never
    empties.  Called on a tracker that holds data, it leaves the tracker
    as it is when the file is missing (nothing printed) and when the
    load fails with a caught exception (warning printed); when it
    succeeds, the transactions and the budgets are those of the file
    alone. *)
Theorem load_data_keeps_or_replaces (now : datetime) (fs : filesystem)
    (self ft : FinanceTracker) (out : list printed) :
  load_data now fs self = Ok (ft, out) ->
  (ft = self
   /\ ((fs (data_file self) = None /\ out = [])
       \/ (fs (data_file self) <> None /\ out = [WarningCouldNotLoad])))
  \/ (exists data txs b,
         fs (data_file self) = Some (Document data) /\
         load_body now data = Ok (txs, b) /\
         out = [] /\
         ft = {| data_file := data_file self;
                 transactions := txs;
                 budgets := b |}).
Proof.
  unfold load_data.
  destruct (fs (data_file self)) as [[| data] |] eqn:Efile.
  - intros [= <- <-]. left. split; [reflexivity |]. right.
    split; [discriminate | reflexivity].
  - destruct (load_body now data) as [[txs b] | e] eqn:Ebody.
    + intros [= <- <-]. right. exists data, txs, b. auto.
    + destruct e; intros H; try discriminate H; injection H as <- <-;
        left; (split; [reflexivity |]); right;
        (split; [discriminate | reflexivity]).
  - intros [= <- <-]. left. split; [reflexivity |]. left. auto.
Qed.

Lemma load_data_keeps_or_replaces_witness :
  load_data sample_now (one_file no_amount_document) sample_tracker
  = Ok (sample_tracker, [WarningCouldNotLoad])
  /\ exists ft,
      load_data sample_now (one_file hand_written_document) sample_tracker
      = Ok (ft, [])
      /\ List.length (transactions ft) = 1%nat /\ budgets ft = JObj [].
Proof.
  split.
  - destruct (load_data sample_now (one_file no_amount_document) sample_tracker)
      as [[ft out] | e] eqn:E; [| vm_compute in E; discriminate E].
    destruct (load_data_keeps_or_replaces _ _ _ _ _ E)
      as [(-> & [(Hnone & _) | (_ & ->)]) | (data & txs & b & Hfile & Hbody & _)].
    + discriminate Hnone.
    + reflexivity.
    + injection Hfile as <-. vm_compute in Hbody. discriminate Hbody.
  - destruct (load_data sample_now (one_file hand_written_document)
                sample_tracker) as [[ft out] | e] eqn:E;
      [| vm_compute in E; discriminate E].
    destruct (load_data_keeps_or_replaces _ _ _ _ _ E)
      as [(-> & _) | (data & txs & b & Hfile & Hbody & -> & ->)].
    + vm_compute in E. discriminate E.
    + exists {| data_file := data_file sample_tracker;
                transactions := txs; budgets := b |}.
      split; [reflexivity |].
      injection Hfile as <-. vm_compute in Hbody. injection Hbody as <- <-.
      split; reflexivity.
Defined.
